(** * Multimaster: distributed commit and cluster membership

    A shallow embedding of the commit and membership core of the
    multimaster extension ([multimaster.c]) and of the output side of its
    replication protocol ([pglogical_proto.c]), with the properties the
    specification states about them.

    Conventions of the embedding.
    - C integers are [Z].  Unsigned 64-bit quantities ([csn_t],
      [timestamp_t], [XLogRecPtr], [nodemask_t]) wrap with [wrap64];
      [int] counters are plain [Z]: signed overflow is undefined in C and
      is outside the model.
    - The shared structure [Mtm], the two hash tables and the backend-local
      globals form one [Backend] record that is threaded through every
      function by the monad [M]; [elog(ERROR, ...)] leaves the function
      with [Raise].
    - What the code cannot know in advance is supplied by oracles that are
      variables of the section: the readings of the system clock, what the
      other processes do to shared memory while this backend is suspended,
      the answers of the shared configuration store.
    - The diagnostic macros [MTM_LOG1]..[MTM_LOG4], [MTM_INFO],
      [MTM_TXTRACE] and the [fprintf(stderr, ...)] dumps are not modelled;
      [elog] calls are recorded in the trace. *)

From Stdlib Require Import ZArith Lia List Ascii String Bool Sorted.
From stdpp Require Import base decidable option list gmap strings.

Local Open Scope string_scope.
Local Open Scope list_scope.
Local Open Scope Z_scope.

(** ** Machine integers *)

Definition wrap64 (z : Z) : Z := z mod 2 ^ 64.

Definition UINT64_MAX : Z := 2 ^ 64 - 1.

Definition uint64 (z : Z) : Prop := 0 <= z <= UINT64_MAX.

(** [~x] on a 64-bit word. *)
Definition not64 (x : Z) : Z := Z.lxor x UINT64_MAX.

Definition USECS_PER_SEC : Z := 1000000.

(** Modelled from the spec: [multimaster.h] is not among the sources, so
    the time conversions it defines follow their names and the units of
    the configuration knobs (milliseconds) and of the clock
    (microseconds); the product is a [timestamp_t]. *)
Definition MSEC_TO_USEC (t : Z) : Z := wrap64 (t * 1000).

Definition USEC_TO_MSEC (t : Z) : Z := t / 1000.

(** Modelled from the spec: the node-set macros of the missing
    [multimaster.h].  A node set is a 64-bit word in which bit [i] stands
    for node [i+1]. *)
Definition bit64 (bit : Z) : Z := wrap64 (Z.shiftl 1 bit).

Definition BIT_CHECK (mask bit : Z) : bool := negb (Z.land mask (bit64 bit) =? 0).

Definition BIT_SET (mask bit : Z) : Z := Z.lor mask (bit64 bit).

Definition BIT_CLEAR (mask bit : Z) : Z := Z.land mask (not64 (bit64 bit)).

(** Constants of [multimaster.c]. *)
Definition MIN_WAIT_TIMEOUT : Z := 1000.
Definition MAX_WAIT_TIMEOUT : Z := 100000.
Definition MAX_WAIT_LOOPS : nat := 100.

(** ** Data model *)

Inductive XidStatus : Type :=
| TRANSACTION_STATUS_IN_PROGRESS
| TRANSACTION_STATUS_COMMITTED
| TRANSACTION_STATUS_ABORTED
| TRANSACTION_STATUS_UNKNOWN.

(** The node statuses, in the order of [MtmNodeStatusMnem]. *)
Inductive MtmNodeStatus : Type :=
| MTM_INITIALIZATION
| MTM_OFFLINE
| MTM_CONNECTED
| MTM_ONLINE
| MTM_RECOVERY
| MTM_IN_MINORITY
| MTM_OUT_OF_SERVICE.

Inductive MtmMessageCode : Type :=
| MSG_INVALID
| MSG_READY
| MSG_ABORTED.

Inductive IsoLevel : Type :=
| XACT_READ_UNCOMMITTED
| XACT_READ_COMMITTED
| XACT_REPEATABLE_READ
| XACT_SERIALIZABLE.

#[global] Instance XidStatus_eq_dec : EqDecision XidStatus.
Proof. solve_decision. Defined.

#[global] Instance MtmNodeStatus_eq_dec : EqDecision MtmNodeStatus.
Proof. solve_decision. Defined.

#[global] Instance IsoLevel_eq_dec : EqDecision IsoLevel.
Proof. solve_decision. Defined.

(** [GlobalTransactionId]: the pair (node, xid). *)
Record GlobalTransactionId : Type := Build_GlobalTransactionId {
  gtid_node : Z;  (* originating node *)
  gtid_xid : Z  (* xid at the originating node *)
}.

Definition set_gtid_xid (v : Z) (r : GlobalTransactionId) : GlobalTransactionId :=
  {| gtid_node := gtid_node r; gtid_xid := v |}.

(** [MtmTransState]: one entry of the [MtmXid2State] hash.  The intrusive [next] and [nextVoting] links are kept in [transListHead] and [votingTransactions] of [MtmState] as lists of keys. *)
Record MtmTransState : Type := Build_MtmTransState {
  ts_xid : Z;  (* local transaction ID (hash key) *)
  ts_gtid : GlobalTransactionId;
  ts_status : XidStatus;
  ts_snapshot : Z;
  ts_csn : Z;
  ts_isLocal : bool;
  ts_isEnqueued : bool;
  ts_votingCompleted : bool;
  ts_procno : Z;
  ts_cmd : MtmMessageCode;
  ts_nSubxids : Z
}.

Definition set_ts_gtid (v : GlobalTransactionId) (r : MtmTransState) : MtmTransState :=
  {| ts_xid := ts_xid r; ts_gtid := v; ts_status := ts_status r; ts_snapshot := ts_snapshot r;
     ts_csn := ts_csn r; ts_isLocal := ts_isLocal r; ts_isEnqueued := ts_isEnqueued r;
     ts_votingCompleted := ts_votingCompleted r; ts_procno := ts_procno r; ts_cmd := ts_cmd r;
     ts_nSubxids := ts_nSubxids r |}.
Definition set_ts_status (v : XidStatus) (r : MtmTransState) : MtmTransState :=
  {| ts_xid := ts_xid r; ts_gtid := ts_gtid r; ts_status := v; ts_snapshot := ts_snapshot r;
     ts_csn := ts_csn r; ts_isLocal := ts_isLocal r; ts_isEnqueued := ts_isEnqueued r;
     ts_votingCompleted := ts_votingCompleted r; ts_procno := ts_procno r; ts_cmd := ts_cmd r;
     ts_nSubxids := ts_nSubxids r |}.
Definition set_ts_snapshot (v : Z) (r : MtmTransState) : MtmTransState :=
  {| ts_xid := ts_xid r; ts_gtid := ts_gtid r; ts_status := ts_status r; ts_snapshot := v; ts_csn
     := ts_csn r; ts_isLocal := ts_isLocal r; ts_isEnqueued := ts_isEnqueued r; ts_votingCompleted :=
     ts_votingCompleted r; ts_procno := ts_procno r; ts_cmd := ts_cmd r; ts_nSubxids := ts_nSubxids r
     |}.
Definition set_ts_csn (v : Z) (r : MtmTransState) : MtmTransState :=
  {| ts_xid := ts_xid r; ts_gtid := ts_gtid r; ts_status := ts_status r; ts_snapshot :=
     ts_snapshot r; ts_csn := v; ts_isLocal := ts_isLocal r; ts_isEnqueued := ts_isEnqueued r;
     ts_votingCompleted := ts_votingCompleted r; ts_procno := ts_procno r; ts_cmd := ts_cmd r;
     ts_nSubxids := ts_nSubxids r |}.
Definition set_ts_isLocal (v : bool) (r : MtmTransState) : MtmTransState :=
  {| ts_xid := ts_xid r; ts_gtid := ts_gtid r; ts_status := ts_status r; ts_snapshot :=
     ts_snapshot r; ts_csn := ts_csn r; ts_isLocal := v; ts_isEnqueued := ts_isEnqueued r;
     ts_votingCompleted := ts_votingCompleted r; ts_procno := ts_procno r; ts_cmd := ts_cmd r;
     ts_nSubxids := ts_nSubxids r |}.
Definition set_ts_isEnqueued (v : bool) (r : MtmTransState) : MtmTransState :=
  {| ts_xid := ts_xid r; ts_gtid := ts_gtid r; ts_status := ts_status r; ts_snapshot :=
     ts_snapshot r; ts_csn := ts_csn r; ts_isLocal := ts_isLocal r; ts_isEnqueued := v;
     ts_votingCompleted := ts_votingCompleted r; ts_procno := ts_procno r; ts_cmd := ts_cmd r;
     ts_nSubxids := ts_nSubxids r |}.
Definition set_ts_votingCompleted (v : bool) (r : MtmTransState) : MtmTransState :=
  {| ts_xid := ts_xid r; ts_gtid := ts_gtid r; ts_status := ts_status r; ts_snapshot :=
     ts_snapshot r; ts_csn := ts_csn r; ts_isLocal := ts_isLocal r; ts_isEnqueued := ts_isEnqueued r;
     ts_votingCompleted := v; ts_procno := ts_procno r; ts_cmd := ts_cmd r; ts_nSubxids :=
     ts_nSubxids r |}.
Definition set_ts_procno (v : Z) (r : MtmTransState) : MtmTransState :=
  {| ts_xid := ts_xid r; ts_gtid := ts_gtid r; ts_status := ts_status r; ts_snapshot :=
     ts_snapshot r; ts_csn := ts_csn r; ts_isLocal := ts_isLocal r; ts_isEnqueued := ts_isEnqueued r;
     ts_votingCompleted := ts_votingCompleted r; ts_procno := v; ts_cmd := ts_cmd r; ts_nSubxids :=
     ts_nSubxids r |}.
Definition set_ts_cmd (v : MtmMessageCode) (r : MtmTransState) : MtmTransState :=
  {| ts_xid := ts_xid r; ts_gtid := ts_gtid r; ts_status := ts_status r; ts_snapshot :=
     ts_snapshot r; ts_csn := ts_csn r; ts_isLocal := ts_isLocal r; ts_isEnqueued := ts_isEnqueued r;
     ts_votingCompleted := ts_votingCompleted r; ts_procno := ts_procno r; ts_cmd := v; ts_nSubxids
     := ts_nSubxids r |}.

(** [MtmTransMap]: one entry of the [MtmGid2State] hash (the key is the GID). *)
Record MtmTransMap : Type := Build_MtmTransMap {
  tm_status : XidStatus;
  tm_state : option Z  (* the [state] pointer, as the key of the entry it points to *)
}.

Definition set_tm_status (v : XidStatus) (r : MtmTransMap) : MtmTransMap :=
  {| tm_status := v; tm_state := tm_state r |}.
Definition set_tm_state (v : option Z) (r : MtmTransMap) : MtmTransMap :=
  {| tm_status := tm_status r; tm_state := v |}.

(** [MtmCurrentTrans]: the backend-local descriptor [MtmTx]. *)
Record MtmCurrentTrans : Type := Build_MtmCurrentTrans {
  x_xid : Z;
  x_gtid : GlobalTransactionId;
  x_isReplicated : bool;
  x_isDistributed : bool;
  x_isPrepared : bool;
  x_isTransactionBlock : bool;
  x_containsDML : bool;
  x_status : XidStatus;
  x_snapshot : Z;
  x_csn : Z;
  x_gid : string
}.

Definition set_x_xid (v : Z) (r : MtmCurrentTrans) : MtmCurrentTrans :=
  {| x_xid := v; x_gtid := x_gtid r; x_isReplicated := x_isReplicated r; x_isDistributed :=
     x_isDistributed r; x_isPrepared := x_isPrepared r; x_isTransactionBlock := x_isTransactionBlock
     r; x_containsDML := x_containsDML r; x_status := x_status r; x_snapshot := x_snapshot r; x_csn
     := x_csn r; x_gid := x_gid r |}.
Definition set_x_gtid (v : GlobalTransactionId) (r : MtmCurrentTrans) : MtmCurrentTrans :=
  {| x_xid := x_xid r; x_gtid := v; x_isReplicated := x_isReplicated r; x_isDistributed :=
     x_isDistributed r; x_isPrepared := x_isPrepared r; x_isTransactionBlock := x_isTransactionBlock
     r; x_containsDML := x_containsDML r; x_status := x_status r; x_snapshot := x_snapshot r; x_csn
     := x_csn r; x_gid := x_gid r |}.
Definition set_x_isReplicated (v : bool) (r : MtmCurrentTrans) : MtmCurrentTrans :=
  {| x_xid := x_xid r; x_gtid := x_gtid r; x_isReplicated := v; x_isDistributed := x_isDistributed
     r; x_isPrepared := x_isPrepared r; x_isTransactionBlock := x_isTransactionBlock r; x_containsDML
     := x_containsDML r; x_status := x_status r; x_snapshot := x_snapshot r; x_csn := x_csn r; x_gid
     := x_gid r |}.
Definition set_x_isDistributed (v : bool) (r : MtmCurrentTrans) : MtmCurrentTrans :=
  {| x_xid := x_xid r; x_gtid := x_gtid r; x_isReplicated := x_isReplicated r; x_isDistributed :=
     v; x_isPrepared := x_isPrepared r; x_isTransactionBlock := x_isTransactionBlock r; x_containsDML
     := x_containsDML r; x_status := x_status r; x_snapshot := x_snapshot r; x_csn := x_csn r; x_gid
     := x_gid r |}.
Definition set_x_isPrepared (v : bool) (r : MtmCurrentTrans) : MtmCurrentTrans :=
  {| x_xid := x_xid r; x_gtid := x_gtid r; x_isReplicated := x_isReplicated r; x_isDistributed :=
     x_isDistributed r; x_isPrepared := v; x_isTransactionBlock := x_isTransactionBlock r;
     x_containsDML := x_containsDML r; x_status := x_status r; x_snapshot := x_snapshot r; x_csn :=
     x_csn r; x_gid := x_gid r |}.
Definition set_x_isTransactionBlock (v : bool) (r : MtmCurrentTrans) : MtmCurrentTrans :=
  {| x_xid := x_xid r; x_gtid := x_gtid r; x_isReplicated := x_isReplicated r; x_isDistributed :=
     x_isDistributed r; x_isPrepared := x_isPrepared r; x_isTransactionBlock := v; x_containsDML :=
     x_containsDML r; x_status := x_status r; x_snapshot := x_snapshot r; x_csn := x_csn r; x_gid :=
     x_gid r |}.
Definition set_x_containsDML (v : bool) (r : MtmCurrentTrans) : MtmCurrentTrans :=
  {| x_xid := x_xid r; x_gtid := x_gtid r; x_isReplicated := x_isReplicated r; x_isDistributed :=
     x_isDistributed r; x_isPrepared := x_isPrepared r; x_isTransactionBlock := x_isTransactionBlock
     r; x_containsDML := v; x_status := x_status r; x_snapshot := x_snapshot r; x_csn := x_csn r;
     x_gid := x_gid r |}.
Definition set_x_status (v : XidStatus) (r : MtmCurrentTrans) : MtmCurrentTrans :=
  {| x_xid := x_xid r; x_gtid := x_gtid r; x_isReplicated := x_isReplicated r; x_isDistributed :=
     x_isDistributed r; x_isPrepared := x_isPrepared r; x_isTransactionBlock := x_isTransactionBlock
     r; x_containsDML := x_containsDML r; x_status := v; x_snapshot := x_snapshot r; x_csn := x_csn
     r; x_gid := x_gid r |}.
Definition set_x_snapshot (v : Z) (r : MtmCurrentTrans) : MtmCurrentTrans :=
  {| x_xid := x_xid r; x_gtid := x_gtid r; x_isReplicated := x_isReplicated r; x_isDistributed :=
     x_isDistributed r; x_isPrepared := x_isPrepared r; x_isTransactionBlock := x_isTransactionBlock
     r; x_containsDML := x_containsDML r; x_status := x_status r; x_snapshot := v; x_csn := x_csn r;
     x_gid := x_gid r |}.
Definition set_x_gid (v : string) (r : MtmCurrentTrans) : MtmCurrentTrans :=
  {| x_xid := x_xid r; x_gtid := x_gtid r; x_isReplicated := x_isReplicated r; x_isDistributed :=
     x_isDistributed r; x_isPrepared := x_isPrepared r; x_isTransactionBlock := x_isTransactionBlock
     r; x_containsDML := x_containsDML r; x_status := x_status r; x_snapshot := x_snapshot r; x_csn
     := x_csn r; x_gid := v |}.

(** [MtmNodeInfo]: the per-node record [Mtm->nodes[i]] (fields used by the modelled functions). *)
Record MtmNodeInfo : Type := Build_MtmNodeInfo {
  lastHeartbeat : Z;
  lastStatusChangeTime : Z;
  oldestSnapshot : Z
}.

Definition set_lastHeartbeat (v : Z) (r : MtmNodeInfo) : MtmNodeInfo :=
  {| lastHeartbeat := v; lastStatusChangeTime := lastStatusChangeTime r; oldestSnapshot :=
     oldestSnapshot r |}.
Definition set_lastStatusChangeTime (v : Z) (r : MtmNodeInfo) : MtmNodeInfo :=
  {| lastHeartbeat := lastHeartbeat r; lastStatusChangeTime := v; oldestSnapshot := oldestSnapshot
     r |}.
Definition set_oldestSnapshot (v : Z) (r : MtmNodeInfo) : MtmNodeInfo :=
  {| lastHeartbeat := lastHeartbeat r; lastStatusChangeTime := lastStatusChangeTime r;
     oldestSnapshot := v |}.

(** [MtmState]: the shared structure [Mtm] (fields used by the modelled functions). *)
Record MtmState : Type := Build_MtmState {
  status : MtmNodeStatus;
  oldestXid : Z;
  disabledNodeMask : Z;
  connectivityMask : Z;
  walSenderLockerMask : Z;
  nodeLockerMask : Z;
  reconnectMask : Z;
  inject2PCError : Z;
  nLiveNodes : Z;
  nAllNodes : Z;
  nLockers : Z;
  nActiveTransactions : Z;
  nConfigChanges : Z;
  timeShift : Z;
  csn : Z;  (* last obtained timestamp *)
  lastCsn : Z;  (* CSN of the last committed transaction *)
  gcCount : Z;
  transListHead : list Z;  (* the list threaded through [next], from its head *)
  votingTransactions : list Z;  (* the list threaded through [nextVoting] *)
  nodes : list MtmNodeInfo
}.

Definition set_status (v : MtmNodeStatus) (r : MtmState) : MtmState :=
  {| status := v; oldestXid := oldestXid r; disabledNodeMask := disabledNodeMask r;
     connectivityMask := connectivityMask r; walSenderLockerMask := walSenderLockerMask r;
     nodeLockerMask := nodeLockerMask r; reconnectMask := reconnectMask r; inject2PCError :=
     inject2PCError r; nLiveNodes := nLiveNodes r; nAllNodes := nAllNodes r; nLockers := nLockers r;
     nActiveTransactions := nActiveTransactions r; nConfigChanges := nConfigChanges r; timeShift :=
     timeShift r; csn := csn r; lastCsn := lastCsn r; gcCount := gcCount r; transListHead :=
     transListHead r; votingTransactions := votingTransactions r; nodes := nodes r |}.
Definition set_oldestXid (v : Z) (r : MtmState) : MtmState :=
  {| status := status r; oldestXid := v; disabledNodeMask := disabledNodeMask r; connectivityMask
     := connectivityMask r; walSenderLockerMask := walSenderLockerMask r; nodeLockerMask :=
     nodeLockerMask r; reconnectMask := reconnectMask r; inject2PCError := inject2PCError r;
     nLiveNodes := nLiveNodes r; nAllNodes := nAllNodes r; nLockers := nLockers r;
     nActiveTransactions := nActiveTransactions r; nConfigChanges := nConfigChanges r; timeShift :=
     timeShift r; csn := csn r; lastCsn := lastCsn r; gcCount := gcCount r; transListHead :=
     transListHead r; votingTransactions := votingTransactions r; nodes := nodes r |}.
Definition set_disabledNodeMask (v : Z) (r : MtmState) : MtmState :=
  {| status := status r; oldestXid := oldestXid r; disabledNodeMask := v; connectivityMask :=
     connectivityMask r; walSenderLockerMask := walSenderLockerMask r; nodeLockerMask :=
     nodeLockerMask r; reconnectMask := reconnectMask r; inject2PCError := inject2PCError r;
     nLiveNodes := nLiveNodes r; nAllNodes := nAllNodes r; nLockers := nLockers r;
     nActiveTransactions := nActiveTransactions r; nConfigChanges := nConfigChanges r; timeShift :=
     timeShift r; csn := csn r; lastCsn := lastCsn r; gcCount := gcCount r; transListHead :=
     transListHead r; votingTransactions := votingTransactions r; nodes := nodes r |}.
Definition set_connectivityMask (v : Z) (r : MtmState) : MtmState :=
  {| status := status r; oldestXid := oldestXid r; disabledNodeMask := disabledNodeMask r;
     connectivityMask := v; walSenderLockerMask := walSenderLockerMask r; nodeLockerMask :=
     nodeLockerMask r; reconnectMask := reconnectMask r; inject2PCError := inject2PCError r;
     nLiveNodes := nLiveNodes r; nAllNodes := nAllNodes r; nLockers := nLockers r;
     nActiveTransactions := nActiveTransactions r; nConfigChanges := nConfigChanges r; timeShift :=
     timeShift r; csn := csn r; lastCsn := lastCsn r; gcCount := gcCount r; transListHead :=
     transListHead r; votingTransactions := votingTransactions r; nodes := nodes r |}.
Definition set_walSenderLockerMask (v : Z) (r : MtmState) : MtmState :=
  {| status := status r; oldestXid := oldestXid r; disabledNodeMask := disabledNodeMask r;
     connectivityMask := connectivityMask r; walSenderLockerMask := v; nodeLockerMask :=
     nodeLockerMask r; reconnectMask := reconnectMask r; inject2PCError := inject2PCError r;
     nLiveNodes := nLiveNodes r; nAllNodes := nAllNodes r; nLockers := nLockers r;
     nActiveTransactions := nActiveTransactions r; nConfigChanges := nConfigChanges r; timeShift :=
     timeShift r; csn := csn r; lastCsn := lastCsn r; gcCount := gcCount r; transListHead :=
     transListHead r; votingTransactions := votingTransactions r; nodes := nodes r |}.
Definition set_nodeLockerMask (v : Z) (r : MtmState) : MtmState :=
  {| status := status r; oldestXid := oldestXid r; disabledNodeMask := disabledNodeMask r;
     connectivityMask := connectivityMask r; walSenderLockerMask := walSenderLockerMask r;
     nodeLockerMask := v; reconnectMask := reconnectMask r; inject2PCError := inject2PCError r;
     nLiveNodes := nLiveNodes r; nAllNodes := nAllNodes r; nLockers := nLockers r;
     nActiveTransactions := nActiveTransactions r; nConfigChanges := nConfigChanges r; timeShift :=
     timeShift r; csn := csn r; lastCsn := lastCsn r; gcCount := gcCount r; transListHead :=
     transListHead r; votingTransactions := votingTransactions r; nodes := nodes r |}.
Definition set_reconnectMask (v : Z) (r : MtmState) : MtmState :=
  {| status := status r; oldestXid := oldestXid r; disabledNodeMask := disabledNodeMask r;
     connectivityMask := connectivityMask r; walSenderLockerMask := walSenderLockerMask r;
     nodeLockerMask := nodeLockerMask r; reconnectMask := v; inject2PCError := inject2PCError r;
     nLiveNodes := nLiveNodes r; nAllNodes := nAllNodes r; nLockers := nLockers r;
     nActiveTransactions := nActiveTransactions r; nConfigChanges := nConfigChanges r; timeShift :=
     timeShift r; csn := csn r; lastCsn := lastCsn r; gcCount := gcCount r; transListHead :=
     transListHead r; votingTransactions := votingTransactions r; nodes := nodes r |}.
Definition set_inject2PCError (v : Z) (r : MtmState) : MtmState :=
  {| status := status r; oldestXid := oldestXid r; disabledNodeMask := disabledNodeMask r;
     connectivityMask := connectivityMask r; walSenderLockerMask := walSenderLockerMask r;
     nodeLockerMask := nodeLockerMask r; reconnectMask := reconnectMask r; inject2PCError := v;
     nLiveNodes := nLiveNodes r; nAllNodes := nAllNodes r; nLockers := nLockers r;
     nActiveTransactions := nActiveTransactions r; nConfigChanges := nConfigChanges r; timeShift :=
     timeShift r; csn := csn r; lastCsn := lastCsn r; gcCount := gcCount r; transListHead :=
     transListHead r; votingTransactions := votingTransactions r; nodes := nodes r |}.
Definition set_nLiveNodes (v : Z) (r : MtmState) : MtmState :=
  {| status := status r; oldestXid := oldestXid r; disabledNodeMask := disabledNodeMask r;
     connectivityMask := connectivityMask r; walSenderLockerMask := walSenderLockerMask r;
     nodeLockerMask := nodeLockerMask r; reconnectMask := reconnectMask r; inject2PCError :=
     inject2PCError r; nLiveNodes := v; nAllNodes := nAllNodes r; nLockers := nLockers r;
     nActiveTransactions := nActiveTransactions r; nConfigChanges := nConfigChanges r; timeShift :=
     timeShift r; csn := csn r; lastCsn := lastCsn r; gcCount := gcCount r; transListHead :=
     transListHead r; votingTransactions := votingTransactions r; nodes := nodes r |}.
Definition set_nAllNodes (v : Z) (r : MtmState) : MtmState :=
  {| status := status r; oldestXid := oldestXid r; disabledNodeMask := disabledNodeMask r;
     connectivityMask := connectivityMask r; walSenderLockerMask := walSenderLockerMask r;
     nodeLockerMask := nodeLockerMask r; reconnectMask := reconnectMask r; inject2PCError :=
     inject2PCError r; nLiveNodes := nLiveNodes r; nAllNodes := v; nLockers := nLockers r;
     nActiveTransactions := nActiveTransactions r; nConfigChanges := nConfigChanges r; timeShift :=
     timeShift r; csn := csn r; lastCsn := lastCsn r; gcCount := gcCount r; transListHead :=
     transListHead r; votingTransactions := votingTransactions r; nodes := nodes r |}.
Definition set_nLockers (v : Z) (r : MtmState) : MtmState :=
  {| status := status r; oldestXid := oldestXid r; disabledNodeMask := disabledNodeMask r;
     connectivityMask := connectivityMask r; walSenderLockerMask := walSenderLockerMask r;
     nodeLockerMask := nodeLockerMask r; reconnectMask := reconnectMask r; inject2PCError :=
     inject2PCError r; nLiveNodes := nLiveNodes r; nAllNodes := nAllNodes r; nLockers := v;
     nActiveTransactions := nActiveTransactions r; nConfigChanges := nConfigChanges r; timeShift :=
     timeShift r; csn := csn r; lastCsn := lastCsn r; gcCount := gcCount r; transListHead :=
     transListHead r; votingTransactions := votingTransactions r; nodes := nodes r |}.
Definition set_nActiveTransactions (v : Z) (r : MtmState) : MtmState :=
  {| status := status r; oldestXid := oldestXid r; disabledNodeMask := disabledNodeMask r;
     connectivityMask := connectivityMask r; walSenderLockerMask := walSenderLockerMask r;
     nodeLockerMask := nodeLockerMask r; reconnectMask := reconnectMask r; inject2PCError :=
     inject2PCError r; nLiveNodes := nLiveNodes r; nAllNodes := nAllNodes r; nLockers := nLockers r;
     nActiveTransactions := v; nConfigChanges := nConfigChanges r; timeShift := timeShift r; csn :=
     csn r; lastCsn := lastCsn r; gcCount := gcCount r; transListHead := transListHead r;
     votingTransactions := votingTransactions r; nodes := nodes r |}.
Definition set_nConfigChanges (v : Z) (r : MtmState) : MtmState :=
  {| status := status r; oldestXid := oldestXid r; disabledNodeMask := disabledNodeMask r;
     connectivityMask := connectivityMask r; walSenderLockerMask := walSenderLockerMask r;
     nodeLockerMask := nodeLockerMask r; reconnectMask := reconnectMask r; inject2PCError :=
     inject2PCError r; nLiveNodes := nLiveNodes r; nAllNodes := nAllNodes r; nLockers := nLockers r;
     nActiveTransactions := nActiveTransactions r; nConfigChanges := v; timeShift := timeShift r; csn
     := csn r; lastCsn := lastCsn r; gcCount := gcCount r; transListHead := transListHead r;
     votingTransactions := votingTransactions r; nodes := nodes r |}.
Definition set_timeShift (v : Z) (r : MtmState) : MtmState :=
  {| status := status r; oldestXid := oldestXid r; disabledNodeMask := disabledNodeMask r;
     connectivityMask := connectivityMask r; walSenderLockerMask := walSenderLockerMask r;
     nodeLockerMask := nodeLockerMask r; reconnectMask := reconnectMask r; inject2PCError :=
     inject2PCError r; nLiveNodes := nLiveNodes r; nAllNodes := nAllNodes r; nLockers := nLockers r;
     nActiveTransactions := nActiveTransactions r; nConfigChanges := nConfigChanges r; timeShift :=
     v; csn := csn r; lastCsn := lastCsn r; gcCount := gcCount r; transListHead := transListHead r;
     votingTransactions := votingTransactions r; nodes := nodes r |}.
Definition set_csn (v : Z) (r : MtmState) : MtmState :=
  {| status := status r; oldestXid := oldestXid r; disabledNodeMask := disabledNodeMask r;
     connectivityMask := connectivityMask r; walSenderLockerMask := walSenderLockerMask r;
     nodeLockerMask := nodeLockerMask r; reconnectMask := reconnectMask r; inject2PCError :=
     inject2PCError r; nLiveNodes := nLiveNodes r; nAllNodes := nAllNodes r; nLockers := nLockers r;
     nActiveTransactions := nActiveTransactions r; nConfigChanges := nConfigChanges r; timeShift :=
     timeShift r; csn := v; lastCsn := lastCsn r; gcCount := gcCount r; transListHead :=
     transListHead r; votingTransactions := votingTransactions r; nodes := nodes r |}.
Definition set_lastCsn (v : Z) (r : MtmState) : MtmState :=
  {| status := status r; oldestXid := oldestXid r; disabledNodeMask := disabledNodeMask r;
     connectivityMask := connectivityMask r; walSenderLockerMask := walSenderLockerMask r;
     nodeLockerMask := nodeLockerMask r; reconnectMask := reconnectMask r; inject2PCError :=
     inject2PCError r; nLiveNodes := nLiveNodes r; nAllNodes := nAllNodes r; nLockers := nLockers r;
     nActiveTransactions := nActiveTransactions r; nConfigChanges := nConfigChanges r; timeShift :=
     timeShift r; csn := csn r; lastCsn := v; gcCount := gcCount r; transListHead := transListHead r;
     votingTransactions := votingTransactions r; nodes := nodes r |}.
Definition set_gcCount (v : Z) (r : MtmState) : MtmState :=
  {| status := status r; oldestXid := oldestXid r; disabledNodeMask := disabledNodeMask r;
     connectivityMask := connectivityMask r; walSenderLockerMask := walSenderLockerMask r;
     nodeLockerMask := nodeLockerMask r; reconnectMask := reconnectMask r; inject2PCError :=
     inject2PCError r; nLiveNodes := nLiveNodes r; nAllNodes := nAllNodes r; nLockers := nLockers r;
     nActiveTransactions := nActiveTransactions r; nConfigChanges := nConfigChanges r; timeShift :=
     timeShift r; csn := csn r; lastCsn := lastCsn r; gcCount := v; transListHead := transListHead r;
     votingTransactions := votingTransactions r; nodes := nodes r |}.
Definition set_transListHead (v : list Z) (r : MtmState) : MtmState :=
  {| status := status r; oldestXid := oldestXid r; disabledNodeMask := disabledNodeMask r;
     connectivityMask := connectivityMask r; walSenderLockerMask := walSenderLockerMask r;
     nodeLockerMask := nodeLockerMask r; reconnectMask := reconnectMask r; inject2PCError :=
     inject2PCError r; nLiveNodes := nLiveNodes r; nAllNodes := nAllNodes r; nLockers := nLockers r;
     nActiveTransactions := nActiveTransactions r; nConfigChanges := nConfigChanges r; timeShift :=
     timeShift r; csn := csn r; lastCsn := lastCsn r; gcCount := gcCount r; transListHead := v;
     votingTransactions := votingTransactions r; nodes := nodes r |}.
Definition set_votingTransactions (v : list Z) (r : MtmState) : MtmState :=
  {| status := status r; oldestXid := oldestXid r; disabledNodeMask := disabledNodeMask r;
     connectivityMask := connectivityMask r; walSenderLockerMask := walSenderLockerMask r;
     nodeLockerMask := nodeLockerMask r; reconnectMask := reconnectMask r; inject2PCError :=
     inject2PCError r; nLiveNodes := nLiveNodes r; nAllNodes := nAllNodes r; nLockers := nLockers r;
     nActiveTransactions := nActiveTransactions r; nConfigChanges := nConfigChanges r; timeShift :=
     timeShift r; csn := csn r; lastCsn := lastCsn r; gcCount := gcCount r; transListHead :=
     transListHead r; votingTransactions := v; nodes := nodes r |}.
Definition set_nodes (v : list MtmNodeInfo) (r : MtmState) : MtmState :=
  {| status := status r; oldestXid := oldestXid r; disabledNodeMask := disabledNodeMask r;
     connectivityMask := connectivityMask r; walSenderLockerMask := walSenderLockerMask r;
     nodeLockerMask := nodeLockerMask r; reconnectMask := reconnectMask r; inject2PCError :=
     inject2PCError r; nLiveNodes := nLiveNodes r; nAllNodes := nAllNodes r; nLockers := nLockers r;
     nActiveTransactions := nActiveTransactions r; nConfigChanges := nConfigChanges r; timeShift :=
     timeShift r; csn := csn r; lastCsn := lastCsn r; gcCount := gcCount r; transListHead :=
     transListHead r; votingTransactions := votingTransactions r; nodes := v |}.

(** [ReplicationSlot]: one entry of the host's array of replication slots (fields used by the modelled functions). *)
Record ReplicationSlot : Type := Build_ReplicationSlot {
  in_use : bool;
  data_name_node : option Z;  (* the node that [sscanf(data.name.data, MULTIMASTER_SLOT_PATTERN, &nodeId)] reads from the name of the slot, when it reads one *)
  data_confirmed_flush : Z;
  data_restart_lsn : Z
}.


(** Shared memory: what every backend of the node sees. *)
Record Shared : Type := Build_Shared {
  Mtm : MtmState;
  MtmXid2State : gmap Z MtmTransState;
  MtmGid2State : gmap string MtmTransMap;
  XLogInsertRecPtr : Z;  (* the host's WAL insert position, [GetXLogInsertRecPtr()] *)
  walsnds_sentPtr : list Z;  (* [WalSndCtl->walsnds[i].sentPtr] *)
  replication_slots : list ReplicationSlot  (* [ReplicationSlotCtl->replication_slots], [max_replication_slots] entries *)
}.

Definition set_Mtm (v : MtmState) (r : Shared) : Shared :=
  {| Mtm := v; MtmXid2State := MtmXid2State r; MtmGid2State := MtmGid2State r; XLogInsertRecPtr :=
     XLogInsertRecPtr r; walsnds_sentPtr := walsnds_sentPtr r; replication_slots := replication_slots
     r |}.
Definition set_MtmXid2State (v : gmap Z MtmTransState) (r : Shared) : Shared :=
  {| Mtm := Mtm r; MtmXid2State := v; MtmGid2State := MtmGid2State r; XLogInsertRecPtr :=
     XLogInsertRecPtr r; walsnds_sentPtr := walsnds_sentPtr r; replication_slots := replication_slots
     r |}.
Definition set_MtmGid2State (v : gmap string MtmTransMap) (r : Shared) : Shared :=
  {| Mtm := Mtm r; MtmXid2State := MtmXid2State r; MtmGid2State := v; XLogInsertRecPtr :=
     XLogInsertRecPtr r; walsnds_sentPtr := walsnds_sentPtr r; replication_slots := replication_slots
     r |}.
Definition set_replication_slots (v : list ReplicationSlot) (r : Shared) : Shared :=
  {| Mtm := Mtm r; MtmXid2State := MtmXid2State r; MtmGid2State := MtmGid2State r;
     XLogInsertRecPtr := XLogInsertRecPtr r; walsnds_sentPtr := walsnds_sentPtr r; replication_slots
     := v |}.

(** What the host engine knows about the current backend and its
    transaction; the modelled code only reads it. *)
Record PgSession : Type := Build_PgSession {
  XactIsoLevel : IsoLevel;
  application_name : string;
  IsAutoVacuumLauncherProcess : bool;
  IsNormalProcessingMode : bool;
  MtmDoReplication : bool;
  am_walsender : bool;
  IsBackgroundWorker : bool;
  IsAutoVacuumWorkerProcess : bool;
  IsTransactionBlock : bool;
  GetCurrentTransactionIdIfAny : Z;
  PgGetOldestXmin : Z;
  MyWalSnd : Z;  (* index of this process in [WalSndCtl->walsnds] *)
  MyReplicationSlot : option nat  (* the slot this process holds, by its index, if any *)
}.

(** ** Effects *)

Inductive LWLockMode : Type := LW_EXCLUSIVE | LW_SHARED.

Inductive ElogLevel : Type := LOG | WARNING | ERROR.

Inductive ElogArg : Type :=
| ArgInt (z : Z)
| ArgStr (s : string).

(** What a function does to the world outside the [Backend] record. *)
Inductive Event : Type :=
| EvLock (mode : LWLockMode)
| EvUnlock
| EvSleep (interval : Z)
| EvWaitLatch (timeout : Z)
| EvSetLatch (procno : Z)
| EvSemaphoreUnlock
| EvRaftableSet (node : Z) (mask : Z)
| EvElog (level : ElogLevel) (fmt : string) (args : list ElogArg).

(** One backend process of the node: shared memory, the file-level globals of the two modules, the host session, the positions in the oracles and the trace of effects. *)
Record Backend : Type := Build_Backend {
  shm : Shared;
  MtmTx : MtmCurrentTrans;
  MtmIsRecoverySession : bool;
  MtmIsFilteredTxn : bool;
  pg : PgSession;
  out : list Z;  (* the output buffer [out] of the replication plugin, as bytes *)
  clk : nat;  (* readings of the system clock taken so far *)
  susp : nat;  (* suspensions (sleeps, latch waits) so far *)
  raft : nat;  (* requests to the configuration store so far *)
  trace : list Event
}.

Definition set_shm (v : Shared) (r : Backend) : Backend :=
  {| shm := v; MtmTx := MtmTx r; MtmIsRecoverySession := MtmIsRecoverySession r; MtmIsFilteredTxn
     := MtmIsFilteredTxn r; pg := pg r; out := out r; clk := clk r; susp := susp r; raft := raft r;
     trace := trace r |}.
Definition set_MtmTx (v : MtmCurrentTrans) (r : Backend) : Backend :=
  {| shm := shm r; MtmTx := v; MtmIsRecoverySession := MtmIsRecoverySession r; MtmIsFilteredTxn :=
     MtmIsFilteredTxn r; pg := pg r; out := out r; clk := clk r; susp := susp r; raft := raft r;
     trace := trace r |}.
Definition set_MtmIsRecoverySession (v : bool) (r : Backend) : Backend :=
  {| shm := shm r; MtmTx := MtmTx r; MtmIsRecoverySession := v; MtmIsFilteredTxn :=
     MtmIsFilteredTxn r; pg := pg r; out := out r; clk := clk r; susp := susp r; raft := raft r;
     trace := trace r |}.
Definition set_MtmIsFilteredTxn (v : bool) (r : Backend) : Backend :=
  {| shm := shm r; MtmTx := MtmTx r; MtmIsRecoverySession := MtmIsRecoverySession r;
     MtmIsFilteredTxn := v; pg := pg r; out := out r; clk := clk r; susp := susp r; raft := raft r;
     trace := trace r |}.
Definition set_out (v : list Z) (r : Backend) : Backend :=
  {| shm := shm r; MtmTx := MtmTx r; MtmIsRecoverySession := MtmIsRecoverySession r;
     MtmIsFilteredTxn := MtmIsFilteredTxn r; pg := pg r; out := v; clk := clk r; susp := susp r; raft
     := raft r; trace := trace r |}.
Definition set_clk (v : nat) (r : Backend) : Backend :=
  {| shm := shm r; MtmTx := MtmTx r; MtmIsRecoverySession := MtmIsRecoverySession r;
     MtmIsFilteredTxn := MtmIsFilteredTxn r; pg := pg r; out := out r; clk := v; susp := susp r; raft
     := raft r; trace := trace r |}.
Definition set_susp (v : nat) (r : Backend) : Backend :=
  {| shm := shm r; MtmTx := MtmTx r; MtmIsRecoverySession := MtmIsRecoverySession r;
     MtmIsFilteredTxn := MtmIsFilteredTxn r; pg := pg r; out := out r; clk := clk r; susp := v; raft
     := raft r; trace := trace r |}.
Definition set_raft (v : nat) (r : Backend) : Backend :=
  {| shm := shm r; MtmTx := MtmTx r; MtmIsRecoverySession := MtmIsRecoverySession r;
     MtmIsFilteredTxn := MtmIsFilteredTxn r; pg := pg r; out := out r; clk := clk r; susp := susp r;
     raft := v; trace := trace r |}.
Definition set_trace (v : list Event) (r : Backend) : Backend :=
  {| shm := shm r; MtmTx := MtmTx r; MtmIsRecoverySession := MtmIsRecoverySession r;
     MtmIsFilteredTxn := MtmIsFilteredTxn r; pg := pg r; out := out r; clk := clk r; susp := susp r;
     raft := raft r; trace := v |}.

(** The result of running a function: it returns, it leaves through
    [elog(ERROR, ...)], or the model ran out of fuel in a [while] loop. *)
Inductive Res (A : Type) : Type :=
| Ok (a : A) (w : Backend)
| Raise (fmt : string) (args : list ElogArg) (w : Backend)
| OutOfFuel.

Arguments Ok {A} a w.
Arguments Raise {A} fmt args w.
Arguments OutOfFuel {A}.

Definition M (A : Type) : Type := Backend -> Res A.

#[global] Instance M_ret : MRet M := fun A (a : A) w => Ok a w.

#[global] Instance M_bind : MBind M := fun A B (k : A -> M B) (c : M A) w =>
  match c w with
  | Ok a w' => k a w'
  | Raise fmt args w' => Raise fmt args w'
  | OutOfFuel => OutOfFuel
  end.

Definition get : M Backend := fun w => Ok w w.

Definition modify (f : Backend -> Backend) : M unit := fun w => Ok tt (f w).

Definition emit (e : Event) : M unit :=
  modify (fun w => set_trace (trace w ++ [e]) w).

(** [elog] below [ERROR] only reports. *)
Definition elog (level : ElogLevel) (fmt : string) (args : list ElogArg) : M unit :=
  emit (EvElog level fmt args).

(** [elog(ERROR, ...)] reports and does not return. *)
Definition elog_ERROR {A : Type} (fmt : string) (args : list ElogArg) : M A :=
  fun w => Raise fmt args (set_trace (trace w ++ [EvElog ERROR fmt args]) w).

Definition getMtm : M MtmState := fun w => Ok (Mtm (shm w)) w.

Definition modMtm (f : MtmState -> MtmState) : M unit :=
  modify (fun w => set_shm (set_Mtm (f (Mtm (shm w))) (shm w)) w).

Definition hash_find (xid : Z) : M (option MtmTransState) :=
  fun w => Ok (MtmXid2State (shm w) !! xid) w.

Definition modXid2State (f : gmap Z MtmTransState -> gmap Z MtmTransState) : M unit :=
  modify (fun w => set_shm (set_MtmXid2State (f (MtmXid2State (shm w))) (shm w)) w).

Definition modGid2State (f : gmap string MtmTransMap -> gmap string MtmTransMap) : M unit :=
  modify (fun w => set_shm (set_MtmGid2State (f (MtmGid2State (shm w))) (shm w)) w).

Definition getTx : M MtmCurrentTrans := fun w => Ok (MtmTx w) w.

Definition modTx (f : MtmCurrentTrans -> MtmCurrentTrans) : M unit :=
  modify (fun w => set_MtmTx (f (MtmTx w)) w).

(** [while] and [for] loops whose body may change the loop variable. *)
Definition when (b : bool) (c : M unit) : M unit := if b then c else mret tt.

Section Multimaster.

(** *** Configuration (the GUC variables of the module) *)
Variable MtmNodeId : Z.
Variable MtmReplicationNodeId : Z.
Variable MtmUseDtm : bool.
Variable MtmUseRaftable : bool.
Variable MtmHeartbeatSendTimeout : Z.
Variable MtmHeartbeatRecvTimeout : Z.
Variable MtmNodeDisableDelay : Z.
Variable MtmVacuumDelay : Z.
Variable MtmMinRecoveryLag : Z.
Variable Mtm2PCPrepareRatio : Z.
Variable Mtm2PCMinTimeout : Z.
Variable MtmGcPeriod : Z.

(** The reserved CSN of the missing [multimaster.h]; only its being one
    fixed value matters. *)
Variable INVALID_CSN : Z.

(** *** Oracles *)

(** The [k]-th reading of [gettimeofday], in microseconds. *)
Variable gettimeofday : nat -> Z.

(** What the other processes of the node do to shared memory during the
    [k]-th suspension of this backend.  Interleaving is modelled at
    suspension points only. *)
Variable concurrent : nat -> Shared -> Shared.

(** ** Locks and suspension *)

(** The timing of the acquisition only feeds [MTM_LOG1] and
    [lastLockHolder] is diagnostic: neither is modelled. *)
Definition MtmLock (mode : LWLockMode) : M unit := emit (EvLock mode).

Definition MtmUnlock : M unit := emit EvUnlock.

Definition suspend : M unit :=
  modify (fun w => set_susp (S (susp w)) (set_shm (concurrent (susp w) (shm w)) w)).

Definition MtmSleep (interval : Z) : M unit :=
  emit (EvSleep interval);; suspend.

(** ** System time *)

Definition MtmGetSystemTime : M Z :=
  fun w => Ok (wrap64 (gettimeofday (clk w))) (set_clk (S (clk w)) w).

Definition MtmGetCurrentTime : M Z :=
  t ← MtmGetSystemTime;
  m ← getMtm;
  mret (wrap64 (t + timeShift m)).

(** Return ascending unique timestamp which is used as CSN. *)
Definition MtmAssignCSN : M Z :=
  now ← MtmGetCurrentTime;
  m ← getMtm;
  if now <=? csn m then
    let next := wrap64 (csn m + 1) in
    modMtm (set_csn next);; mret next
  else
    modMtm (set_csn now);; mret now.

(** "Adjust" system clock if we receive message from future.  The
    [while] loop runs on fuel. *)
Fixpoint MtmSyncClock (fuel : nat) (global_csn : Z) : M Z :=
  match fuel with
  | O => fun _ => OutOfFuel
  | S fuel' =>
      local_csn ← MtmAssignCSN;
      if local_csn <? global_csn then
        modMtm (fun m => set_timeShift (wrap64 (timeShift m + (global_csn - local_csn))) m);;
        MtmSyncClock fuel' global_csn
      else mret local_csn
  end.

(** [n] successive calls of [MtmAssignCSN], with the values they return. *)
Fixpoint MtmAssignCSN_times (n : nat) : M (list Z) :=
  match n with
  | O => mret []
  | S n' => c ← MtmAssignCSN; cs ← MtmAssignCSN_times n'; mret (c :: cs)
  end.

(** ** Visibility *)

(** The host's snapshots and its own visibility test are opaque. *)
Variable Snapshot : Type.
Variable PgXidInMVCCSnapshot : Z -> Snapshot -> bool.

(** The sleep interval after one more wait. *)
Definition next_delay (delay : Z) : Z :=
  if delay * 2 <=? MAX_WAIT_TIMEOUT then delay * 2 else delay.

(** The [for] loop of [MtmXidInMVCCSnapshot], entered with the state lock
    held; [loops] is [MAX_WAIT_LOOPS - i].  When the loop is exhausted the
    function unlocks and raises. *)
Fixpoint MtmXidInMVCCSnapshot_loop (loops : nat) (delay : Z) (xid : Z) (snapshot : Snapshot)
  : M bool :=
  match loops with
  | O =>
      MtmUnlock;;
      elog_ERROR "Failed to get status of XID %d" [ArgInt xid]
  | S loops' =>
      found ← hash_find xid;
      match found with
      | Some ts =>
          x ← getTx;
          if x_snapshot x <? ts_csn ts then
            MtmUnlock;; mret true
          else if bool_decide (ts_status ts = TRANSACTION_STATUS_UNKNOWN) then
            MtmUnlock;;
            MtmSleep delay;;
            MtmLock LW_SHARED;;
            MtmXidInMVCCSnapshot_loop loops' (next_delay delay) xid snapshot
          else
            let invisible := negb (bool_decide (ts_status ts = TRANSACTION_STATUS_COMMITTED)) in
            MtmUnlock;; mret invisible
      | None =>
          MtmUnlock;;
          mret (PgXidInMVCCSnapshot xid snapshot)
      end
  end.

(** The result is [true] when the tuple is invisible ("in the snapshot"). *)
Definition MtmXidInMVCCSnapshot (xid : Z) (snapshot : Snapshot) : M bool :=
  if negb MtmUseDtm then mret (PgXidInMVCCSnapshot xid snapshot)
  else
    MtmLock LW_SHARED;;
    MtmXidInMVCCSnapshot_loop MAX_WAIT_LOOPS MIN_WAIT_TIMEOUT xid snapshot.

(** ** The output side of the replication protocol ([pglogical_proto.c]) *)

(** [MtmTransactionSnapshot]: the snapshot under which a transaction is
    replicated, [INVALID_CSN] when it is not to be replicated. *)
Definition MtmTransactionSnapshot (xid : Z) : M Z :=
  MtmLock LW_SHARED;;
  m ← getMtm;
  found ← hash_find xid;
  let snapshot :=
    if bool_decide (status m = MTM_ONLINE) then
      match found with
      | Some ts => if negb (ts_isLocal ts) then ts_snapshot ts else INVALID_CSN
      | None => INVALID_CSN
      end
    else INVALID_CSN in
  MtmUnlock;;
  mret snapshot.

(** This function is called by WAL sender when start sending new
    transaction.  It returns true if specified node is in recovery mode. *)
Definition MtmIsRecoveredNode (nodeId : Z) : M bool :=
  m ← getMtm;
  if BIT_CHECK (disabledNodeMask m) (nodeId - 1) then
    w ← get;
    (if negb (MtmIsRecoverySession w) then
       elog_ERROR "Node %d is marked as disabled but is not in recovery mode" [ArgInt nodeId]
     else mret tt);;
    mret true
  else
    modify (set_MtmIsRecoverySession false);;
    mret false.

(** *** [libpq/pqformat.h] on the output buffer *)

Definition byte_of (c : Ascii.ascii) : Z := Z.of_N (Ascii.N_of_ascii c).

Definition bytes_of (s : string) : list Z := map byte_of (list_ascii_of_string s).

(** The [n] bytes of [v], most significant first (network order). *)
Fixpoint be_bytes (n : nat) (v : Z) : list Z :=
  match n with
  | O => []
  | S n' => (v / 2 ^ (8 * Z.of_nat n')) mod 256 :: be_bytes n' v
  end.

Definition append (bytes : list Z) : M unit :=
  modify (fun w => set_out (out w ++ bytes) w).

Definition pq_sendbyte (byt : Z) : M unit := append [byt mod 256].

Definition pq_sendint (i : Z) (b : nat) : M unit := append (be_bytes b i).

Definition pq_sendint64 (i : Z) : M unit := append (be_bytes 8 i).

(** [pq_sendbytes(out, s, n)] for a C string [s] and [n <= strlen(s) + 1]. *)
Definition pq_sendbytes (s : string) (n : Z) : M unit :=
  append (take (Z.to_nat n) (bytes_of s ++ [0])).

(** *** What the host engine knows about relations and tuples *)

Definition InvalidOid : Z := 0.
Definition FirstNormalObjectId : Z := 16384.
Definition InvalidTransactionId : Z := 0.

Record Form_pg_type : Type := Build_Form_pg_type {
  typtype : Ascii.ascii;
  typelem : Z;
  typreceive : Z
}.

Record Form_pg_attribute : Type := Build_Form_pg_attribute {
  attisdropped : bool;
  attlen : Z;
  attbyval : bool;
  atttypid : Z;
  (* the result of [SearchSysCache1(TYPEOID, atttypid)] *)
  typclass_of : option Form_pg_type
}.

Record Relation : Type := Build_Relation {
  relnamespace : Z;
  (* the result of [get_namespace_name(relnamespace)] *)
  namespace_name : option string;
  relname : string;
  attrs : list Form_pg_attribute
}.

(** One deformed attribute value: its null flag, whether it is an
    on-disk TOAST pointer, and what the host's conversions make of it. *)
Record Datum : Type := Build_Datum {
  isnull : bool;
  is_external_ondisk : bool;
  internal_image : list Z;  (* the value in internal binary format *)
  send_image : list Z;      (* the payload of [OidSendFunctionCall(typsend, value)] *)
  output_text : string      (* [OidOutputFunctionCall(typoutput, value)] *)
}.

Definition HeapTuple : Type := list Datum.

Record PGLogicalOutputData : Type := Build_PGLogicalOutputData {
  allow_internal_basetypes : bool;
  allow_binary_basetypes : bool
}.

Record ReorderBufferTXN : Type := Build_ReorderBufferTXN {
  txn_xid : Z
}.

(** Make the executive decision about which protocol to use. *)
Definition decide_datum_transfer (att : Form_pg_attribute) (typclass : Form_pg_type)
    (allow_internal allow_binary : bool) : Ascii.ascii :=
  if allow_internal
     && bool_decide (typtype typclass = "b"%char)
     && (atttypid att <? FirstNormalObjectId)
     && (typelem typclass =? InvalidOid)
  then "b"%char
  else if allow_binary
     && negb (typreceive typclass =? InvalidOid)
     && ((atttypid att <? FirstNormalObjectId)
         || negb (bool_decide (typtype typclass = "c"%char)))
     && ((atttypid att <? FirstNormalObjectId) || (typelem typclass =? InvalidOid))
  then "s"%char
  else "t"%char.

(** The second loop of [pglogical_write_tuple], over the attributes and
    the deformed values. *)
Fixpoint pglogical_write_attrs (data : PGLogicalOutputData)
    (atts : list Form_pg_attribute) (values : list Datum) : M unit :=
  match atts, values with
  | att :: atts', v :: values' =>
      (if attisdropped att then mret tt
       else if isnull v then pq_sendbyte (byte_of "n"%char)
       else if (attlen att =? -1) && is_external_ondisk v then pq_sendbyte (byte_of "u"%char)
       else
         match typclass_of att with
         | None => elog_ERROR "cache lookup failed for type %u" [ArgInt (atttypid att)]
         | Some typclass =>
             let transfer_type :=
               decide_datum_transfer att typclass
                 (allow_internal_basetypes data) (allow_binary_basetypes data) in
             pq_sendbyte (byte_of transfer_type);;
             if bool_decide (transfer_type = "b"%char) then
               if attbyval att || (0 <? attlen att) then
                 pq_sendint (attlen att) 4;;
                 append (take (Z.to_nat (attlen att)) (internal_image v))
               else if attlen att =? -1 then
                 pq_sendint (Z.of_nat (length (internal_image v))) 4;;
                 append (internal_image v)
               else elog_ERROR "unsupported tuple type" []
             else if bool_decide (transfer_type = "s"%char) then
               pq_sendint (Z.of_nat (length (send_image v))) 4;;
               append (send_image v)
             else
               let len := Z.of_nat (String.length (output_text v)) + 1 in
               pq_sendint len 4;;
               append (bytes_of (output_text v) ++ [0])
         end);;
      pglogical_write_attrs data atts' values'
  | _, _ => mret tt
  end.

(** Write a tuple to the outputstream, in the most efficient format
    possible. *)
Definition pglogical_write_tuple (data : PGLogicalOutputData) (rel : Relation)
    (tuple : HeapTuple) : M unit :=
  pq_sendbyte (byte_of "T"%char);;
  let nliveatts :=
    Z.of_nat (length (filter (fun att => attisdropped att = false) (attrs rel))) in
  pq_sendint (nliveatts mod 2 ^ 16) 2;;
  pglogical_write_attrs data (attrs rel) tuple.

(** Write relation description to the output stream. *)
Definition pglogical_write_rel (data : PGLogicalOutputData) (rel : Relation) : M unit :=
  w ← get;
  if MtmIsFilteredTxn w then mret tt
  else
    pq_sendbyte (byte_of "R"%char);;
    match namespace_name rel with
    | None => elog_ERROR "cache lookup failed for namespace %u" [ArgInt (relnamespace rel)]
    | Some nspname =>
        let nspnamelen := (Z.of_nat (String.length nspname) + 1) mod 256 in
        let relnamelen := (Z.of_nat (String.length (relname rel)) + 1) mod 256 in
        pq_sendbyte nspnamelen;;
        pq_sendbytes nspname nspnamelen;;
        pq_sendbyte relnamelen;;
        pq_sendbytes (relname rel) relnamelen
    end.

(** Write BEGIN to the output stream. *)
Definition pglogical_write_begin (data : PGLogicalOutputData) (txn : ReorderBufferTXN)
  : M unit :=
  isRecovery ← MtmIsRecoveredNode MtmReplicationNodeId;
  csn ← MtmTransactionSnapshot (txn_xid txn);
  if (csn =? INVALID_CSN) && negb isRecovery then
    modify (set_MtmIsFilteredTxn true)
  else
    pq_sendbyte (byte_of "B"%char);;
    pq_sendint MtmNodeId 4;;
    pq_sendint (if isRecovery then InvalidTransactionId else txn_xid txn) 4;;
    pq_sendint64 csn;;
    modify (set_MtmIsFilteredTxn false).

(** Write INSERT to the output stream. *)
Definition pglogical_write_insert (data : PGLogicalOutputData) (rel : Relation)
    (newtuple : HeapTuple) : M unit :=
  w ← get;
  if negb (MtmIsFilteredTxn w) then
    pq_sendbyte (byte_of "I"%char);;
    pglogical_write_tuple data rel newtuple
  else mret tt.

(** Write UPDATE to the output stream. *)
Definition pglogical_write_update (data : PGLogicalOutputData) (rel : Relation)
    (oldtuple : option HeapTuple) (newtuple : HeapTuple) : M unit :=
  w ← get;
  if negb (MtmIsFilteredTxn w) then
    pq_sendbyte (byte_of "U"%char);;
    match oldtuple with
    | Some old =>
        pq_sendbyte (byte_of "K"%char);;
        pglogical_write_tuple data rel old
    | None => mret tt
    end;;
    pq_sendbyte (byte_of "N"%char);;
    pglogical_write_tuple data rel newtuple
  else mret tt.

(** Write DELETE to the output stream. *)
Definition pglogical_write_delete (data : PGLogicalOutputData) (rel : Relation)
    (oldtuple : HeapTuple) : M unit :=
  w ← get;
  if negb (MtmIsFilteredTxn w) then
    pq_sendbyte (byte_of "D"%char);;
    pglogical_write_tuple data rel oldtuple
  else mret tt.

(** The row-level records the decoder hands to the plugin after BEGIN. *)
Inductive Change : Type :=
| ChRelation (rel : Relation)
| ChInsert (rel : Relation) (newtuple : HeapTuple)
| ChUpdate (rel : Relation) (oldtuple : option HeapTuple) (newtuple : HeapTuple)
| ChDelete (rel : Relation) (oldtuple : HeapTuple).

Definition pglogical_write_change (data : PGLogicalOutputData) (ch : Change) : M unit :=
  match ch with
  | ChRelation rel => pglogical_write_rel data rel
  | ChInsert rel newtuple => pglogical_write_insert data rel newtuple
  | ChUpdate rel oldtuple newtuple => pglogical_write_update data rel oldtuple newtuple
  | ChDelete rel oldtuple => pglogical_write_delete data rel oldtuple
  end.

Fixpoint pglogical_write_changes (data : PGLogicalOutputData) (chs : list Change) : M unit :=
  match chs with
  | [] => mret tt
  | ch :: chs' => pglogical_write_change data ch;; pglogical_write_changes data chs'
  end.

(** ** Transaction states *)

(** Modelled from the spec: [MtmIsCoordinator] of the missing
    [multimaster.h]; the coordinator of a transaction is the node that
    originated it ([gtid.node == my-node]). *)
Definition MtmIsCoordinator (ts : MtmTransState) : bool := gtid_node (ts_gtid ts) =? MtmNodeId.

(** The keys of the [n] states that follow the state [xid] on the list
    threaded through [next]. *)
Fixpoint successors (xid : Z) (n : nat) (l : list Z) : list Z :=
  match l with
  | [] => []
  | y :: l' => if y =? xid then take n l' else successors xid n l'
  end.

(** [MtmAdjustSubtransactions]: the [nSubxids] states after [ts] take its
    status and CSN. *)
Definition MtmAdjustSubtransactions (xid : Z) : M unit :=
  found ← hash_find xid;
  match found with
  | None => mret tt
  | Some ts =>
      m ← getMtm;
      let subs := successors xid (Z.to_nat (ts_nSubxids ts)) (transListHead m) in
      modXid2State (fun tab =>
        foldl (fun tab sub =>
                 alter (fun sts => set_ts_csn (ts_csn ts) (set_ts_status (ts_status ts) sts))
                       sub tab)
              tab subs)
  end.

(** [MtmAbortTransaction(ts)], the state given by its key. *)
Definition MtmAbortTransaction (xid : Z) : M unit :=
  found ← hash_find xid;
  match found with
  | None => mret tt
  | Some ts =>
      if negb (bool_decide (ts_status ts = TRANSACTION_STATUS_ABORTED)) then
        modXid2State (alter (set_ts_status TRANSACTION_STATUS_ABORTED) xid);;
        MtmAdjustSubtransactions xid;;
        modMtm (fun m => set_nActiveTransactions (nActiveTransactions m - 1) m)
      else mret tt
  end.

Definition MtmWakeUpBackend (xid : Z) : M unit :=
  found ← hash_find xid;
  match found with
  | None => mret tt
  | Some ts =>
      if negb (ts_votingCompleted ts) then
        modXid2State (alter (set_ts_votingCompleted true) xid);;
        emit (EvSetLatch (ts_procno ts))
      else mret tt
  end.

(** Interrupt voting for active transaction and abort them: the loop over
    the transaction list shared by [MtmRefreshClusterStatus] (where it
    also asks for [disabled != 0]) and [MtmOnNodeDisconnect]. *)
Fixpoint MtmAbortVoting (disabled_nonzero : bool) (l : list Z) : M unit :=
  match l with
  | [] => mret tt
  | xid :: l' =>
      found ← hash_find xid;
      match found with
      | Some ts =>
          if MtmIsCoordinator ts then
            if negb (ts_votingCompleted ts) && disabled_nonzero
               && negb (bool_decide (ts_status ts = TRANSACTION_STATUS_ABORTED))
            then MtmAbortTransaction xid;; MtmWakeUpBackend xid
            else mret tt
          else mret tt
      | None => mret tt
      end;;
      MtmAbortVoting disabled_nonzero l'
  end.

(** ** Cluster membership *)

(** [Mtm->nodes[i]]; reading outside the array is undefined in C and
    yields a zeroed record here. *)
Definition node (m : MtmState) (i : Z) : MtmNodeInfo :=
  default (Build_MtmNodeInfo 0 0 0) (if 0 <=? i then nodes m !! Z.to_nat i else None).

(** [Mtm->nodes[i].f = ...]; writing outside the array is undefined in C
    and does nothing here. *)
Definition modNode (i : Z) (f : MtmNodeInfo -> MtmNodeInfo) : M unit :=
  modMtm (fun m => if 0 <=? i then set_nodes (alter f (Z.to_nat i) (nodes m)) m else m).

Definition GetXLogInsertRecPtr : M Z := fun w => Ok (XLogInsertRecPtr (shm w)) w.

Definition MtmSwitchClusterMode (mode : MtmNodeStatus) : M unit := modMtm (set_status mode).

Definition MtmDisableNode (nodeId : Z) : M unit :=
  modMtm (fun m => set_disabledNodeMask (BIT_SET (disabledNodeMask m) (nodeId - 1)) m);;
  t ← MtmGetSystemTime;
  modNode (nodeId - 1) (set_lastStatusChangeTime t);;
  (* defuse watchdog until first heartbeat is received *)
  modNode (nodeId - 1) (set_lastHeartbeat 0);;
  when (negb (nodeId =? MtmNodeId))
    (modMtm (fun m => set_nLiveNodes (nLiveNodes m - 1) m));;
  lsn ← GetXLogInsertRecPtr;
  elog WARNING "Disable node %d at xlog position %lx" [ArgInt nodeId; ArgInt lsn].

Definition MtmEnableNode (nodeId : Z) : M unit :=
  modMtm (fun m => set_disabledNodeMask (BIT_CLEAR (disabledNodeMask m) (nodeId - 1)) m);;
  modMtm (fun m => set_reconnectMask (BIT_CLEAR (reconnectMask m) (nodeId - 1)) m);;
  t ← MtmGetSystemTime;
  modNode (nodeId - 1) (set_lastStatusChangeTime t);;
  (* defuse watchdog until first heartbeat is received *)
  modNode (nodeId - 1) (set_lastHeartbeat 0);;
  when (negb (nodeId =? MtmNodeId))
    (modMtm (fun m => set_nLiveNodes (nLiveNodes m + 1) m));;
  lsn ← GetXLogInsertRecPtr;
  elog WARNING "Enable node %d at xlog position %lx" [ArgInt nodeId; ArgInt lsn].

Definition MtmCheckQuorum : M unit :=
  modMtm (fun m => set_nConfigChanges (nConfigChanges m + 1) m);;
  m ← getMtm;
  if nLiveNodes m <? nAllNodes m ÷ 2 + 1 then
    if bool_decide (status m = MTM_ONLINE) then
      (* out of quorum *)
      elog WARNING "Node is in minority: disabled mask %lx" [ArgInt (disabledNodeMask m)];;
      MtmSwitchClusterMode MTM_IN_MINORITY
    else mret tt
  else
    if bool_decide (status m = MTM_IN_MINORITY) then MtmSwitchClusterMode MTM_ONLINE
    else mret tt.

Definition MtmStartRecovery : M unit :=
  MtmLock LW_EXCLUSIVE;;
  modMtm (fun m => set_disabledNodeMask (BIT_SET (disabledNodeMask m) (MtmNodeId - 1)) m);;
  MtmSwitchClusterMode MTM_RECOVERY;;
  MtmUnlock.

(** *** The connectivity matrix and the clique *)

(** The shared configuration store: the answer to the [k]-th request,
    a [RaftableGet] of the mask published by [node] or a [RaftableSet]. *)
Variable RaftableGet : nat -> Z -> bool -> option Z.
Variable RaftableSet : nat -> bool.

(** [MtmFindMaxClique(matrix, n, &clique_size)] of [bkb.c], which is not
    among the sources: the clique and its size. *)
Variable MtmFindMaxClique : list Z -> Z -> Z * Z.

Definition matrix_get (matrix : list Z) (i : nat) : Z := default 0 (matrix !! i).

(** The first loop of [MtmBuildConnectivityMatrix]: the rows, the own one
    from [Mtm->connectivityMask], the others from the store. *)
Fixpoint MtmBuildConnectivityMatrix_rows (count : nat) (i : Z) (nowait : bool)
  : M (option (list Z)) :=
  match count with
  | O => mret (Some [])
  | S count' =>
      row ← (if negb (i + 1 =? MtmNodeId) then
               fun w => Ok (RaftableGet (raft w) (i + 1) nowait) (set_raft (S (raft w)) w)
             else m ← getMtm; mret (Some (connectivityMask m)));
      match row with
      | None => mret None
      | Some mask =>
          rest ← MtmBuildConnectivityMatrix_rows count' (i + 1) nowait;
          mret (cons mask <$> rest)
      end
  end.

(** make matrix symetric: required for Bron-Kerbosch algorithm *)
Definition symmetrize_pair (i j : nat) (matrix : list Z) : list Z :=
  let mi :=
    Z.lor (matrix_get matrix i)
          (wrap64 (Z.shiftl (Z.land (Z.shiftr (matrix_get matrix j) (Z.of_nat i)) 1)
                            (Z.of_nat j))) in
  let matrix1 := <[i := mi]> matrix in
  let mj :=
    Z.lor (matrix_get matrix1 j)
          (wrap64 (Z.shiftl (Z.land (Z.shiftr (matrix_get matrix1 i) (Z.of_nat j)) 1)
                            (Z.of_nat i))) in
  <[j := mj]> matrix1.

Definition symmetrize_row (i : nat) (matrix : list Z) : list Z :=
  let matrix1 := foldl (fun mx j => symmetrize_pair i j mx) matrix (seq 0 i) in
  <[i := Z.land (matrix_get matrix1 i) (not64 (bit64 (Z.of_nat i)))]> matrix1.

(** Build internode connectivity mask. 1 - means that node is
    disconnected.  [None] when the store has no answer. *)
Definition MtmBuildConnectivityMatrix (nowait : bool) : M (option (list Z)) :=
  m ← getMtm;
  let n := Z.to_nat (nAllNodes m) in
  rows ← MtmBuildConnectivityMatrix_rows n 0 nowait;
  mret ((fun matrix => foldl (fun mx i => symmetrize_row i mx) matrix (seq 0 n)) <$> rows).

(** The loop [for (i = 0, mask = disabled; mask != 0; i++, mask >>= 1)]
    of [MtmRefreshClusterStatus]; a 64-bit mask is exhausted after 64
    shifts. *)
Fixpoint MtmDisableNodes (fuel : nat) (i : Z) (mask : Z) : M unit :=
  if mask =? 0 then mret tt
  else
    match fuel with
    | O => fun _ => OutOfFuel
    | S fuel' =>
        when (negb (Z.land mask 1 =? 0)) (MtmDisableNode (i + 1));;
        MtmDisableNodes fuel' (i + 1) (Z.shiftr mask 1)
    end.

(** Build connectivity graph, find clique in it and extend
    disabledNodeMask by nodes not included in clique.  This function
    returns false if current node is excluded from cluster, true
    otherwise. *)
Definition MtmRefreshClusterStatus (nowait : bool) : M bool :=
  built ← MtmBuildConnectivityMatrix nowait;
  match built with
  | None => mret false  (* RAFT is not available *)
  | Some matrix =>
      m ← getMtm;
      let '(clique, clique_size) := MtmFindMaxClique matrix (nAllNodes m) in
      (if nAllNodes m ÷ 2 + 1 <=? clique_size then
         (* have quorum *)
         MtmLock LW_EXCLUSIVE;;
         m ← getMtm;
         (* new disabled nodes mask *)
         let disabled :=
           Z.land (Z.land (not64 clique) (wrap64 (wrap64 (Z.shiftl 1 (nAllNodes m)) - 1)))
                  (not64 (disabledNodeMask m)) in
         MtmDisableNodes 64 0 disabled;;
         when (negb (disabled =? 0)) MtmCheckQuorum;;
         (* Interrupt voting for active transaction and abort them *)
         m ← getMtm;
         MtmAbortVoting (negb (disabled =? 0)) (transListHead m);;
         MtmUnlock;;
         m ← getMtm;
         if BIT_CHECK (disabledNodeMask m) (MtmNodeId - 1) then
           if bool_decide (status m = MTM_ONLINE) then
             (* I was excluded from cluster:( *)
             MtmSwitchClusterMode MTM_OFFLINE
           else mret tt
         else if bool_decide (status m = MTM_OFFLINE) then MtmStartRecovery
         else mret tt
       else
         MtmSwitchClusterMode MTM_IN_MINORITY);;
      mret true
  end.

Definition MtmOnNodeDisconnect (nodeId : Z) : M unit :=
  m ← getMtm;
  if BIT_CHECK (disabledNodeMask m) (nodeId - 1) then
    (* Node is already disabled *)
    mret tt
  else
    now ← MtmGetSystemTime;
    if now <? wrap64 (lastStatusChangeTime (node m (nodeId - 1))
                      + MSEC_TO_USEC MtmNodeDisableDelay) then
      (* Avoid false detection of node failure and prevent node status blinking *)
      mret tt
    else
      MtmLock LW_EXCLUSIVE;;
      modMtm (fun m => set_connectivityMask (BIT_SET (connectivityMask m) (nodeId - 1)) m);;
      modMtm (fun m => set_reconnectMask (BIT_SET (reconnectMask m) (nodeId - 1)) m);;
      MtmUnlock;;
      m ← getMtm;
      emit (EvRaftableSet MtmNodeId (connectivityMask m));;
      stored ← (fun w => Ok (RaftableSet (raft w)) (set_raft (S (raft w)) w));
      if negb stored then
        elog WARNING "Disable node which is in minority according to RAFT" [];;
        MtmLock LW_EXCLUSIVE;;
        m ← getMtm;
        when (bool_decide (status m = MTM_ONLINE)) (MtmSwitchClusterMode MTM_IN_MINORITY);;
        MtmUnlock
      else
        MtmSleep (MSEC_TO_USEC MtmHeartbeatSendTimeout);;
        if negb MtmUseRaftable then
          MtmLock LW_EXCLUSIVE;;
          m ← getMtm;
          (if negb (BIT_CHECK (disabledNodeMask m) (nodeId - 1)) then
             MtmDisableNode nodeId;;
             MtmCheckQuorum;;
             (* Interrupt voting for active transaction and abort them *)
             m ← getMtm;
             MtmAbortVoting true (transListHead m)
           else mret tt);;
          MtmUnlock
        else
          MtmRefreshClusterStatus false;; mret tt.

(** [(int)] of a 64-bit value. *)
Definition int32 (z : Z) : Z := (z + 2 ^ 31) mod 2 ^ 32 - 2 ^ 31.

(** The body of the loop of [MtmWatchdog] for the nodes [i+1 .. i+count]. *)
Fixpoint MtmWatchdog_loop (count : nat) (i : Z) (now : Z) (allAlive : bool) : M bool :=
  match count with
  | O => mret allAlive
  | S count' =>
      m ← getMtm;
      let hb := lastHeartbeat (node m i) in
      if negb (i + 1 =? MtmNodeId) && negb (BIT_CHECK (disabledNodeMask m) i)
         && negb (hb =? 0)
         && (wrap64 (hb + MSEC_TO_USEC MtmHeartbeatRecvTimeout) <? now)
      then
        elog WARNING "Heartbeat is not received from node %d during %d msec"
          [ArgInt (i + 1); ArgInt (int32 (USEC_TO_MSEC (wrap64 (now - hb))))];;
        MtmOnNodeDisconnect (i + 1);;
        MtmWatchdog_loop count' (i + 1) now false
      else MtmWatchdog_loop count' (i + 1) now allAlive
  end.

(** Check heartbeats *)
Definition MtmWatchdog (now : Z) : M bool :=
  m ← getMtm;
  MtmWatchdog_loop (Z.to_nat (nAllNodes m)) 0 now true.

(** ** Recovery *)

(** The body of [MtmRecoveryCaughtUp] for a node that is in recovery,
    under the state lock. *)
Definition MtmRecoveryCaughtUp_recovered (nodeId : Z) (slotLSN : Z) : M bool :=
  walLSN ← GetXLogInsertRecPtr;
  m ← getMtm;
  w ← get;
  if (slotLSN =? walLSN) && (nActiveTransactions m =? 0) then
    (if BIT_CHECK (nodeLockerMask m) (nodeId - 1) then
       modMtm (fun m => set_walSenderLockerMask
                          (BIT_CLEAR (walSenderLockerMask m) (MyWalSnd (pg w))) m);;
       modMtm (fun m => set_nodeLockerMask (BIT_CLEAR (nodeLockerMask m) (nodeId - 1)) m);;
       modMtm (fun m => set_nLockers (nLockers m - 1) m)
     else
       (* We are lucky: caugth-up without locking cluster! *)
       mret tt);;
    MtmEnableNode nodeId;;
    modMtm (fun m => set_nConfigChanges (nConfigChanges m + 1) m);;
    mret true
  else if negb (BIT_CHECK (nodeLockerMask m) (nodeId - 1))
          && (walLSN <? wrap64 (slotLSN + MtmMinRecoveryLag)) then
    (* Wal sender almost catched up.  Lock cluster preventing new
       transaction to start until wal is completely replayed. *)
    modMtm (fun m => set_nodeLockerMask (BIT_SET (nodeLockerMask m) (nodeId - 1)) m);;
    modMtm (fun m => set_walSenderLockerMask
                       (BIT_SET (walSenderLockerMask m) (MyWalSnd (pg w))) m);;
    modMtm (fun m => set_nLockers (nLockers m + 1) m);;
    mret false
  else mret false.

Definition MtmRecoveryCaughtUp (nodeId : Z) (slotLSN : Z) : M bool :=
  MtmLock LW_EXCLUSIVE;;
  recovered ← MtmIsRecoveredNode nodeId;
  caughtUp ← (if (recovered : bool) then MtmRecoveryCaughtUp_recovered nodeId slotLSN
              else mret false);
  MtmUnlock;;
  mret caughtUp.

(** ** Transaction control *)

(** [access/transam.h] of the host. *)
Definition FirstNormalTransactionId : Z := 3.

Definition TransactionIdIsValid (xid : Z) : bool := negb (xid =? InvalidTransactionId).

Definition TransactionIdIsNormal (xid : Z) : bool := FirstNormalTransactionId <=? xid.

(** [TransactionIdPrecedes] of the host: unsigned comparison for the
    permanent XIDs, comparison modulo 2^32 for the normal ones. *)
Definition TransactionIdPrecedes (id1 id2 : Z) : bool :=
  if negb (TransactionIdIsNormal id1) || negb (TransactionIdIsNormal id2) then id1 <? id2
  else int32 (id1 - id2) <? 0.

(** The name of the administration application, a constant of the
    missing [multimaster.h]. *)
Variable MULTIMASTER_ADMIN : string.

Definition MtmNodeStatusMnem (s : MtmNodeStatus) : string :=
  match s with
  | MTM_INITIALIZATION => "Initialization"
  | MTM_OFFLINE => "Offline"
  | MTM_CONNECTED => "Connected"
  | MTM_ONLINE => "Online"
  | MTM_RECOVERY => "Recovery"
  | MTM_IN_MINORITY => "InMinor"
  | MTM_OUT_OF_SERVICE => "OutOfService"
  end.

Definition isoLevelStr (l : IsoLevel) : string :=
  match l with
  | XACT_READ_UNCOMMITTED => "read uncommitted"
  | XACT_READ_COMMITTED => "read committed"
  | XACT_REPEATABLE_READ => "repeatable read"
  | XACT_SERIALIZABLE => "serializable"
  end.

(** The minimum of [oldestSnapshot] over the enabled nodes [i .. i+count-1]
    and [oldest]. *)
Fixpoint oldest_enabled_snapshot (m : MtmState) (count : nat) (i : Z) (oldest : Z) : Z :=
  match count with
  | O => oldest
  | S count' =>
      let oldest' :=
        if negb (BIT_CHECK (disabledNodeMask m) i)
           && (oldestSnapshot (node m i) <? oldest)
        then oldestSnapshot (node m i) else oldest in
      oldest_enabled_snapshot m count' (i + 1) oldest'
  end.

(** The scan of the transaction list in [MtmAdjustOldestXid]: it stops at
    the first state that is not older than [oldestSnapshot] or does not
    precede [xid], removes from the hash every state it passed except the
    last one, and answers that last state with the rest of the list.  A
    key of the list that is not in the hash ends the scan. *)
Fixpoint MtmAdjustOldestXid_scan (oldestSnapshot xid : Z) (prev : option Z) (l : list Z)
  : M (option Z * list Z) :=
  match l with
  | [] => mret (prev, [])
  | y :: l' =>
      found ← hash_find y;
      match found with
      | Some ts =>
          if (ts_csn ts <? oldestSnapshot) && TransactionIdPrecedes (ts_xid ts) xid then
            match prev with
            | Some p =>
                (* Remove information about too old transactions *)
                modXid2State (delete p)
            | None => mret tt
            end;;
            MtmAdjustOldestXid_scan oldestSnapshot xid (Some y) l'
          else mret (prev, l)
      | None => mret (prev, l)
      end
  end.

(** There can be different oldest XIDs at different cluster node.  We
    collest oldest CSNs from all nodes and choose minimum from them.  If
    no such XID can be located, then return previously observed oldest
    XID. *)
Definition MtmAdjustOldestXid (xid : Z) : M Z :=
  found ← hash_find xid;
  modMtm (set_gcCount 0);;
  scanned ←
    match found with
    | Some ts =>
        m ← getMtm;
        let mine := oldestSnapshot (node m (MtmNodeId - 1)) in
        (if mine <? ts_snapshot ts then
           modNode (MtmNodeId - 1) (set_oldestSnapshot (ts_snapshot ts))
         else mret tt);;
        m ← getMtm;
        let oldest0 := if mine <? ts_snapshot ts then ts_snapshot ts else mine in
        let oldest1 := oldest_enabled_snapshot m (Z.to_nat (nAllNodes m)) 0 oldest0 in
        let delay := wrap64 (MtmVacuumDelay * USECS_PER_SEC) in
        let oldest2 := if delay <? oldest1 then oldest1 - delay else 0 in
        MtmAdjustOldestXid_scan oldest2 xid None (transListHead m)
    | None => mret (None, [])
    end;
  m ← getMtm;
  match fst scanned with
  | Some prev =>
      modMtm (set_transListHead (prev :: snd scanned));;
      if MtmUseDtm then
        modMtm (set_oldestXid prev);;
        mret prev
      else mret xid
  | None =>
      if MtmUseDtm && TransactionIdPrecedes (oldestXid m) xid then mret (oldestXid m)
      else mret xid
  end.

(** Check if this is "normal" user trnsaction which shoudl be distributed
    to other nodes *)
Definition MtmIsUserTransaction (p : PgSession) : bool :=
  negb (IsAutoVacuumLauncherProcess p) && IsNormalProcessingMode p && MtmDoReplication p
  && negb (am_walsender p) && negb (IsBackgroundWorker p)
  && negb (IsAutoVacuumWorkerProcess p).

Definition MtmResetTransaction : M unit :=
  modTx (set_x_snapshot INVALID_CSN);;
  modTx (set_x_xid InvalidTransactionId);;
  modTx (fun x => set_x_gtid (set_gtid_xid InvalidTransactionId (x_gtid x)) x);;
  modTx (set_x_isDistributed false);;
  modTx (set_x_isPrepared false);;
  modTx (set_x_isPrepared false);;
  modTx (set_x_status TRANSACTION_STATUS_UNKNOWN).

(** [MtmBeginTransaction(&MtmTx)], the [XACT_EVENT_START] callback. *)
Definition MtmBeginTransaction : M unit :=
  x ← getTx;
  if x_snapshot x =? INVALID_CSN then
    m ← getMtm;
    w ← get;
    (* Get oldest xmin outside critical section *)
    let xmin :=
      if MtmGcPeriod <=? gcCount m then PgGetOldestXmin (pg w) else InvalidTransactionId in
    MtmLock LW_EXCLUSIVE;;
    m ← getMtm;
    (if TransactionIdIsValid xmin && (MtmGcPeriod <=? gcCount m) then
       MtmAdjustOldestXid xmin;; mret tt
     else mret tt);;
    modTx (set_x_xid (GetCurrentTransactionIdIfAny (pg w)));;
    modTx (set_x_isReplicated false);;
    modTx (set_x_isDistributed (MtmIsUserTransaction (pg w)));;
    modTx (set_x_isPrepared false);;
    modTx (set_x_isTransactionBlock (IsTransactionBlock (pg w)));;
    m ← getMtm;
    (* Application name can be changed usnig PGAPPNAME environment variable *)
    if MtmIsUserTransaction (pg w)
       && negb (bool_decide (status m = MTM_ONLINE))
       && negb (String.eqb (application_name (pg w)) MULTIMASTER_ADMIN)
    then
      (* Reject all user's transactions at offline cluster. *)
      MtmUnlock;;
      elog_ERROR "Multimaster node is not online: current status %s"
        [ArgStr (MtmNodeStatusMnem (status m))]
    else
      when (MtmIsUserTransaction (pg w)
            && negb (bool_decide (XactIsoLevel (pg w) = XACT_REPEATABLE_READ)))
        (elog LOG "Isolation level %s is not supported by multimaster"
           [ArgStr (isoLevelStr (XactIsoLevel (pg w)))]);;
      modTx (set_x_containsDML false);;
      snapshot ← MtmAssignCSN;
      modTx (set_x_snapshot snapshot);;
      modTx (fun x => set_x_gtid (set_gtid_xid InvalidTransactionId (x_gtid x)) x);;
      modTx (set_x_gid "");;
      modTx (set_x_status TRANSACTION_STATUS_IN_PROGRESS);;
      MtmUnlock
  else mret tt.

(** ** The vote of a prepared transaction *)

(** [MtmSendNotificationMessage(ts, cmd)]: the state joins the list of
    voting transactions; the semaphore is signalled only once for the
    whole list. *)
Definition MtmSendNotificationMessage (xid : Z) (cmd : MtmMessageCode) : M unit :=
  m ← getMtm;
  let votingList := votingTransactions m in
  modXid2State (alter (set_ts_cmd cmd) xid);;
  modMtm (set_votingTransactions (xid :: votingList));;
  match votingList with
  | [] => emit EvSemaphoreUnlock
  | _ => mret tt
  end.

(** The per-transaction timeout of the coordinator, in microseconds. *)
Definition transTimeout (ts : MtmTransState) : Z :=
  Z.max (MSEC_TO_USEC Mtm2PCMinTimeout)
        (wrap64 (wrap64 (ts_csn ts - ts_snapshot ts) * Mtm2PCPrepareRatio) / 100).

(** The [while] loop of the coordinator in [MtmPostPrepareTransaction]:
    wait votes from all nodes until all nodes voted, the configuration
    changed, the node is not online, the transaction is aborted or the
    timeout expired. *)
Fixpoint MtmPostPrepareTransaction_wait (fuel : nat) (xid : Z) (timeout nConfigChanges0 start : Z)
  : M unit :=
  match fuel with
  | O => fun _ => OutOfFuel
  | S fuel' =>
      found ← hash_find xid;
      m ← getMtm;
      match found with
      | None => mret tt
      | Some ts =>
          if negb (ts_votingCompleted ts)
             && (nConfigChanges0 =? nConfigChanges m)
             && bool_decide (status m = MTM_ONLINE)
             && negb (bool_decide (ts_status ts = TRANSACTION_STATUS_ABORTED))
          then
            now ← MtmGetSystemTime;
            if now <=? wrap64 (start + timeout) then
              MtmUnlock;;
              emit (EvWaitLatch MtmHeartbeatRecvTimeout);;
              suspend;;
              MtmLock LW_SHARED;;
              MtmPostPrepareTransaction_wait fuel' xid timeout nConfigChanges0 start
            else mret tt
          else mret tt
      end
  end.

(** [MtmPostPrepareTransaction(&MtmTx)], the [XACT_EVENT_POST_PREPARE]
    callback.  The [Assert(ts != NULL)] is a precondition: without a
    state for the transaction the model does nothing.  [HASH_ENTER] leaves
    the [status] of a new [MtmGid2State] entry as it finds it; the model
    takes [TRANSACTION_STATUS_IN_PROGRESS], the status
    [MtmExchangeGlobalTransactionStatus] reports for an unknown GID. *)
Definition MtmPostPrepareTransaction (fuel : nat) : M unit :=
  x ← getTx;
  if negb (x_isDistributed x) then mret tt
  else
    m ← getMtm;
    (if inject2PCError m =? 2 then
       modMtm (set_inject2PCError 0);;
       elog_ERROR "ERROR INJECTION for transaction %d (%s)" [ArgInt (x_xid x); ArgStr (x_gid x)]
     else mret tt);;
    MtmLock LW_EXCLUSIVE;;
    found ← hash_find (x_xid x);
    match found with
    | None => mret tt
    | Some ts =>
        m ← getMtm;
        (if negb (MtmIsCoordinator ts) || bool_decide (status m = MTM_RECOVERY) then
           w ← get;
           let known := MtmGid2State (shm w) !! x_gid x in
           modGid2State (fun tab =>
             <[x_gid x :=
                 {| tm_status := from_option tm_status TRANSACTION_STATUS_IN_PROGRESS known;
                    tm_state := Some (x_xid x) |}]> tab);;
           modXid2State (alter (set_ts_votingCompleted true) (x_xid x));;
           when (bool_decide (known = None))
             (modXid2State (alter (set_ts_isEnqueued false) (x_xid x)));;
           (if negb (bool_decide (status m = MTM_RECOVERY)) then
              (* send notification to coordinator *)
              MtmSendNotificationMessage (x_xid x) MSG_READY;;
              when (negb MtmUseDtm)
                (modXid2State (alter (set_ts_status TRANSACTION_STATUS_UNKNOWN) (x_xid x)))
            else
              modXid2State (alter (set_ts_status TRANSACTION_STATUS_UNKNOWN) (x_xid x)));;
           MtmUnlock;;
           MtmResetTransaction
         else
           let timeout := transTimeout ts in
           let nConfigChanges0 := nConfigChanges m in
           start ← MtmGetSystemTime;
           MtmPostPrepareTransaction_wait fuel (x_xid x) timeout nConfigChanges0 start;;
           found ← hash_find (x_xid x);
           m ← getMtm;
           match found with
           | None => mret tt
           | Some ts =>
               (if negb (bool_decide (ts_status ts = TRANSACTION_STATUS_ABORTED))
                   && (negb (ts_votingCompleted ts)
                       || negb (nConfigChanges0 =? nConfigChanges m))
                then
                  (if negb (nConfigChanges0 =? nConfigChanges m) then
                     elog WARNING
                       "Transaction %d is aborted because cluster configuration is changed during commit"
                       [ArgInt (x_xid x)]
                   else
                     elog WARNING
                       "Transaction %d is aborted because of %d msec timeout expiration, prepare time %d msec"
                       [ArgInt (x_xid x); ArgInt (int32 timeout);
                        ArgInt (int32 (USEC_TO_MSEC (wrap64 (ts_csn ts - x_snapshot x))))]);;
                  MtmAbortTransaction (x_xid x)
                else mret tt);;
               found ← hash_find (x_xid x);
               modTx (set_x_status (from_option ts_status (x_status x) found));;
               MtmUnlock
           end);;
        m ← getMtm;
        x ← getTx;
        if inject2PCError m =? 3 then
          modMtm (set_inject2PCError 0);;
          elog_ERROR "ERROR INJECTION for transaction %d (%s)"
            [ArgInt (x_xid x); ArgStr (x_gid x)]
        else mret tt
    end.


(** ** Further functions of [multimaster.c] *)

(** [MtmVolksWagenMode] and [MtmMaxNodes], two more GUC variables. *)
Variable MtmVolksWagenMode : bool.
Variable MtmMaxNodes : Z.

(** [MtmInitializeSequence(&start, &step)]: the start and the step of
    the sequences created on this node. *)
Definition MtmInitializeSequence : Z * Z :=
  if MtmVolksWagenMode then (1, 1) else (MtmNodeId, MtmMaxNodes).

(** [MtmGetOldestXmin]: the horizon of the host, adjusted under the
    lock. *)
Definition MtmGetOldestXmin : M Z :=
  w ← get;
  let xmin := PgGetOldestXmin (pg w) in  (* consider all backends *)
  if TransactionIdIsValid xmin then
    MtmLock LW_EXCLUSIVE;;
    xmin ← MtmAdjustOldestXid xmin;
    MtmUnlock;;
    mret xmin
  else mret xmin.

(** [MtmExchangeGlobalTransactionStatus(gid, new_status)]: the status
    recorded for [gid] before the call. *)
Definition MtmExchangeGlobalTransactionStatus (gid : string) (new_status : XidStatus)
  : M XidStatus :=
  MtmLock LW_EXCLUSIVE;;
  w ← get;
  old_status ←
    match MtmGid2State (shm w) !! gid with
    | Some tm =>
        when (negb (bool_decide (tm_status tm = TRANSACTION_STATUS_ABORTED)))
          (modGid2State (alter (set_tm_status new_status) gid));;
        mret (tm_status tm)
    | None =>
        modGid2State (insert gid {| tm_status := new_status; tm_state := None |});;
        mret TRANSACTION_STATUS_IN_PROGRESS
    end;
  MtmUnlock;;
  mret old_status.


(** [MtmAbortPreparedTransaction(&MtmTx)], the [XACT_EVENT_ABORT_PREPARED]
    callback.  [Assert(tm != NULL && tm->state != NULL)] is a
    precondition: without the entry or its state nothing is aborted. *)
Definition MtmAbortPreparedTransaction : M unit :=
  m ← getMtm;
  if bool_decide (status m = MTM_RECOVERY) then mret tt
  else
    x ← getTx;
    if negb (bool_decide (x_status x = TRANSACTION_STATUS_ABORTED)) then
      MtmLock LW_EXCLUSIVE;;
      w ← get;
      let tm := MtmGid2State (shm w) !! x_gid x in
      modGid2State (delete (x_gid x));;
      match tm ≫= tm_state with
      | Some xid => MtmAbortTransaction xid
      | None => mret tt
      end;;
      MtmUnlock;;
      modTx (set_x_status TRANSACTION_STATUS_ABORTED)
    else mret tt.

(** [MtmRecoveryCompleted].  [Mtm->recoverySlot], which only the start-up
    of the receivers reads, is not modelled. *)
Definition MtmRecoveryCompleted : M unit :=
  MtmLock LW_EXCLUSIVE;;
  t ← MtmGetSystemTime;
  modNode (MtmNodeId - 1) (set_lastStatusChangeTime t);;
  modMtm (fun m => set_disabledNodeMask (BIT_CLEAR (disabledNodeMask m) (MtmNodeId - 1)) m);;
  (* defuse watchdog until first heartbeat is received *)
  modMtm (fun m =>
    set_nodes (foldl (fun nds i => alter (set_lastHeartbeat 0) i nds) (nodes m)
                     (seq 0 (Z.to_nat (nAllNodes m)))) m);;
  (* Mode will be changed to online once all logical reciever are connected *)
  MtmSwitchClusterMode MTM_CONNECTED;;
  MtmUnlock.

(** [MtmOnNodeConnect(nodeId)]; the answer of the store is ignored. *)
Definition MtmOnNodeConnect (nodeId : Z) : M unit :=
  MtmLock LW_EXCLUSIVE;;
  modMtm (fun m => set_connectivityMask (BIT_CLEAR (connectivityMask m) (nodeId - 1)) m);;
  modMtm (fun m => set_reconnectMask (BIT_CLEAR (reconnectMask m) (nodeId - 1)) m);;
  MtmUnlock;;
  m ← getMtm;
  emit (EvRaftableSet MtmNodeId (connectivityMask m));;
  modify (fun w => set_raft (S (raft w)) w).

(** *** The cluster lock *)

(** [WalSndCtl->walsnds[i].sentPtr]; reading outside the array is
    undefined in C and yields 0 here. *)
Definition sentPtr (s : Shared) (i : Z) : Z :=
  default 0 (if 0 <=? i then walsnds_sentPtr s !! Z.to_nat i else None).

(** The loop [for (i = 0; mask != 0; i++, mask >>= 1)] of
    [MtmCheckClusterLock]: it releases the lock of every WAL-sender that
    has sent the whole log and stops at the first one that has not; it
    answers what is left of [mask].  A 64-bit mask is exhausted after 64
    shifts. *)
Fixpoint MtmCheckClusterLock_scan (fuel : nat) (i : Z) (mask : Z) (currLogPos : Z) : M Z :=
  if mask =? 0 then mret 0
  else
    match fuel with
    | O => fun _ => OutOfFuel
    | S fuel' =>
        if negb (Z.land mask 1 =? 0) then
          w ← get;
          if negb (sentPtr (shm w) i =? currLogPos) then
            (* recovery is in progress *)
            mret mask
          else
            (* recovered replica catched up with master *)
            modMtm (fun m =>
              set_walSenderLockerMask (BIT_CLEAR (walSenderLockerMask m) i) m);;
            MtmCheckClusterLock_scan fuel' (i + 1) (Z.shiftr mask 1) currLogPos
        else MtmCheckClusterLock_scan fuel' (i + 1) (Z.shiftr mask 1) currLogPos
    end.

(** [MtmCheckClusterLock]: if there are recovering nodes which are
    catching-up WAL, check the status and prevent new transaction from
    commit to give WAL-sender a chance to catch-up WAL.  Called with the
    lock held; the [while (true)] loop runs on fuel. *)
Fixpoint MtmCheckClusterLock_loop (fuel : nat) (delay : Z) : M unit :=
  match fuel with
  | O => fun _ => OutOfFuel
  | S fuel' =>
      m ← getMtm;
      let mask := walSenderLockerMask m in
      if negb (mask =? 0) then
        mask ← (if nActiveTransactions m =? 0 then
                  currLogPos ← GetXLogInsertRecPtr;
                  MtmCheckClusterLock_scan 64 0 mask currLogPos
                else mret mask);
        if negb (mask =? 0) then
          (* some "almost catch-up" wal-senders are still working. *)
          (* Do not start new transactions until them are completed. *)
          MtmUnlock;;
          MtmSleep delay;;
          MtmLock LW_EXCLUSIVE;;
          MtmCheckClusterLock_loop fuel' (next_delay delay)
        else
          (* All lockers are synchronized their logs *)
          (* Remove lock and mark them as receovered *)
          modMtm (fun m =>
            set_disabledNodeMask (Z.land (disabledNodeMask m) (not64 (nodeLockerMask m))) m);;
          modMtm (fun m => set_nLiveNodes (nLiveNodes m + nLockers m) m);;
          modMtm (set_nLockers 0);;
          modMtm (set_nodeLockerMask 0);;
          MtmCheckQuorum
      else mret tt
  end.

Definition MtmCheckClusterLock (fuel : nat) : M unit :=
  MtmCheckClusterLock_loop fuel MIN_WAIT_TIMEOUT.

(** ** The end of a transaction on the output side *)

(** [txn->xact_action] of a transaction that reaches
    [pglogical_write_commit]; any other action fails [Assert(false)]. *)
Inductive XactAction : Type :=
| XLOG_XACT_COMMIT
| XLOG_XACT_PREPARE
| XLOG_XACT_COMMIT_PREPARED
| XLOG_XACT_ABORT_PREPARED.

#[global] Instance XactAction_eq_dec : EqDecision XactAction.
Proof. solve_decision. Defined.

(** The codes [PGLOGICAL_COMMIT], [PGLOGICAL_PREPARE],
    [PGLOGICAL_COMMIT_PREPARED] and [PGLOGICAL_ABORT_PREPARED] of the
    missing [pglogical_proto.h], by the action they stand for; they are
    taken to be distinct. *)
Variable PGLOGICAL_flags : XactAction -> Z.




(** ** Joining a replicated transaction *)

(** What [hash_search(..., HASH_ENTER, ...)] finds in the memory of a new
    entry. *)
Variable uninitialized : MtmTransState.

Definition set_ts_xid (v : Z) (r : MtmTransState) : MtmTransState :=
  {| ts_xid := v; ts_gtid := ts_gtid r; ts_status := ts_status r; ts_snapshot := ts_snapshot r;
     ts_csn := ts_csn r; ts_isLocal := ts_isLocal r; ts_isEnqueued := ts_isEnqueued r;
     ts_votingCompleted := ts_votingCompleted r; ts_procno := ts_procno r; ts_cmd := ts_cmd r;
     ts_nSubxids := ts_nSubxids r |}.

(** [MtmCreateTransState(&MtmTx)].  The [gid] of a state is not
    modelled. *)
Definition MtmCreateTransState : M unit :=
  x ← getTx;
  found ← hash_find (x_xid x);
  let ts := default (set_ts_xid (x_xid x) uninitialized) found in
  let ts := set_ts_status TRANSACTION_STATUS_IN_PROGRESS ts in
  let ts := set_ts_snapshot (x_snapshot x) ts in
  let ts := set_ts_isLocal true ts in
  let ts := if found is None then set_ts_isEnqueued false ts else ts in
  let ts :=
    if TransactionIdIsValid (gtid_xid (x_gtid x)) then set_ts_gtid (x_gtid x) ts
    else
      (* I am coordinator of transaction *)
      set_ts_gtid {| gtid_node := MtmNodeId; gtid_xid := x_xid x |} ts in
  modXid2State (insert (x_xid x) ts).

(** [MtmJoinTransaction(gtid, globalSnapshot)]; [xid] is what
    [GetCurrentTransactionId()] answers, and the loop of [MtmSyncClock]
    runs on [fuel]. *)
Definition MtmJoinTransaction (fuel : nat) (xid : Z) (gtid : GlobalTransactionId)
    (globalSnapshot : Z) : M unit :=
  modTx (set_x_gtid gtid);;
  modTx (set_x_xid xid);;
  modTx (set_x_isReplicated true);;
  modTx (set_x_isDistributed true);;
  modTx (set_x_containsDML true);;
  (if negb (globalSnapshot =? INVALID_CSN) then
     MtmLock LW_EXCLUSIVE;;
     MtmSyncClock fuel globalSnapshot;;
     modTx (set_x_snapshot globalSnapshot);;
     m ← getMtm;
     (if negb (bool_decide (status m = MTM_RECOVERY)) then
        (* we need local->remote xid mapping for deadlock detection *)
        MtmCreateTransState
      else mret tt);;
     MtmUnlock
   else mret tt);;
  m ← getMtm;
  if negb (TransactionIdIsValid (gtid_xid gtid)) then
    (* In case of recovery InvalidTransactionId is passed *)
    if negb (bool_decide (status m = MTM_RECOVERY)) then
      elog WARNING "Node %d tries to recover node %d which is in %s mode"
        [ArgInt (gtid_node gtid); ArgInt MtmNodeId; ArgStr (MtmNodeStatusMnem (status m))];;
      MtmStartRecovery
    else mret tt
  else if bool_decide (status m = MTM_RECOVERY) then
    (* When recovery is completed we get normal transaction ID and switch
       to normal mode *)
    MtmRecoveryCompleted
  else mret tt.


(** ** The end of a transaction *)

(** The configuration variable [multimaster.max_recovery_lag]. *)
Variable MtmMaxRecoveryLag : Z.







(** The handlers of two events are not embedded; the callback takes them
    as they are. *)
Variable MtmPrePrepareTransaction : M unit.
Variable MtmTwoPhaseCommit : M unit.



(** * Example states *)

(** A cluster of three nodes seen from node 1: online, with one
    transaction, [7], that node 1 coordinates.  The statements that take
    hypotheses are instantiated on these states after the proofs. *)
Definition ex_node : MtmNodeInfo :=
  {| lastHeartbeat := 0; lastStatusChangeTime := 0; oldestSnapshot := 0 |}.

Definition ex_Mtm : MtmState :=
  {| status := MTM_ONLINE; oldestXid := 3; disabledNodeMask := 0; connectivityMask := 0;
     walSenderLockerMask := 0; nodeLockerMask := 0; reconnectMask := 0; inject2PCError := 0;
     nLiveNodes := 3; nAllNodes := 3; nLockers := 0; nActiveTransactions := 1;
     nConfigChanges := 0; timeShift := 0; csn := 100; lastCsn := 0; gcCount := 0;
     transListHead := [7];
     votingTransactions := []; nodes := [ex_node; ex_node; ex_node] |}.

Definition ex_ts (st : XidStatus) : MtmTransState :=
  {| ts_xid := 7; ts_gtid := {| gtid_node := 1; gtid_xid := 7 |}; ts_status := st;
     ts_snapshot := 1000; ts_csn := 5000; ts_isLocal := false; ts_isEnqueued := false;
     ts_votingCompleted := false; ts_procno := 3; ts_cmd := MSG_INVALID; ts_nSubxids := 0 |}.

Definition ex_shm (m : MtmState) (st : XidStatus) : Shared :=
  {| Mtm := m; MtmXid2State := {[ 7 := ex_ts st ]}; MtmGid2State := ∅;
     XLogInsertRecPtr := 500; walsnds_sentPtr := [500];
     replication_slots := [] |}.

(** A client session at read committed. *)
Definition ex_pg : PgSession :=
  {| XactIsoLevel := XACT_READ_COMMITTED; application_name := "psql";
     IsAutoVacuumLauncherProcess := false; IsNormalProcessingMode := true;
     MtmDoReplication := true; am_walsender := false; IsBackgroundWorker := false;
     IsAutoVacuumWorkerProcess := false; IsTransactionBlock := false;
     GetCurrentTransactionIdIfAny := 8; PgGetOldestXmin := 3; MyWalSnd := 0;
     MyReplicationSlot := None |}.

Definition ex_tx (snapshot : Z) : MtmCurrentTrans :=
  {| x_xid := 7; x_gtid := {| gtid_node := 1; gtid_xid := 7 |}; x_isReplicated := false;
     x_isDistributed := true; x_isPrepared := false; x_isTransactionBlock := false;
     x_containsDML := true; x_status := TRANSACTION_STATUS_IN_PROGRESS;
     x_snapshot := snapshot; x_csn := 0; x_gid := "MTM-1-7" |}.

(** A backend whose transaction has the snapshot [snapshot], over shared
    memory in which transaction [7] has the status [st]. *)
Definition ex_backend (m : MtmState) (st : XidStatus) (snapshot : Z) : Backend :=
  {| shm := ex_shm m st; MtmTx := ex_tx snapshot; MtmIsRecoverySession := false;
     MtmIsFilteredTxn := false; pg := ex_pg; out := []; clk := 0; susp := 0; raft := 0;
     trace := [] |}.

(** The other processes commit transaction [7] during any suspension. *)
Definition ex_commits (k : nat) (s : Shared) : Shared :=
  set_MtmXid2State (alter (set_ts_status TRANSACTION_STATUS_COMMITTED) 7 (MtmXid2State s)) s.

(** The other processes do nothing. *)
Definition ex_idle (k : nat) (s : Shared) : Shared := s.

(** A clock that advances by 5 ms between readings, from 10 ms. *)
Definition ex_clock (k : nat) : Z := 10000 + 5000 * Z.of_nat k.

(** A clock that stands still. *)
Definition ex_frozen (k : nat) : Z := 50.

(** A configuration store in which every node reports that it does not
    see node 3, and a clique finder that answers nodes 1 and 2. *)
Definition ex_RaftableGet (k : nat) (key : Z) (nowait : bool) : option Z := Some 4.

Definition ex_RaftableSet (k : nat) : bool := true.

Definition ex_MtmFindMaxClique (matrix : list Z) (n : Z) : Z * Z := (3, 2).

(** A configuration store that has no answer. *)
Definition ex_RaftableGet_none (k : nat) (key : Z) (nowait : bool) : option Z := None.

(** Shared memory in which the GID of transaction [7] is recorded with
    the status [st]. *)
Definition ex_shm_gid (m : MtmState) (st : XidStatus) : Shared :=
  set_MtmGid2State {[ "MTM-1-7" := {| tm_status := st; tm_state := Some 7 |} ]}
    (ex_shm m TRANSACTION_STATUS_UNKNOWN).

(** A node that has locked the cluster for the recovery of node 2: the
    WAL-sender 0 holds the lock and no transaction is active. *)
Definition ex_Mtm_locked : MtmState :=
  set_nActiveTransactions 0
    (set_nLockers 1
       (set_nodeLockerMask 2 (set_walSenderLockerMask 1 (set_disabledNodeMask 2 ex_Mtm)))).

(** A relation [public.t] with an [int4] column and a dropped column,
    and a row of it. *)
Definition ex_int4 : Form_pg_type := {| typtype := "b"; typelem := 0; typreceive := 2406 |}.

Definition ex_att (dropped : bool) : Form_pg_attribute :=
  {| attisdropped := dropped; attlen := 4; attbyval := true; atttypid := 23;
     typclass_of := Some ex_int4 |}.

Definition ex_rel : Relation :=
  {| relnamespace := 2200; namespace_name := Some "public"; relname := "t";
     attrs := [ex_att false; ex_att true] |}.

Definition ex_datum : Datum :=
  {| isnull := false; is_external_ondisk := false; internal_image := [0; 0; 0; 42];
     send_image := [0; 0; 0; 42]; output_text := "42" |}.


(** The other processes complete the voting on transaction [7]. *)
Definition ex_votes (k : nat) (s : Shared) : Shared :=
  set_MtmXid2State (alter (set_ts_votingCompleted true) 7 (MtmXid2State s)) s.

(** The other processes complete the voting on transaction [7] and change
    the configuration of the cluster. *)
Definition ex_reconfigures (k : nat) (s : Shared) : Shared :=
  set_Mtm (set_nConfigChanges (nConfigChanges (Mtm s) + 1) (Mtm s)) (ex_votes k s).




(** * Properties *)

(** Symbolic execution: the monad and every record update are unfolded,
    which leaves a backend as one constructor applied to its components. *)
Ltac flat :=
  lazy beta iota zeta delta
    [mbind mret M_bind M_ret when elog emit modMtm modTx modXid2State modGid2State
     getMtm getTx hash_find modify get
     shm MtmTx MtmIsRecoverySession MtmIsFilteredTxn pg out clk susp raft trace
     set_shm set_MtmTx set_MtmIsRecoverySession set_MtmIsFilteredTxn set_out set_clk
     set_susp set_raft set_trace
     Mtm MtmXid2State MtmGid2State XLogInsertRecPtr walsnds_sentPtr replication_slots
     set_Mtm set_MtmXid2State set_MtmGid2State set_replication_slots
     status oldestXid disabledNodeMask connectivityMask walSenderLockerMask nodeLockerMask
     reconnectMask inject2PCError nLiveNodes nAllNodes nLockers nActiveTransactions
     nConfigChanges timeShift csn lastCsn gcCount transListHead votingTransactions nodes
     set_status set_oldestXid set_disabledNodeMask set_connectivityMask
     set_walSenderLockerMask set_nodeLockerMask set_reconnectMask set_inject2PCError
     set_nLiveNodes set_nAllNodes set_nLockers set_nActiveTransactions set_nConfigChanges
     set_timeShift set_csn set_lastCsn set_gcCount set_transListHead set_votingTransactions set_nodes];
  cbn [negb andb orb].

Ltac flat_in_all :=
  lazy beta iota zeta delta
    [mbind mret M_bind M_ret when elog emit modMtm modTx modXid2State modGid2State
     getMtm getTx hash_find modify get
     shm MtmTx MtmIsRecoverySession MtmIsFilteredTxn pg out clk susp raft trace
     set_shm set_MtmTx set_MtmIsRecoverySession set_MtmIsFilteredTxn set_out set_clk
     set_susp set_raft set_trace
     Mtm MtmXid2State MtmGid2State XLogInsertRecPtr walsnds_sentPtr replication_slots
     set_Mtm set_MtmXid2State set_MtmGid2State set_replication_slots
     status oldestXid disabledNodeMask connectivityMask walSenderLockerMask nodeLockerMask
     reconnectMask inject2PCError nLiveNodes nAllNodes nLockers nActiveTransactions
     nConfigChanges timeShift csn lastCsn gcCount transListHead votingTransactions nodes
     set_status set_oldestXid set_disabledNodeMask set_connectivityMask
     set_walSenderLockerMask set_nodeLockerMask set_reconnectMask set_inject2PCError
     set_nLiveNodes set_nAllNodes set_nLockers set_nActiveTransactions set_nConfigChanges
     set_timeShift set_csn set_lastCsn set_gcCount set_transListHead set_votingTransactions set_nodes] in *;
  cbn [negb andb orb] in *.

(** The backend [w] as a constructor applied to variables. *)
Ltac open_backend w :=
  let m := fresh "m" in
  destruct w as [[m ? ? ? ? ?] ? ? ? ? ? ? ? ? ?];
  destruct m as [? ? ? ? ? ? ? ? ? ? ? ? ? ? ? ? ? ? ? ?];
  flat_in_all.

(** Unfolding of the monad. *)
Ltac munfold :=
  unfold mbind, mret, M_bind, M_ret, when, elog, emit, modMtm, modTx, modXid2State,
    modGid2State, getMtm, getTx, hash_find, modify, get; cbn.

Ltac munfold_in H :=
  unfold mbind, mret, M_bind, M_ret, when, elog, emit, modMtm, modTx, modXid2State,
    modGid2State, getMtm, getTx, hash_find, modify, get in H; cbn in H.

(** ** The logical clock *)

(** The value [MtmGetCurrentTime] returns in [w]. *)
Definition current_time (w : Backend) : Z :=
  wrap64 (wrap64 (gettimeofday (clk w)) + timeShift (Mtm (shm w))).

(** [w] after one reading of the clock that left [c] in [Mtm->csn]. *)
Definition assigned (c : Z) (w : Backend) : Backend :=
  set_shm (set_Mtm (set_csn c (Mtm (shm w))) (shm w)) (set_clk (S (clk w)) w).

Lemma wrap64_small z : 0 <= z <= UINT64_MAX -> wrap64 z = z.
Proof. unfold wrap64, UINT64_MAX. intros H. apply Z.mod_small. lia. Qed.

Lemma wrap64_range z : 0 <= wrap64 z <= UINT64_MAX.
Proof.
  unfold wrap64, UINT64_MAX.
  pose proof (Z.mod_pos_bound z (2 ^ 64) ltac:(lia)). lia.
Qed.

Lemma current_time_range w : 0 <= current_time w <= UINT64_MAX.
Proof. apply wrap64_range. Qed.

Lemma MtmAssignCSN_eq w :
  MtmAssignCSN w =
  let c := if current_time w <=? csn (Mtm (shm w))
           then wrap64 (csn (Mtm (shm w)) + 1) else current_time w in
  Ok c (assigned c w).
Proof.
  unfold MtmAssignCSN, current_time, assigned, MtmGetCurrentTime. munfold.
  destruct (_ <=? _); reflexivity.
Qed.

Lemma MtmAssignCSN_max w :
  0 <= csn (Mtm (shm w)) < UINT64_MAX ->
  MtmAssignCSN w =
  Ok (Z.max (current_time w) (csn (Mtm (shm w)) + 1))
     (assigned (Z.max (current_time w) (csn (Mtm (shm w)) + 1)) w).
Proof.
  intros Hcsn. rewrite MtmAssignCSN_eq. cbv zeta.
  destruct (Z.leb_spec (current_time w) (csn (Mtm (shm w)))) as [Hle | Hgt].
  - rewrite wrap64_small by lia. rewrite Z.max_r by lia. reflexivity.
  - rewrite Z.max_l by lia. reflexivity.
Qed.

Lemma MtmAssignCSN_times_total n :
  forall w, exists cs w', MtmAssignCSN_times n w = Ok cs w' /\ length cs = n.
Proof.
  induction n as [| n IH]; intros w.
  - exists [], w. split; reflexivity.
  - cbn [MtmAssignCSN_times]. unfold mbind, M_bind at 1.
    rewrite MtmAssignCSN_eq. cbv zeta.
    match goal with |- context [assigned ?c w] => destruct (IH (assigned c w)) as (cs & w' & Hrun & Hlen) end.
    unfold mbind, M_bind at 1. rewrite Hrun. eexists _, _. split; [reflexivity |].
    cbn. rewrite Hlen. reflexivity.
Qed.

Lemma MtmAssignCSN_times_sorted n :
  forall w cs w',
    MtmAssignCSN_times n w = Ok cs w' ->
    0 <= csn (Mtm (shm w)) < UINT64_MAX ->
    Forall (fun c => c < UINT64_MAX) cs ->
    StronglySorted Z.lt (csn (Mtm (shm w)) :: cs).
Proof.
  induction n as [| n IH]; intros w cs w' Hrun Hcsn Hbound.
  - cbn in Hrun. injection Hrun as <- _. repeat constructor.
  - cbn [MtmAssignCSN_times] in Hrun. unfold mbind, M_bind at 1 in Hrun.
    rewrite (MtmAssignCSN_max w Hcsn) in Hrun.
    set (c := Z.max (current_time w) (csn (Mtm (shm w)) + 1)) in *.
    unfold mbind, M_bind at 1 in Hrun.
    destruct (MtmAssignCSN_times n (assigned c w)) as [cs' w1 | |] eqn:Htail;
      [| discriminate | discriminate].
    unfold mret, M_ret in Hrun. injection Hrun as <- _.
    apply Forall_cons_1 in Hbound as [Hc Hcs'].
    assert (Hsorted : StronglySorted Z.lt (c :: cs')).
    { apply (IH _ _ _ Htail); [| exact Hcs']. cbn. pose proof (current_time_range w). lia. }
    constructor; [exact Hsorted |].
    assert (Hlt : csn (Mtm (shm w)) < c) by lia.
    constructor; [exact Hlt |].
    apply StronglySorted_inv in Hsorted as [_ Hall].
    eapply Forall_impl; [exact Hall |]. cbn. intros a Ha. lia.
Qed.

(** C2: [MtmAssignCSN] returns max(now, last-csn + 1) and leaves the
    value it returned in [Mtm->csn]; any number of successive calls
    returns a strictly increasing sequence of CSNs (above the last CSN
    assigned before), as long as the 64-bit counter is below its largest
    value. *)
Theorem MtmAssignCSN_strictly_increasing (w : Backend) :
  0 <= csn (Mtm (shm w)) < UINT64_MAX ->
  (exists w',
      MtmAssignCSN w = Ok (Z.max (current_time w) (csn (Mtm (shm w)) + 1)) w'
      /\ csn (Mtm (shm w')) = Z.max (current_time w) (csn (Mtm (shm w)) + 1)
      /\ timeShift (Mtm (shm w')) = timeShift (Mtm (shm w)))
  /\ forall n : nat, exists cs w',
      MtmAssignCSN_times n w = Ok cs w'
      /\ length cs = n
      /\ (Forall (fun c => c < UINT64_MAX) cs ->
          StronglySorted Z.lt (csn (Mtm (shm w)) :: cs)).
Proof.
  intros Hcsn. split.
  - eexists. split; [apply MtmAssignCSN_max; exact Hcsn |]. split; reflexivity.
  - intros n. destruct (MtmAssignCSN_times_total n w) as (cs & w' & Hrun & Hlen).
    exists cs, w'. split; [exact Hrun |]. split; [exact Hlen |].
    intros Hbound. eapply MtmAssignCSN_times_sorted; eauto.
Qed.

(** [w] after [Mtm->timeShift += d]. *)
Definition shifted (d : Z) (w : Backend) : Backend :=
  set_shm (set_Mtm (set_timeShift (wrap64 (timeShift (Mtm (shm w)) + d)) (Mtm (shm w))) (shm w)) w.

Lemma MtmSyncClock_step fuel global_csn w :
  0 <= csn (Mtm (shm w)) < UINT64_MAX ->
  MtmSyncClock (S fuel) global_csn w =
  let c := Z.max (current_time w) (csn (Mtm (shm w)) + 1) in
  if c <? global_csn
  then MtmSyncClock fuel global_csn (shifted (global_csn - c) (assigned c w))
  else Ok c (assigned c w).
Proof.
  intros Hcsn. cbn [MtmSyncClock]. unfold mbind, M_bind at 1.
  rewrite (MtmAssignCSN_max w Hcsn). cbv zeta.
  destruct (_ <? _); [| reflexivity].
  unfold shifted. munfold. reflexivity.
Qed.

(** Whatever [MtmSyncClock] returns is at least the CSN it was given and
    is what it left in [Mtm->csn]. *)
Lemma MtmSyncClock_post fuel global_csn :
  forall w r w',
    MtmSyncClock fuel global_csn w = Ok r w' ->
    global_csn <= r /\ csn (Mtm (shm w')) = r.
Proof.
  induction fuel as [| fuel IH]; intros w r w' Hrun; [discriminate |].
  cbn [MtmSyncClock] in Hrun. unfold mbind, M_bind at 1 in Hrun.
  rewrite MtmAssignCSN_eq in Hrun. cbv beta iota zeta in Hrun.
  match type of Hrun with context [assigned ?c0 w] => set (c := c0) in * end.
  destruct (c <? global_csn) eqn:Hcmp.
  - munfold_in Hrun. apply IH in Hrun. exact Hrun.
  - apply Z.ltb_ge in Hcmp. unfold mret, M_ret in Hrun. injection Hrun as <- <-.
    split; [lia | reflexivity].
Qed.

Lemma MtmSyncClock_run fuel global_csn :
  forall w,
    0 <= csn (Mtm (shm w)) < UINT64_MAX ->
    global_csn <= UINT64_MAX ->
    (Z.to_nat (global_csn - csn (Mtm (shm w))) < fuel)%nat ->
    exists r w',
      MtmSyncClock fuel global_csn w = Ok r w'
      /\ csn (Mtm (shm w)) < r
      /\ forall B,
          (forall k, wrap64 (gettimeofday k) + B <= UINT64_MAX) ->
          global_csn <= B ->
          0 <= timeShift (Mtm (shm w)) <= B ->
          timeShift (Mtm (shm w)) <= timeShift (Mtm (shm w')) <= B.
Proof.
  induction fuel as [| fuel IH]; intros w Hcsn Hglobal Hfuel; [lia |].
  rewrite (MtmSyncClock_step _ _ _ Hcsn). cbv zeta.
  set (c := Z.max (current_time w) (csn (Mtm (shm w)) + 1)).
  pose proof (current_time_range w) as Hnow.
  destruct (Z.ltb_spec c global_csn) as [Hlt | Hge].
  - destruct (IH (shifted (global_csn - c) (assigned c w))) as (r & w' & Hrun & Hr & Hshift).
    + cbn. lia.
    + exact Hglobal.
    + cbn. lia.
    + exists r, w'. split; [exact Hrun |]. cbn in Hr. split; [lia |].
      intros B Hclock HB Hts.
      assert (Hc : timeShift (Mtm (shm w)) <= c).
      { pose proof (wrap64_range (gettimeofday (clk w))) as Hsys.
        specialize (Hclock (clk w)).
        assert (current_time w = wrap64 (gettimeofday (clk w)) + timeShift (Mtm (shm w))) as Heq.
        { unfold current_time. apply wrap64_small. lia. }
        lia. }
      specialize (Hshift B Hclock HB). cbn in Hshift.
      rewrite wrap64_small in Hshift by lia.
      lia.
  - exists c, (assigned c w). split; [reflexivity |]. split; [lia |].
    intros B _ _ Hts. cbn. lia.
Qed.

(** C8 (amended): [MtmSyncClock c1] returns a CSN that is at least [c1],
    leaves it in [Mtm->csn], and moves neither [Mtm->csn] nor (while the
    shifted clock stays below 2^64) [Mtm->timeShift] backward.  A second
    [MtmSyncClock c2] with [c2 <= c1] leaves [timeShift] as it is but still
    draws a fresh CSN: [Mtm->csn] advances to max(now, previous + 1), so
    the call is idempotent on the time shift only. *)
Theorem MtmSyncClock_ratchet (w : Backend) (c1 c2 : Z) (fuel1 fuel2 : nat) :
  0 <= csn (Mtm (shm w)) < UINT64_MAX ->
  c1 <= UINT64_MAX ->
  c2 <= c1 ->
  (Z.to_nat (c1 - csn (Mtm (shm w))) < fuel1)%nat ->
  (0 < fuel2)%nat ->
  exists r1 w1,
    MtmSyncClock fuel1 c1 w = Ok r1 w1
    /\ c1 <= r1
    /\ csn (Mtm (shm w1)) = r1
    /\ csn (Mtm (shm w)) < r1
    /\ ((forall k, wrap64 (gettimeofday k) + Z.max (timeShift (Mtm (shm w))) c1 <= UINT64_MAX) ->
        0 <= timeShift (Mtm (shm w)) ->
        timeShift (Mtm (shm w)) <= timeShift (Mtm (shm w1)))
    /\ (r1 < UINT64_MAX ->
        exists r2 w2,
          MtmSyncClock fuel2 c2 w1 = Ok r2 w2
          /\ c2 <= r2
          /\ r2 = Z.max (current_time w1) (r1 + 1)
          /\ csn (Mtm (shm w2)) = r2
          /\ timeShift (Mtm (shm w2)) = timeShift (Mtm (shm w1))).
Proof.
  intros Hcsn Hc1 Hc2 Hfuel1 Hfuel2.
  destruct (MtmSyncClock_run fuel1 c1 w Hcsn Hc1 Hfuel1) as (r1 & w1 & Hrun & Hlt & Hshift).
  destruct (MtmSyncClock_post _ _ _ _ _ Hrun) as [Hge Hrec].
  exists r1, w1. repeat split; try assumption.
  - intros Hclock Hts.
    apply (Hshift (Z.max (timeShift (Mtm (shm w))) c1)); [exact Hclock | lia | lia].
  - intros Hr1. destruct fuel2 as [| fuel2]; [lia |].
    assert (Hcsn1 : 0 <= csn (Mtm (shm w1)) < UINT64_MAX) by lia.
    rewrite (MtmSyncClock_step _ _ _ Hcsn1). cbv zeta. rewrite Hrec.
    set (c := Z.max (current_time w1) (r1 + 1)).
    assert ((c <? c2) = false) as -> by (apply Z.ltb_ge; lia).
    exists c, (assigned c w1). repeat split. lia.
Qed.

(** ** Visibility *)

(** Shared memory after [j] further suspensions of a backend that has
    been suspended [k] times and does not write itself. *)
Fixpoint after_suspensions (j : nat) (k : nat) (s : Shared) : Shared :=
  match j with
  | O => s
  | S j' => after_suspensions j' (S k) (concurrent k s)
  end.

(** The state of [xid] is in doubt for a reader with snapshot [snap]. *)
Definition in_doubt (snap : Z) (xid : Z) (s : Shared) : Prop :=
  exists ts, MtmXid2State s !! xid = Some ts
             /\ ts_csn ts <= snap
             /\ ts_status ts = TRANSACTION_STATUS_UNKNOWN.

(** The backend after one wait of the visibility loop. *)
Definition waited (delay : Z) (w : Backend) : Backend :=
  set_trace (trace w ++ [EvUnlock; EvSleep delay; EvLock LW_SHARED])
    (set_susp (S (susp w)) (set_shm (concurrent (susp w) (shm w)) w)).

(** Equality of backends built by different sequences of updates. *)
Ltac backend_eq :=
  unfold set_trace, set_susp, set_shm, set_clk, set_raft, set_MtmTx, set_out,
    set_MtmIsRecoverySession, set_MtmIsFilteredTxn; cbn;
  rewrite <- ?app_assoc; cbn; reflexivity.

Lemma MtmXidInMVCCSnapshot_loop_wait loops delay xid snapshot w :
  in_doubt (x_snapshot (MtmTx w)) xid (shm w) ->
  MtmXidInMVCCSnapshot_loop (S loops) delay xid snapshot w =
  MtmXidInMVCCSnapshot_loop loops (next_delay delay) xid snapshot (waited delay w).
Proof.
  intros (ts & Hts & Hcsn & Hst).
  cbn [MtmXidInMVCCSnapshot_loop]. unfold MtmUnlock, MtmSleep, MtmLock, suspend. munfold.
  rewrite Hts. cbn.
  assert ((x_snapshot (MtmTx w) <? ts_csn ts) = false) as -> by (apply Z.ltb_ge; lia).
  rewrite bool_decide_eq_true_2 by exact Hst.
  f_equal. unfold waited. backend_eq.
Qed.

(** What the loop answers from a state it finds and that is not in doubt. *)
Lemma MtmXidInMVCCSnapshot_loop_found loops delay xid snapshot w ts :
  MtmXid2State (shm w) !! xid = Some ts ->
  (x_snapshot (MtmTx w) < ts_csn ts \/ ts_status ts <> TRANSACTION_STATUS_UNKNOWN) ->
  MtmXidInMVCCSnapshot_loop (S loops) delay xid snapshot w =
  Ok (if x_snapshot (MtmTx w) <? ts_csn ts then true
      else negb (bool_decide (ts_status ts = TRANSACTION_STATUS_COMMITTED)))
     (set_trace (trace w ++ [EvUnlock]) w).
Proof.
  intros Hts Hdecided.
  cbn [MtmXidInMVCCSnapshot_loop]. unfold MtmUnlock. munfold. rewrite Hts. cbn.
  destruct (Z.ltb_spec (x_snapshot (MtmTx w)) (ts_csn ts)) as [Hlt | Hge]; [reflexivity |].
  destruct Hdecided as [Hlt | Hst]; [lia |].
  rewrite bool_decide_eq_false_2 by exact Hst. reflexivity.
Qed.

(** The state of [xid] is in doubt at each of the next [k] looks of a
    backend that has been suspended [n] times. *)
Fixpoint in_doubt_for (k : nat) (snap xid : Z) (n : nat) (s : Shared) : Prop :=
  match k with
  | O => True
  | S k' => in_doubt snap xid s /\ in_doubt_for k' snap xid (S n) (concurrent n s)
  end.

(** The sleep intervals of [k] successive waits. *)
Fixpoint delays (k : nat) (delay : Z) : list Z :=
  match k with
  | O => []
  | S k' => delay :: delays k' (next_delay delay)
  end.

Definition wait_events (delay : Z) : list Event :=
  [EvUnlock; EvSleep delay; EvLock LW_SHARED].

Fixpoint waited_times (k : nat) (delay : Z) (w : Backend) : Backend :=
  match k with
  | O => w
  | S k' => waited_times k' (next_delay delay) (waited delay w)
  end.

Lemma waited_times_spec k :
  forall delay w,
    MtmTx (waited_times k delay w) = MtmTx w
    /\ shm (waited_times k delay w) = after_suspensions k (susp w) (shm w)
    /\ susp (waited_times k delay w) = (k + susp w)%nat
    /\ trace (waited_times k delay w) =
       trace w ++ concat (map wait_events (delays k delay)).
Proof.
  induction k as [| k IH]; intros delay w; cbn.
  - rewrite app_nil_r. repeat split.
  - destruct (IH (next_delay delay) (waited delay w)) as (Htx & Hshm & Hsusp & Htrace).
    rewrite Htx, Hshm, Hsusp, Htrace. cbn. rewrite <- app_assoc. cbn.
    repeat split. lia.
Qed.

Lemma MtmXidInMVCCSnapshot_loop_waits k xid snapshot :
  forall loops delay w,
    in_doubt_for k (x_snapshot (MtmTx w)) xid (susp w) (shm w) ->
    MtmXidInMVCCSnapshot_loop (k + loops) delay xid snapshot w =
    MtmXidInMVCCSnapshot_loop loops (Nat.iter k next_delay delay) xid snapshot
      (waited_times k delay w).
Proof.
  induction k as [| k IH]; intros loops delay w Hdoubt; [reflexivity |].
  destruct Hdoubt as [Hnow Hlater].
  change (S k + loops)%nat with (S (k + loops)).
  rewrite MtmXidInMVCCSnapshot_loop_wait by exact Hnow.
  rewrite IH by exact Hlater.
  cbn [waited_times]. rewrite Nat.iter_succ_r. reflexivity.
Qed.

Lemma after_suspensions_in_doubt k snap xid :
  forall n s, in_doubt_for (S k) snap xid n s -> in_doubt_for k snap xid n s.
Proof.
  induction k as [| k IH]; intros n s H; [exact I |].
  destruct H as [H0 H1]. split; [exact H0 |]. apply IH. exact H1.
Qed.

(** The answer of a check that finds, after [k] in-doubt looks, a state
    that decides. *)
Lemma MtmXidInMVCCSnapshot_decided
  (xid : Z) (snapshot : Snapshot) (w : Backend) (k : nat) (ts : MtmTransState) :
  MtmUseDtm = true ->
  (k < MAX_WAIT_LOOPS)%nat ->
  in_doubt_for k (x_snapshot (MtmTx w)) xid (susp w) (shm w) ->
  MtmXid2State (after_suspensions k (susp w) (shm w)) !! xid = Some ts ->
  (x_snapshot (MtmTx w) < ts_csn ts \/ ts_status ts <> TRANSACTION_STATUS_UNKNOWN) ->
  exists w',
    MtmXidInMVCCSnapshot xid snapshot w =
    Ok (if x_snapshot (MtmTx w) <? ts_csn ts then true
        else negb (bool_decide (ts_status ts = TRANSACTION_STATUS_COMMITTED))) w'.
Proof.
  intros Hdtm Hk Hdoubt Hts Hdecided.
  unfold MtmXidInMVCCSnapshot. rewrite Hdtm. cbn [negb].
  unfold MtmLock, emit, modify. unfold mbind, M_bind at 1. cbv beta iota.
  set (w1 := set_trace (trace w ++ [EvLock LW_SHARED]) w).
  replace MAX_WAIT_LOOPS with (k + S (MAX_WAIT_LOOPS - S k))%nat by lia.
  rewrite (MtmXidInMVCCSnapshot_loop_waits k xid snapshot _ _ w1) by exact Hdoubt.
  destruct (waited_times_spec k MIN_WAIT_TIMEOUT w1) as (Htx & Hshm & _ & _).
  cbn in Htx, Hshm.
  eexists.
  rewrite (MtmXidInMVCCSnapshot_loop_found (MAX_WAIT_LOOPS - S k) _ _ _ _ ts).
  - rewrite Htx. reflexivity.
  - rewrite Hshm. exact Hts.
  - rewrite Htx. exact Hdecided.
Qed.

(** C1: a visibility check that, after any number of in-doubt looks, finds
    the state of the XID reports the tuple invisible ([true]) when the
    CSN of the state is greater than the snapshot or the state is aborted,
    and visible ([false]) when the state is committed with a CSN at most the
    snapshot. *)
Theorem MtmXidInMVCCSnapshot_found
  (xid : Z) (snapshot : Snapshot) (w : Backend) (k : nat) (ts : MtmTransState) :
  MtmUseDtm = true ->
  (k < MAX_WAIT_LOOPS)%nat ->
  in_doubt_for k (x_snapshot (MtmTx w)) xid (susp w) (shm w) ->
  MtmXid2State (after_suspensions k (susp w) (shm w)) !! xid = Some ts ->
  (x_snapshot (MtmTx w) < ts_csn ts \/ ts_status ts = TRANSACTION_STATUS_ABORTED ->
   exists w', MtmXidInMVCCSnapshot xid snapshot w = Ok true w')
  /\ (ts_status ts = TRANSACTION_STATUS_COMMITTED /\ ts_csn ts <= x_snapshot (MtmTx w) ->
      exists w', MtmXidInMVCCSnapshot xid snapshot w = Ok false w').
Proof.
  intros Hdtm Hk Hdoubt Hts. split.
  - intros Hinv.
    destruct (MtmXidInMVCCSnapshot_decided xid snapshot w k ts Hdtm Hk Hdoubt Hts)
      as (w' & Hrun).
    { destruct Hinv as [Hlt | Hab]; [left; exact Hlt | right; rewrite Hab; discriminate]. }
    exists w'. rewrite Hrun. f_equal.
    destruct Hinv as [Hlt | Hab].
    + apply Z.ltb_lt in Hlt. rewrite Hlt. reflexivity.
    + rewrite Hab. destruct (x_snapshot (MtmTx w) <? ts_csn ts); reflexivity.
  - intros [Hcommitted Hle].
    destruct (MtmXidInMVCCSnapshot_decided xid snapshot w k ts Hdtm Hk Hdoubt Hts)
      as (w' & Hrun).
    { right. rewrite Hcommitted. discriminate. }
    exists w'. rewrite Hrun. f_equal.
    assert ((x_snapshot (MtmTx w) <? ts_csn ts) = false) as -> by (apply Z.ltb_ge; lia).
    rewrite Hcommitted. reflexivity.
Qed.





(** ** The output side *)

(** The value [MtmTransactionSnapshot] returns. *)
Definition replicated_snapshot (s : Shared) (xid : Z) : Z :=
  if bool_decide (status (Mtm s) = MTM_ONLINE) then
    match MtmXid2State s !! xid with
    | Some ts => if negb (ts_isLocal ts) then ts_snapshot ts else INVALID_CSN
    | None => INVALID_CSN
    end
  else INVALID_CSN.

Lemma MtmTransactionSnapshot_eq xid w :
  MtmTransactionSnapshot xid w =
  Ok (replicated_snapshot (shm w) xid)
     (set_trace (trace w ++ [EvLock LW_SHARED; EvUnlock]) w).
Proof.
  unfold MtmTransactionSnapshot, replicated_snapshot, MtmLock, MtmUnlock. munfold.
  f_equal. backend_eq.
Qed.

(** A computation only appends to the output buffer and leaves the
    filter flag alone, whether it returns or raises. *)
Definition appends {A : Type} (c : M A) : Prop :=
  forall w,
    match c w with
    | Ok _ w' | Raise _ _ w' =>
        (exists bytes, out w' = out w ++ bytes) /\ MtmIsFilteredTxn w' = MtmIsFilteredTxn w
    | OutOfFuel => False
    end.

Lemma appends_ret {A : Type} (a : A) : appends (mret a).
Proof. intros w. cbn. split; [exists []; rewrite app_nil_r; reflexivity | reflexivity]. Qed.

Lemma appends_append bytes : appends (append bytes).
Proof. intros w. cbn. split; [exists bytes; reflexivity | reflexivity]. Qed.

Lemma appends_elog_ERROR {A : Type} fmt args : appends (@elog_ERROR A fmt args).
Proof. intros w. cbn. split; [exists []; rewrite app_nil_r; reflexivity | reflexivity]. Qed.

Lemma appends_bind {A B : Type} (c : M A) (k : A -> M B) :
  appends c -> (forall a, appends (k a)) -> appends (c ≫= k).
Proof.
  intros Hc Hk w. specialize (Hc w). unfold mbind, M_bind.
  destruct (c w) as [a w1 | fmt args w1 |]; [| exact Hc | exact Hc].
  destruct Hc as [[b1 Hb1] Hf1]. specialize (Hk a w1).
  destruct (k a w1) as [b w2 | fmt args w2 |]; [| | exact Hk].
  - destruct Hk as [[b2 Hb2] Hf2]. split; [| congruence].
    exists (b1 ++ b2). rewrite Hb2, Hb1, app_assoc. reflexivity.
  - destruct Hk as [[b2 Hb2] Hf2]. split; [| congruence].
    exists (b1 ++ b2). rewrite Hb2, Hb1, app_assoc. reflexivity.
Qed.

Lemma appends_pglogical_write_attrs data atts :
  forall values, appends (pglogical_write_attrs data atts values).
Proof.
  induction atts as [| att atts IH]; intros values; [apply appends_ret |].
  destruct values as [| v values]; [apply appends_ret |].
  cbn [pglogical_write_attrs]. apply appends_bind; [| intros _; apply IH].
  destruct (attisdropped att); [apply appends_ret |].
  destruct (isnull v); [apply appends_append |].
  destruct (_ && _); [apply appends_append |].
  destruct (typclass_of att) as [typclass |]; [| apply appends_elog_ERROR].
  cbv zeta. apply appends_bind; [apply appends_append | intros _].
  repeat match goal with
         | |- appends (if ?b then _ else _) => destruct b
         | |- appends (_ ≫= _) => apply appends_bind; [| intros _]
         | |- appends (append _) => apply appends_append
         | |- appends (pq_sendint _ _) => apply appends_append
         | |- appends (elog_ERROR _ _) => apply appends_elog_ERROR
         end.
Qed.

Lemma appends_pglogical_write_tuple data rel tuple :
  appends (pglogical_write_tuple data rel tuple).
Proof.
  unfold pglogical_write_tuple.
  apply appends_bind; [apply appends_append | intros _].
  apply appends_bind; [apply appends_append | intros _].
  apply appends_pglogical_write_attrs.
Qed.

(** The tag byte that opens the record of a change. *)
Definition tag_of (ch : Change) : Z :=
  match ch with
  | ChRelation _ => byte_of "R"%char
  | ChInsert _ _ => byte_of "I"%char
  | ChUpdate _ _ _ => byte_of "U"%char
  | ChDelete _ _ => byte_of "D"%char
  end.

(** After its tag, a change only appends. *)
Lemma appends_after_tag {A : Type} (tag : Z) (c : M A) w :
  appends c ->
  match (pq_sendbyte tag;; c) w with
  | Ok _ w' | Raise _ _ w' =>
      (exists bytes, out w' = out w ++ tag mod 256 :: bytes)
      /\ MtmIsFilteredTxn w' = MtmIsFilteredTxn w
  | OutOfFuel => False
  end.
Proof.
  intros Hc. unfold pq_sendbyte, append. munfold.
  set (w1 := set_out (out w ++ [tag mod 256]) w).
  specialize (Hc w1).
  destruct (c w1) as [a w2 | fmt args w2 |]; [| | exact Hc];
    destruct Hc as [[bytes Hbytes] Hflag]; (split; [| exact Hflag]);
    exists bytes; rewrite Hbytes; cbn; rewrite <- app_assoc; reflexivity.
Qed.

Lemma unless_filtered (c : M unit) w :
  MtmIsFilteredTxn w = false ->
  (w0 ← get; if MtmIsFilteredTxn w0 then mret tt else c) w = c w.
Proof. intros Hflag. unfold mbind, M_bind, get. rewrite Hflag. reflexivity. Qed.

Lemma if_not_filtered (c : M unit) w :
  MtmIsFilteredTxn w = false ->
  (w0 ← get; if negb (MtmIsFilteredTxn w0) then c else mret tt) w = c w.
Proof. intros Hflag. unfold mbind, M_bind, get. rewrite Hflag. reflexivity. Qed.

Lemma pglogical_write_change_emits data ch w :
  MtmIsFilteredTxn w = false ->
  match pglogical_write_change data ch w with
  | Ok _ w' | Raise _ _ w' =>
      (exists bytes, out w' = out w ++ tag_of ch :: bytes)
      /\ MtmIsFilteredTxn w' = false
  | OutOfFuel => False
  end.
Proof.
  intros Hflag.
  assert (Hgoal :
    match pglogical_write_change data ch w with
    | Ok _ w' | Raise _ _ w' =>
        (exists bytes, out w' = out w ++ tag_of ch mod 256 :: bytes)
        /\ MtmIsFilteredTxn w' = MtmIsFilteredTxn w
    | OutOfFuel => False
    end).
  { destruct ch as [rel | rel newtuple | rel oldtuple newtuple | rel oldtuple];
      cbn [pglogical_write_change tag_of];
      unfold pglogical_write_rel, pglogical_write_insert, pglogical_write_update,
        pglogical_write_delete;
      first [rewrite (unless_filtered _ w Hflag) | rewrite (if_not_filtered _ w Hflag)];
      apply appends_after_tag.
    - destruct (namespace_name rel); [| apply appends_elog_ERROR].
      cbv zeta. repeat (apply appends_bind; [apply appends_append | intros _]).
      apply appends_append.
    - apply appends_pglogical_write_tuple.
    - apply appends_bind.
      + destruct oldtuple; [| apply appends_ret].
        apply appends_bind; [apply appends_append | intros _].
        apply appends_pglogical_write_tuple.
      + intros _. apply appends_bind; [apply appends_append | intros _].
        apply appends_pglogical_write_tuple.
    - apply appends_pglogical_write_tuple. }
  replace (tag_of ch mod 256) with (tag_of ch) in Hgoal by (destruct ch; reflexivity).
  rewrite Hflag in Hgoal. exact Hgoal.
Qed.

Lemma pglogical_write_changes_filtered data chs :
  forall w, MtmIsFilteredTxn w = true -> pglogical_write_changes data chs w = Ok tt w.
Proof.
  induction chs as [| ch chs IH]; intros w Hflag; [reflexivity |].
  cbn [pglogical_write_changes]. unfold mbind, M_bind at 1.
  assert (pglogical_write_change data ch w = Ok tt w) as ->.
  { destruct ch; cbn [pglogical_write_change];
      unfold pglogical_write_rel, pglogical_write_insert, pglogical_write_update,
        pglogical_write_delete;
      unfold mbind, M_bind, get; rewrite Hflag; reflexivity. }
  apply IH. exact Hflag.
Qed.

(** C7: when the snapshot recorded for the transaction is [INVALID_CSN]
    and the receiving node is not in recovery, [pglogical_write_begin]
    writes nothing and marks the transaction filtered, and no RELATION,
    INSERT, UPDATE or DELETE record that follows reaches the stream.  With
    a valid CSN, or towards a node in recovery, the BEGIN record is written
    and every following change opens its record with its tag. *)
Theorem pglogical_write_begin_filters
  (data : PGLogicalOutputData) (txn : ReorderBufferTXN) (w : Backend) :
  let csn := replicated_snapshot (shm w) (txn_xid txn) in
  let disabled := BIT_CHECK (disabledNodeMask (Mtm (shm w))) (MtmReplicationNodeId - 1) in
  (disabled = false /\ csn = INVALID_CSN ->
   exists w1,
     pglogical_write_begin data txn w = Ok tt w1
     /\ MtmIsFilteredTxn w1 = true
     /\ out w1 = out w
     /\ forall chs, exists w2,
         pglogical_write_changes data chs w1 = Ok tt w2 /\ out w2 = out w)
  /\ ((disabled = false /\ csn <> INVALID_CSN)
      \/ (disabled = true /\ MtmIsRecoverySession w = true) ->
      exists w1,
        pglogical_write_begin data txn w = Ok tt w1
        /\ MtmIsFilteredTxn w1 = false
        /\ out w1 =
           out w ++ byte_of "B"%char :: be_bytes 4 MtmNodeId
                 ++ be_bytes 4 (if disabled then InvalidTransactionId else txn_xid txn)
                 ++ be_bytes 8 csn
        /\ forall ch w',
            MtmIsFilteredTxn w' = false ->
            match pglogical_write_change data ch w' with
            | Ok _ w'' | Raise _ _ w'' =>
                (exists bytes, out w'' = out w' ++ tag_of ch :: bytes)
                /\ MtmIsFilteredTxn w'' = false
            | OutOfFuel => False
            end).
Proof.
  intros csn disabled. split.
  - intros [Hdis Hcsn].
    unfold pglogical_write_begin, MtmIsRecoveredNode.
    unfold mbind at 1; unfold M_bind at 1. munfold. fold disabled. rewrite Hdis.
    rewrite MtmTransactionSnapshot_eq. cbn. fold csn. rewrite Hcsn, Z.eqb_refl. cbn.
    eexists. split; [reflexivity |]. split; [reflexivity |]. split; [reflexivity |].
    intros chs. eexists. split; [apply pglogical_write_changes_filtered; reflexivity |].
    reflexivity.
  - intros Hemit.
    unfold pglogical_write_begin, MtmIsRecoveredNode.
    unfold mbind at 1; unfold M_bind at 1. munfold. fold disabled.
    destruct Hemit as [[Hdis Hcsn] | [Hdis Hsession]]; rewrite Hdis.
    + rewrite MtmTransactionSnapshot_eq. cbn. fold csn.
      apply Z.eqb_neq in Hcsn. rewrite Hcsn. cbn.
      eexists. split; [reflexivity |]. split; [reflexivity |]. split.
      * cbn. rewrite <- !app_assoc. reflexivity.
      * intros ch w' Hflag. apply pglogical_write_change_emits. exact Hflag.
    + rewrite Hsession. cbn. rewrite MtmTransactionSnapshot_eq. cbn. fold csn.
      rewrite andb_false_r.
      eexists. split; [reflexivity |]. split; [reflexivity |]. split.
      * cbn. rewrite <- !app_assoc. reflexivity.
      * intros ch w' Hflag. apply pglogical_write_change_emits. exact Hflag.
Qed.

(** ** Node sets *)

Lemma bit64_small b : 0 <= b < 64 -> bit64 b = 2 ^ b.
Proof.
  intros Hb. unfold bit64. rewrite Z.shiftl_1_l. apply wrap64_small.
  unfold UINT64_MAX. split; [apply Z.pow_nonneg; lia |].
  assert (2 ^ b < 2 ^ 64) by (apply Z.pow_lt_mono_r; lia). lia.
Qed.

Lemma UINT64_MAX_ones : UINT64_MAX = Z.ones 64.
Proof. reflexivity. Qed.

Lemma testbit_not64 x c : 0 <= c < 64 -> Z.testbit (not64 x) c = negb (Z.testbit x c).
Proof.
  intros Hc. unfold not64. rewrite Z.lxor_spec, UINT64_MAX_ones.
  rewrite Z.ones_spec_low by lia. apply xorb_true_r.
Qed.

Lemma BIT_CHECK_testbit mask b : 0 <= b < 64 -> BIT_CHECK mask b = Z.testbit mask b.
Proof.
  intros Hb. unfold BIT_CHECK. rewrite bit64_small by exact Hb.
  destruct (Z.testbit mask b) eqn:Hbit.
  - apply negb_true_iff, Z.eqb_neq. intros Hzero.
    assert (Z.testbit (Z.land mask (2 ^ b)) b = true) as Habs.
    { rewrite Z.land_spec, Hbit, Z.pow2_bits_true by lia. reflexivity. }
    rewrite Hzero, Z.bits_0 in Habs. discriminate.
  - apply negb_false_iff, Z.eqb_eq. apply Z.bits_inj'. intros c Hc.
    rewrite Z.land_spec, Z.bits_0.
    destruct (Z.eq_dec c b) as [-> | Hne].
    + rewrite Hbit. reflexivity.
    + rewrite Z.pow2_bits_false by lia. apply andb_false_r.
Qed.

Lemma testbit_BIT_SET mask b c :
  0 <= b < 64 -> 0 <= c ->
  Z.testbit (BIT_SET mask b) c = Z.testbit mask c || (c =? b).
Proof.
  intros Hb Hc. unfold BIT_SET. rewrite bit64_small by exact Hb.
  rewrite Z.lor_spec. f_equal.
  destruct (Z.eqb_spec c b) as [-> | Hne].
  - apply Z.pow2_bits_true. lia.
  - apply Z.pow2_bits_false. lia.
Qed.

Lemma testbit_BIT_CLEAR mask b c :
  0 <= b < 64 -> 0 <= c < 64 ->
  Z.testbit (BIT_CLEAR mask b) c = Z.testbit mask c && negb (c =? b).
Proof.
  intros Hb Hc. unfold BIT_CLEAR. rewrite bit64_small by exact Hb.
  rewrite Z.land_spec, testbit_not64 by exact Hc. f_equal. f_equal.
  destruct (Z.eqb_spec c b) as [-> | Hne].
  - apply Z.pow2_bits_true. lia.
  - apply Z.pow2_bits_false. lia.
Qed.

Lemma land_wrap64_range a x b : 0 <= Z.land (Z.land a (wrap64 x)) b < 2 ^ 64.
Proof.
  unfold wrap64. rewrite <- (Z.land_ones x 64) by lia.
  rewrite (Z.land_assoc a x), <- (Z.land_assoc (Z.land a x)).
  rewrite (Z.land_comm (Z.ones 64) b), Z.land_assoc, Z.land_ones by lia.
  apply Z.mod_pos_bound. lia.
Qed.

(** ** Recovery *)

(** The cluster state of a donor whose wal-sender [walsnd] has just locked
    the cluster for the almost caught-up node [nodeId]. *)
Definition cluster_locked_for (nodeId walsnd : Z) (m : MtmState) : MtmState :=
  set_nLockers (nLockers m + 1)
    (set_walSenderLockerMask (BIT_SET (walSenderLockerMask m) walsnd)
       (set_nodeLockerMask (BIT_SET (nodeLockerMask m) (nodeId - 1)) m)).

(** C4: for a node in recovery observed by the wal-sender of its donor,
    [MtmRecoveryCaughtUp] answers [true] exactly when the slot position
    equals the WAL insert position and the donor has no active
    transaction; in that case the node's bit leaves [disabledNodeMask], its
    locker bits are cleared and [nConfigChanges] advances.  Otherwise the
    node stays disabled and [nConfigChanges] stays: the almost caught-up
    case only sets the locker bits, and in the remaining case shared memory
    is left as it was. *)
Theorem MtmRecoveryCaughtUp_enables (nodeId slotLSN : Z) (w : Backend) :
  let m := Mtm (shm w) in
  let walLSN := XLogInsertRecPtr (shm w) in
  let caughtUp := (slotLSN =? walLSN) && (nActiveTransactions m =? 0) in
  0 < nodeId <= 64 ->
  0 <= MyWalSnd (pg w) < 64 ->
  BIT_CHECK (disabledNodeMask m) (nodeId - 1) = true ->
  MtmIsRecoverySession w = true ->
  exists w',
    MtmRecoveryCaughtUp nodeId slotLSN w = Ok caughtUp w'
    /\ (caughtUp = true <-> slotLSN = walLSN /\ nActiveTransactions m = 0)
    /\ (caughtUp = true ->
        BIT_CHECK (disabledNodeMask (Mtm (shm w'))) (nodeId - 1) = false
        /\ BIT_CHECK (nodeLockerMask (Mtm (shm w'))) (nodeId - 1) = false
        /\ (BIT_CHECK (nodeLockerMask m) (nodeId - 1) = true ->
            BIT_CHECK (walSenderLockerMask (Mtm (shm w'))) (MyWalSnd (pg w)) = false
            /\ nLockers (Mtm (shm w')) = nLockers m - 1)
        /\ nConfigChanges (Mtm (shm w')) = nConfigChanges m + 1)
    /\ (caughtUp = false ->
        BIT_CHECK (disabledNodeMask (Mtm (shm w'))) (nodeId - 1) = true
        /\ nConfigChanges (Mtm (shm w')) = nConfigChanges m
        /\ shm w' =
           if negb (BIT_CHECK (nodeLockerMask m) (nodeId - 1))
              && (walLSN <? wrap64 (slotLSN + MtmMinRecoveryLag))
           then set_Mtm (cluster_locked_for nodeId (MyWalSnd (pg w)) m) (shm w)
           else shm w).
Proof.
  intros m walLSN caughtUp Hnode Hwalsnd Hdisabled Hsession. subst m walLSN caughtUp.
  assert (Hidx : (0 <=? nodeId - 1) = true) by (apply Z.leb_le; lia).
  unfold MtmRecoveryCaughtUp, MtmIsRecoveredNode, MtmRecoveryCaughtUp_recovered,
    MtmEnableNode, MtmLock, MtmUnlock, MtmGetSystemTime, GetXLogInsertRecPtr, modNode,
    cluster_locked_for.
  open_backend w.
  rewrite Hdisabled. flat. rewrite Hsession. flat. rewrite !Hidx.
  match goal with
  | |- context [(slotLSN =? ?lsn) && (?n =? 0)] =>
      assert (Hiff : (slotLSN =? lsn) && (n =? 0) = true <-> slotLSN = lsn /\ n = 0)
        by (rewrite andb_true_iff, !Z.eqb_eq; reflexivity);
      destruct ((slotLSN =? lsn) && (n =? 0)) eqn:Hcaught
  end.
  - match goal with
    | |- context [BIT_CHECK ?nlm (nodeId - 1)] =>
        destruct (BIT_CHECK nlm (nodeId - 1)) eqn:Hlocker
    end;
      destruct (nodeId =? MtmNodeId); flat;
      eexists; (split; [reflexivity |]); (split; [exact Hiff |]);
      (split; [| intros; discriminate]); intros _; flat;
      rewrite !BIT_CHECK_testbit by lia; rewrite !testbit_BIT_CLEAR by lia;
      rewrite Z.eqb_refl, !andb_false_r; repeat split; try discriminate.
    all: try (rewrite Z.eqb_refl; apply andb_false_r).
    all: rewrite <- BIT_CHECK_testbit by lia; exact Hlocker.
  - match goal with
    | |- context [negb (BIT_CHECK ?nlm (nodeId - 1)) && ?c] =>
        destruct (negb (BIT_CHECK nlm (nodeId - 1)) && c) eqn:Halmost
    end; flat;
      eexists; (split; [reflexivity |]); (split; [exact Hiff |]);
      (split; [intros; discriminate |]); intros _; flat;
      repeat split; assumption.
Qed.
(** ** Reasoning about runs *)

(** [c] returns from [w], with a value and a backend that satisfy [Q]. *)
Definition returns {A : Type} (c : M A) (w : Backend) (Q : A -> Backend -> Prop) : Prop :=
  match c w with
  | Ok a w' => Q a w'
  | _ => False
  end.

(** [c] always returns and preserves [I]. *)
Definition keeps {A : Type} (I : Backend -> Prop) (c : M A) : Prop :=
  forall w, I w -> returns c w (fun _ w' => I w').

Lemma returns_ex {A : Type} (c : M A) w Q :
  returns c w Q <-> exists a w', c w = Ok a w' /\ Q a w'.
Proof.
  unfold returns. split.
  - destruct (c w) as [a w' | |]; [eauto | contradiction | contradiction].
  - intros (a & w' & -> & HQ). exact HQ.
Qed.

Lemma returns_unit (c : M unit) w (Q : unit -> Backend -> Prop) :
  returns c w Q -> exists w', c w = Ok tt w' /\ Q tt w'.
Proof.
  unfold returns. destruct (c w) as [[] w' | |]; [eauto | contradiction | contradiction].
Qed.

Lemma returns_ret {A : Type} (a : A) w (Q : A -> Backend -> Prop) :
  Q a w -> returns (mret a) w Q.
Proof. intros HQ. exact HQ. Qed.

Lemma returns_bind {A B : Type} (c : M A) (k : A -> M B) w Q :
  returns c w (fun a w1 => returns (k a) w1 Q) -> returns (c ≫= k) w Q.
Proof.
  unfold returns, mbind, M_bind. destruct (c w); [auto | contradiction | contradiction].
Qed.

Lemma returns_mono {A : Type} (c : M A) w (P Q : A -> Backend -> Prop) :
  (forall a w', P a w' -> Q a w') -> returns c w P -> returns c w Q.
Proof. unfold returns. intros HPQ. destruct (c w); [apply HPQ | auto | auto]. Qed.

Lemma returns_and {A : Type} (c : M A) w (P Q : A -> Backend -> Prop) :
  returns c w P -> returns c w Q -> returns c w (fun a w' => P a w' /\ Q a w').
Proof. unfold returns. destruct (c w); [auto | auto | auto]. Qed.

Lemma keeps_returns {A : Type} I (c : M A) w :
  keeps I c -> I w -> returns c w (fun _ w' => I w').
Proof. intros Hc HI. apply Hc. exact HI. Qed.

Lemma keeps_ret {A : Type} I (a : A) : keeps I (mret a).
Proof. intros w HI. exact HI. Qed.

Lemma keeps_bind {A B : Type} I (c : M A) (k : A -> M B) :
  keeps I c -> (forall a, keeps I (k a)) -> keeps I (c ≫= k).
Proof.
  intros Hc Hk w HI. apply returns_bind.
  eapply returns_mono; [| apply Hc; exact HI].
  intros a w' HI'. apply Hk. exact HI'.
Qed.

Lemma keeps_modify I (f : Backend -> Backend) :
  (forall w, I w -> I (f w)) -> keeps I (modify f).
Proof. intros Hf w HI. apply Hf. exact HI. Qed.

Lemma keeps_read {A : Type} I (f : Backend -> A) : keeps I (fun w => Ok (f w) w).
Proof. intros w HI. exact HI. Qed.

Lemma keeps_when I (b : bool) (c : M unit) : keeps I c -> keeps I (when b c).
Proof. intros Hc. destruct b; [exact Hc | apply keeps_ret]. Qed.

Lemma keeps_and {A : Type} (I J : Backend -> Prop) (c : M A) :
  keeps I c -> keeps J c -> keeps (fun w => I w /\ J w) c.
Proof.
  intros HI HJ w [Hi Hj]. specialize (HI w Hi). specialize (HJ w Hj).
  unfold returns in *. destruct (c w); [split; assumption | contradiction | contradiction].
Qed.

(** Reduces [keeps I c] to the updates [c] makes. *)
Ltac keeps_steps :=
  repeat match goal with
    | |- keeps _ (mret _) => apply keeps_ret
    | |- keeps _ (mbind _ _) => apply keeps_bind; [| intros ?]
    | |- keeps _ (when _ _) => apply keeps_when
    | |- keeps _ (fun w => Ok _ w) => apply (keeps_read _ _)
    | |- keeps _ (if ?b then _ else _) => destruct b
    | |- keeps _ (match ?x with Some _ => _ | None => _ end) => destruct x
    end.

(** ** The watchdog *)

Definition heartbeat_warning : string :=
  "Heartbeat is not received from node %d during %d msec".

(** [e] is the warning by which the watchdog reports that it times
    [nodeId] out, just before it calls [MtmOnNodeDisconnect(nodeId)]. *)
Definition times_out (nodeId : Z) (e : Event) : bool :=
  match e with
  | EvElog WARNING fmt [ArgInt n; ArgInt _] => String.eqb fmt heartbeat_warning && (n =? nodeId)
  | _ => false
  end.

(** The time-outs of [nodeId] reported so far. *)
Definition timeouts_of (nodeId : Z) (w : Backend) : list Event :=
  filter (fun e => times_out nodeId e = true) (trace w).

(** Node [i+1] has no heartbeat on record and the time-outs reported for
    it are [F]. *)
Definition defused (i : Z) (F : list Event) (w : Backend) : Prop :=
  lastHeartbeat (node (Mtm (shm w)) i) = 0 /\ timeouts_of (i + 1) w = F.

Lemma lastHeartbeat_alter (m : MtmState) (i j : Z) (f : MtmNodeInfo -> MtmNodeInfo) :
  lastHeartbeat (node m i) = 0 ->
  (forall x, lastHeartbeat x = 0 -> lastHeartbeat (f x) = 0) ->
  lastHeartbeat
    (node (if 0 <=? j then set_nodes (alter f (Z.to_nat j) (nodes m)) m else m) i) = 0.
Proof.
  intros Hi Hf. destruct (0 <=? j) eqn:Hj; [| exact Hi].
  unfold node in *. cbn. destruct (0 <=? i) eqn:Hi0; [| reflexivity].
  destruct (Nat.eq_dec (Z.to_nat j) (Z.to_nat i)) as [Heq | Hne].
  - rewrite Heq, list_lookup_alter_eq.
    destruct (nodes m !! Z.to_nat i) as [x |]; cbn in *; [apply Hf; exact Hi | reflexivity].
  - rewrite list_lookup_alter_ne by exact Hne. exact Hi.
Qed.

Section Defused.

Variable i : Z.
Variable F : list Event.

(** No heartbeat of node [i+1] arrives while the backend is suspended. *)
Hypothesis no_heartbeat :
  forall k s,
    lastHeartbeat (node (Mtm s) i) = 0 -> lastHeartbeat (node (Mtm (concurrent k s)) i) = 0.

(** Leaves of [keeps_steps] for [defused]. *)
Ltac defused_leaf :=
  let w := fresh "w" in
  let Hhb := fresh "Hhb" in
  let Htr := fresh "Htr" in
  intros w [Hhb Htr]; unfold returns, defused, timeouts_of in Htr |- *; cbn;
  split;
  [ first [ exact Hhb
          | apply lastHeartbeat_alter; [exact Hhb | intros ? ?; first [assumption | reflexivity]]
          | apply no_heartbeat; exact Hhb ]
  | first [ exact Htr
          | rewrite filter_app; cbn; rewrite app_nil_r; exact Htr ] ].

Ltac defused_prims :=
  unfold modNode, MtmGetSystemTime, GetXLogInsertRecPtr, MtmSwitchClusterMode,
    MtmLock, MtmUnlock, MtmSleep, suspend, elog, emit, modMtm, modXid2State, getMtm,
    hash_find, get, modify.

Lemma defused_MtmDisableNode nodeId : keeps (defused i F) (MtmDisableNode nodeId).
Proof. unfold MtmDisableNode. defused_prims. keeps_steps; defused_leaf. Qed.

Lemma defused_MtmCheckQuorum : keeps (defused i F) MtmCheckQuorum.
Proof. unfold MtmCheckQuorum. defused_prims. keeps_steps; defused_leaf. Qed.

Lemma defused_MtmAdjustSubtransactions xid :
  keeps (defused i F) (MtmAdjustSubtransactions xid).
Proof. unfold MtmAdjustSubtransactions. defused_prims. keeps_steps; defused_leaf. Qed.

Lemma defused_MtmAbortTransaction xid : keeps (defused i F) (MtmAbortTransaction xid).
Proof.
  unfold MtmAbortTransaction.
  keeps_steps; try apply defused_MtmAdjustSubtransactions;
    defused_prims; keeps_steps; defused_leaf.
Qed.

Lemma defused_MtmWakeUpBackend xid : keeps (defused i F) (MtmWakeUpBackend xid).
Proof. unfold MtmWakeUpBackend. defused_prims. keeps_steps; defused_leaf. Qed.

Lemma defused_MtmAbortVoting b l : keeps (defused i F) (MtmAbortVoting b l).
Proof.
  induction l as [| xid l IH]; cbn [MtmAbortVoting]; [apply keeps_ret |].
  apply keeps_bind; [defused_prims; defused_leaf | intros found].
  apply keeps_bind; [| intros ?; exact IH].
  destruct found as [ts |]; [| apply keeps_ret].
  keeps_steps; first [apply defused_MtmAbortTransaction | apply defused_MtmWakeUpBackend].
Qed.

Lemma defused_MtmStartRecovery : keeps (defused i F) MtmStartRecovery.
Proof. unfold MtmStartRecovery. defused_prims. keeps_steps; defused_leaf. Qed.

Lemma defused_MtmBuildConnectivityMatrix_rows count nowait :
  forall j, keeps (defused i F) (MtmBuildConnectivityMatrix_rows count j nowait).
Proof.
  induction count as [| count IH]; intros j; cbn [MtmBuildConnectivityMatrix_rows];
    [apply keeps_ret |].
  apply keeps_bind.
  - destruct (negb _); [defused_leaf | defused_prims; keeps_steps; defused_leaf].
  - intros [mask |]; [| apply keeps_ret].
    apply keeps_bind; [apply IH | intros rest; apply keeps_ret].
Qed.

Lemma defused_MtmBuildConnectivityMatrix nowait :
  keeps (defused i F) (MtmBuildConnectivityMatrix nowait).
Proof.
  unfold MtmBuildConnectivityMatrix.
  apply keeps_bind; [defused_prims; defused_leaf | intros m].
  apply keeps_bind; [apply defused_MtmBuildConnectivityMatrix_rows | intros rows].
  apply keeps_ret.
Qed.

Lemma defused_MtmDisableNodes fuel :
  forall j mask,
    0 <= mask < 2 ^ Z.of_nat fuel ->
    keeps (defused i F) (MtmDisableNodes fuel j mask).
Proof.
  induction fuel as [| fuel IH]; intros j mask Hmask.
  - assert (mask = 0) as -> by (cbn in Hmask; lia). cbn. apply keeps_ret.
  - cbn [MtmDisableNodes]. destruct (Z.eqb_spec mask 0) as [-> | Hne]; [apply keeps_ret |].
    apply keeps_bind; [apply keeps_when; apply defused_MtmDisableNode | intros ?].
    apply IH. rewrite Z.shiftr_div_pow2 by lia. change (2 ^ 1) with 2.
    rewrite Nat2Z.inj_succ, Z.pow_succ_r in Hmask by lia.
    split; [apply Z.div_pos; lia | apply Z.div_lt_upper_bound; lia].
Qed.

Lemma defused_MtmRefreshClusterStatus nowait :
  keeps (defused i F) (MtmRefreshClusterStatus nowait).
Proof.
  unfold MtmRefreshClusterStatus.
  apply keeps_bind; [apply defused_MtmBuildConnectivityMatrix | intros built].
  destruct built as [matrix |]; [| apply keeps_ret].
  apply keeps_bind; [defused_prims; defused_leaf | intros m].
  destruct (MtmFindMaxClique matrix (nAllNodes m)) as [clique clique_size].
  apply keeps_bind; [| intros ?; apply keeps_ret].
  destruct (_ <=? _); [| defused_prims; defused_leaf].
  apply keeps_bind; [defused_prims; defused_leaf | intros ?].
  apply keeps_bind; [defused_prims; defused_leaf | intros m1]. cbv zeta.
  apply keeps_bind.
  { apply defused_MtmDisableNodes. apply land_wrap64_range. }
  intros ?.
  apply keeps_bind; [apply keeps_when; apply defused_MtmCheckQuorum | intros ?].
  apply keeps_bind; [defused_prims; defused_leaf | intros m2].
  apply keeps_bind; [apply defused_MtmAbortVoting | intros ?].
  apply keeps_bind; [defused_prims; defused_leaf | intros ?].
  apply keeps_bind; [defused_prims; defused_leaf | intros m3].
  destruct (BIT_CHECK _ _).
  - destruct (bool_decide _); [defused_prims; defused_leaf | apply keeps_ret].
  - destruct (bool_decide _); [apply defused_MtmStartRecovery | apply keeps_ret].
Qed.

Lemma defused_MtmOnNodeDisconnect nodeId :
  keeps (defused i F) (MtmOnNodeDisconnect nodeId).
Proof.
  unfold MtmOnNodeDisconnect.
  apply keeps_bind; [defused_prims; defused_leaf | intros m].
  destruct (BIT_CHECK _ _); [apply keeps_ret |].
  apply keeps_bind; [defused_prims; defused_leaf | intros now].
  destruct (_ <? _); [apply keeps_ret |].
  do 4 (apply keeps_bind; [defused_prims; defused_leaf | intros ?]).
  apply keeps_bind; [defused_prims; defused_leaf | intros m1].
  apply keeps_bind; [defused_prims; defused_leaf | intros ?].
  apply keeps_bind; [defused_leaf | intros stored].
  destruct (negb stored).
  - do 2 (apply keeps_bind; [defused_prims; defused_leaf | intros ?]).
    apply keeps_bind; [defused_prims; defused_leaf | intros m2].
    apply keeps_bind; [apply keeps_when; defused_prims; defused_leaf | intros ?].
    defused_prims; defused_leaf.
  - apply keeps_bind.
    { unfold MtmSleep. apply keeps_bind; [defused_prims; defused_leaf | intros ?].
      defused_prims; defused_leaf. }
    intros ?. destruct (negb MtmUseRaftable).
    + apply keeps_bind; [defused_prims; defused_leaf | intros ?].
      apply keeps_bind; [defused_prims; defused_leaf | intros m2].
      apply keeps_bind; [| intros ?; defused_prims; defused_leaf].
      destruct (negb _); [| apply keeps_ret].
      apply keeps_bind; [apply defused_MtmDisableNode | intros ?].
      apply keeps_bind; [apply defused_MtmCheckQuorum | intros ?].
      apply keeps_bind; [defused_prims; defused_leaf | intros m3].
      apply defused_MtmAbortVoting.
    + apply keeps_bind; [apply defused_MtmRefreshClusterStatus | intros ?; apply keeps_ret].
Qed.

Lemma timeouts_of_emit nodeId e w :
  times_out nodeId e = false ->
  timeouts_of nodeId (set_trace (trace w ++ [e]) w) = timeouts_of nodeId w.
Proof.
  intros He. unfold timeouts_of. cbn [trace set_trace].
  rewrite filter_app, filter_cons_False by (rewrite He; discriminate).
  rewrite filter_nil. apply app_nil_r.
Qed.

Lemma defused_MtmWatchdog_loop now count :
  forall j allAlive, keeps (defused i F) (MtmWatchdog_loop count j now allAlive).
Proof.
  induction count as [| count IH]; intros j allAlive; cbn [MtmWatchdog_loop];
    [apply keeps_ret |].
  intros w Hw. apply returns_bind. unfold getMtm, returns at 1. cbv zeta.
  destruct (negb (j + 1 =? MtmNodeId)
            && negb (BIT_CHECK (disabledNodeMask (Mtm (shm w))) j)
            && negb (lastHeartbeat (node (Mtm (shm w)) j) =? 0)
            && (wrap64 (lastHeartbeat (node (Mtm (shm w)) j)
                        + MSEC_TO_USEC MtmHeartbeatRecvTimeout) <? now)) eqn:Hcond;
    [| apply IH; exact Hw].
  assert (Hne : (j + 1 =? i + 1) = false).
  { apply Z.eqb_neq. intros Heq. assert (j = i) as -> by lia.
    destruct Hw as [Hhb _]. rewrite Hhb in Hcond. cbn in Hcond.
    rewrite andb_false_r in Hcond. discriminate. }
  apply returns_bind. unfold elog, emit, modify, returns at 1.
  apply returns_bind.
  eapply returns_mono; [| apply defused_MtmOnNodeDisconnect].
  - intros ? w2 Hw2. apply IH. exact Hw2.
  - destruct Hw as [Hhb Htr]. split; [exact Hhb |].
    rewrite timeouts_of_emit; [exact Htr |].
    cbn [times_out]. rewrite Hne. apply andb_false_r.
Qed.

Lemma defused_MtmWatchdog now : keeps (defused i F) (MtmWatchdog now).
Proof.
  unfold MtmWatchdog. apply keeps_bind; [defused_prims; defused_leaf | intros m].
  apply defused_MtmWatchdog_loop.
Qed.

End Defused.

Lemma lastHeartbeat_defuse (nds : list MtmNodeInfo) (k : nat) :
  lastHeartbeat
    (default (Build_MtmNodeInfo 0 0 0) (alter (set_lastHeartbeat 0) k nds !! k)) = 0.
Proof. rewrite list_lookup_alter_eq. destruct (nds !! k); reflexivity. Qed.

Lemma MtmDisableNode_defuses nodeId w :
  exists w',
    MtmDisableNode nodeId w = Ok tt w'
    /\ lastHeartbeat (node (Mtm (shm w')) (nodeId - 1)) = 0.
Proof.
  unfold MtmDisableNode, MtmGetSystemTime, GetXLogInsertRecPtr, modNode, node.
  open_backend w.
  destruct (0 <=? nodeId - 1) eqn:Hidx; destruct (nodeId =? MtmNodeId); flat;
    (eexists; split; [reflexivity |]); flat; rewrite ?Hidx;
    first [apply lastHeartbeat_defuse | reflexivity].
Qed.

Lemma MtmEnableNode_defuses nodeId w :
  exists w',
    MtmEnableNode nodeId w = Ok tt w'
    /\ lastHeartbeat (node (Mtm (shm w')) (nodeId - 1)) = 0.
Proof.
  unfold MtmEnableNode, MtmGetSystemTime, GetXLogInsertRecPtr, modNode, node.
  open_backend w.
  destruct (0 <=? nodeId - 1) eqn:Hidx; destruct (nodeId =? MtmNodeId); flat;
    (eexists; split; [reflexivity |]); flat; rewrite ?Hidx;
    first [apply lastHeartbeat_defuse | reflexivity].
Qed.

(** C10: the watchdog never times out a node whose [lastHeartbeat] is
    zero: as long as no heartbeat of the node arrives, a pass of
    [MtmWatchdog] returns without reporting a time-out of the node, that
    is without calling [MtmOnNodeDisconnect] for it, and leaves its
    [lastHeartbeat] at zero.  [MtmDisableNode] and [MtmEnableNode] both
    leave [lastHeartbeat] of their node at zero, so a pass of the watchdog
    right after either of them does not time the node out. *)
Theorem MtmWatchdog_defused (nodeId now : Z) (w : Backend) :
  (forall k s,
      lastHeartbeat (node (Mtm s) (nodeId - 1)) = 0 ->
      lastHeartbeat (node (Mtm (concurrent k s)) (nodeId - 1)) = 0) ->
  (lastHeartbeat (node (Mtm (shm w)) (nodeId - 1)) = 0 ->
   exists allAlive w',
     MtmWatchdog now w = Ok allAlive w'
     /\ timeouts_of nodeId w' = timeouts_of nodeId w
     /\ lastHeartbeat (node (Mtm (shm w')) (nodeId - 1)) = 0)
  /\ (exists w1,
        MtmDisableNode nodeId w = Ok tt w1
        /\ lastHeartbeat (node (Mtm (shm w1)) (nodeId - 1)) = 0
        /\ exists allAlive w2,
            MtmWatchdog now w1 = Ok allAlive w2
            /\ timeouts_of nodeId w2 = timeouts_of nodeId w1)
  /\ (exists w1,
        MtmEnableNode nodeId w = Ok tt w1
        /\ lastHeartbeat (node (Mtm (shm w1)) (nodeId - 1)) = 0
        /\ exists allAlive w2,
            MtmWatchdog now w1 = Ok allAlive w2
            /\ timeouts_of nodeId w2 = timeouts_of nodeId w1).
Proof.
  intros Hquiet.
  assert (Hpass : forall w0,
    lastHeartbeat (node (Mtm (shm w0)) (nodeId - 1)) = 0 ->
    exists allAlive w',
      MtmWatchdog now w0 = Ok allAlive w'
      /\ timeouts_of nodeId w' = timeouts_of nodeId w0
      /\ lastHeartbeat (node (Mtm (shm w')) (nodeId - 1)) = 0).
  { intros w0 Hhb.
    pose proof (defused_MtmWatchdog (nodeId - 1) (timeouts_of nodeId w0) Hquiet now w0) as Hrun.
    unfold defused in Hrun. replace (nodeId - 1 + 1) with nodeId in Hrun by lia.
    specialize (Hrun (conj Hhb eq_refl)). apply returns_ex in Hrun.
    destruct Hrun as (allAlive & w' & Hrun & Hhb' & Htr). eauto. }
  split; [exact (Hpass w) |]. split.
  - destruct (MtmDisableNode_defuses nodeId w) as (w1 & Hrun & Hhb).
    exists w1. split; [exact Hrun |]. split; [exact Hhb |].
    destruct (Hpass w1 Hhb) as (allAlive & w2 & Hwd & Htr & _). eauto.
  - destruct (MtmEnableNode_defuses nodeId w) as (w1 & Hrun & Hhb).
    exists w1. split; [exact Hrun |]. split; [exact Hhb |].
    destruct (Hpass w1 Hhb) as (allAlive & w2 & Hwd & Htr & _). eauto.
Qed.

(** ** The clique and the disabled mask *)

(** [Mtm->disabledNodeMask] is [d]. *)
Definition disabled_is (d : Z) (w : Backend) : Prop := disabledNodeMask (Mtm (shm w)) = d.

Ltac disabled_leaf :=
  let w := fresh "w" in
  let H := fresh "H" in
  intros w H; unfold returns, disabled_is in H |- *; cbn; exact H.

Ltac membership_prims :=
  unfold modNode, MtmGetSystemTime, GetXLogInsertRecPtr, MtmSwitchClusterMode,
    MtmLock, MtmUnlock, MtmSleep, suspend, elog, emit, modMtm, modXid2State, getMtm,
    hash_find, get, modify.

Lemma disabled_is_MtmCheckQuorum d : keeps (disabled_is d) MtmCheckQuorum.
Proof. unfold MtmCheckQuorum. membership_prims. keeps_steps; disabled_leaf. Qed.

Lemma disabled_is_MtmAdjustSubtransactions d xid :
  keeps (disabled_is d) (MtmAdjustSubtransactions xid).
Proof. unfold MtmAdjustSubtransactions. membership_prims. keeps_steps; disabled_leaf. Qed.

Lemma disabled_is_MtmAbortTransaction d xid : keeps (disabled_is d) (MtmAbortTransaction xid).
Proof.
  unfold MtmAbortTransaction.
  keeps_steps; try apply disabled_is_MtmAdjustSubtransactions;
    membership_prims; keeps_steps; disabled_leaf.
Qed.

Lemma disabled_is_MtmWakeUpBackend d xid : keeps (disabled_is d) (MtmWakeUpBackend xid).
Proof. unfold MtmWakeUpBackend. membership_prims. keeps_steps; disabled_leaf. Qed.

Lemma disabled_is_MtmAbortVoting d b l : keeps (disabled_is d) (MtmAbortVoting b l).
Proof.
  induction l as [| xid l IH]; cbn [MtmAbortVoting]; [apply keeps_ret |].
  apply keeps_bind; [membership_prims; disabled_leaf | intros found].
  apply keeps_bind; [| intros ?; exact IH].
  destruct found as [ts |]; [| apply keeps_ret].
  keeps_steps;
    first [apply disabled_is_MtmAbortTransaction | apply disabled_is_MtmWakeUpBackend].
Qed.

(** Building the matrix only advances the position in the store's
    answers. *)
Definition shm_is (s : Shared) (w : Backend) : Prop := shm w = s.

Lemma shm_is_MtmBuildConnectivityMatrix_rows s count nowait :
  forall j, keeps (shm_is s) (MtmBuildConnectivityMatrix_rows count j nowait).
Proof.
  induction count as [| count IH]; intros j; cbn [MtmBuildConnectivityMatrix_rows];
    [apply keeps_ret |].
  apply keeps_bind.
  - destruct (negb _); [intros w H; exact H |].
    apply keeps_bind; [intros w H; exact H | intros m; apply keeps_ret].
  - intros [mask |]; [| apply keeps_ret].
    apply keeps_bind; [apply IH | intros rest; apply keeps_ret].
Qed.

Lemma shm_is_MtmBuildConnectivityMatrix s nowait :
  keeps (shm_is s) (MtmBuildConnectivityMatrix nowait).
Proof.
  unfold MtmBuildConnectivityMatrix.
  apply keeps_bind; [intros w H; exact H | intros m].
  apply keeps_bind; [apply shm_is_MtmBuildConnectivityMatrix_rows | intros rows].
  apply keeps_ret.
Qed.

Lemma MtmDisableNode_mask nodeId w :
  returns (MtmDisableNode nodeId) w
    (fun _ w' =>
       disabledNodeMask (Mtm (shm w')) =
       BIT_SET (disabledNodeMask (Mtm (shm w))) (nodeId - 1)).
Proof.
  unfold returns, MtmDisableNode, MtmGetSystemTime, GetXLogInsertRecPtr, modNode.
  open_backend w.
  destruct (0 <=? nodeId - 1); destruct (nodeId =? MtmNodeId); flat; reflexivity.
Qed.

Lemma lor_shiftl_step dm mask j :
  0 <= j -> 0 <= mask ->
  Z.lor (if negb (Z.land mask 1 =? 0) then Z.lor dm (2 ^ j) else dm)
        (Z.shiftl (Z.shiftr mask 1) (j + 1)) =
  Z.lor dm (Z.shiftl mask j).
Proof.
  intros Hj Hmask. apply Z.bits_inj'. intros c Hc.
  assert (Hbit0 : negb (Z.land mask 1 =? 0) = Z.testbit mask 0).
  { change 1 with (Z.ones 1). rewrite Z.land_ones by lia. change (2 ^ 1) with 2.
    pose proof (Z.bit0_mod mask) as Hmod.
    destruct (Z.testbit mask 0); cbn in Hmod; rewrite <- Hmod; reflexivity. }
  rewrite Hbit0. rewrite !Z.lor_spec, !Z.shiftl_spec by lia.
  destruct (Z.lt_trichotomy c j) as [Hlt | [-> | Hgt]].
  - rewrite (Z.testbit_neg_r _ (c - j)) by lia.
    rewrite (Z.testbit_neg_r _ (c - (j + 1))) by lia.
    destruct (Z.testbit mask 0);
      rewrite ?Z.lor_spec, ?Z.pow2_bits_false by lia; rewrite ?orb_false_r; reflexivity.
  - rewrite Z.sub_diag. rewrite (Z.testbit_neg_r _ (j - (j + 1))) by lia.
    destruct (Z.testbit mask 0);
      rewrite ?Z.lor_spec, ?Z.pow2_bits_true by lia; rewrite ?orb_false_r; reflexivity.
  - rewrite Z.shiftr_spec by lia. replace (c - (j + 1) + 1) with (c - j) by lia.
    destruct (Z.testbit mask 0);
      rewrite ?Z.lor_spec, ?Z.pow2_bits_false by lia; rewrite ?orb_false_r; reflexivity.
Qed.

Lemma MtmDisableNodes_mask fuel :
  forall j mask w,
    0 <= j -> j + Z.of_nat fuel <= 64 ->
    0 <= mask < 2 ^ Z.of_nat fuel ->
    returns (MtmDisableNodes fuel j mask) w
      (fun _ w' =>
         disabledNodeMask (Mtm (shm w')) =
         Z.lor (disabledNodeMask (Mtm (shm w))) (Z.shiftl mask j)).
Proof.
  induction fuel as [| fuel IH]; intros j mask w Hj Hfuel Hmask.
  - assert (mask = 0) as -> by (cbn in Hmask; lia). cbn.
    rewrite Z.shiftl_0_l, Z.lor_0_r. reflexivity.
  - cbn [MtmDisableNodes]. destruct (Z.eqb_spec mask 0) as [-> | Hne].
    { cbn. rewrite Z.shiftl_0_l, Z.lor_0_r. reflexivity. }
    apply returns_bind.
    assert (Hshift : 0 <= Z.shiftr mask 1 < 2 ^ Z.of_nat fuel).
    { rewrite Z.shiftr_div_pow2 by lia. change (2 ^ 1) with 2.
      rewrite Nat2Z.inj_succ, Z.pow_succ_r in Hmask by lia.
      split; [apply Z.div_pos; lia | apply Z.div_lt_upper_bound; lia]. }
    assert (Hstep : returns (when (negb (Z.land mask 1 =? 0)) (MtmDisableNode (j + 1))) w
              (fun _ w1 =>
                 disabledNodeMask (Mtm (shm w1)) =
                 if negb (Z.land mask 1 =? 0)
                 then Z.lor (disabledNodeMask (Mtm (shm w))) (2 ^ j)
                 else disabledNodeMask (Mtm (shm w)))).
    { destruct (negb (Z.land mask 1 =? 0)); [| reflexivity].
      cbn [when]. eapply returns_mono; [| apply MtmDisableNode_mask].
      intros ? w1 Hw1. cbv beta in Hw1 |- *. rewrite Hw1. unfold BIT_SET. replace (j + 1 - 1) with j by lia.
      rewrite bit64_small by lia. reflexivity. }
    eapply returns_mono; [| exact Hstep].
    intros ? w1 Hw1. cbv beta in Hw1 |- *.
    eapply returns_mono; [| apply IH; [lia | lia | exact Hshift]].
    intros ? w2 Hw2. cbv beta in Hw2 |- *. rewrite Hw2. rewrite Hw1. apply lor_shiftl_step; lia.
Qed.

(** The nodes [MtmRefreshClusterStatus] newly disables: those of the
    first [n] that are outside the clique and not disabled yet. *)
Definition newly_disabled (clique n dm : Z) : Z :=
  Z.land (Z.land (not64 clique) (wrap64 (wrap64 (Z.shiftl 1 n) - 1))) (not64 dm).

Lemma testbit_newly_disabled clique n dm c :
  0 <= n < 64 -> 0 <= c ->
  Z.testbit (newly_disabled clique n dm) c =
  (c <? n) && negb (Z.testbit clique c) && negb (Z.testbit dm c).
Proof.
  intros Hn Hc. unfold newly_disabled.
  change (wrap64 (Z.shiftl 1 n)) with (bit64 n). rewrite bit64_small by lia.
  assert (Hpow : 0 < 2 ^ n < 2 ^ 64).
  { split; [apply Z.pow_pos_nonneg; lia | apply Z.pow_lt_mono_r; lia]. }
  rewrite wrap64_small by (unfold UINT64_MAX; lia).
  replace (2 ^ n - 1) with (Z.ones n) by (rewrite Z.ones_equiv; lia).
  rewrite !Z.land_spec.
  destruct (Z.ltb_spec c n) as [Hlt | Hge].
  - rewrite Z.ones_spec_low, !testbit_not64 by lia. rewrite andb_true_r. reflexivity.
  - rewrite Z.ones_spec_high by lia. rewrite andb_false_r. reflexivity.
Qed.

Lemma MtmStartRecovery_mask w :
  returns MtmStartRecovery w
    (fun _ w' =>
       disabledNodeMask (Mtm (shm w')) =
       BIT_SET (disabledNodeMask (Mtm (shm w))) (MtmNodeId - 1)).
Proof.
  unfold returns, MtmStartRecovery, MtmSwitchClusterMode, MtmLock, MtmUnlock.
  open_backend w. flat. reflexivity.
Qed.

(** What a refresh with a quorum leaves in [disabledNodeMask]: the old
    mask with the newly disabled nodes, and with the own node when the
    refresh starts its recovery. *)
Lemma MtmRefreshClusterStatus_run nowait w matrix w0 :
  MtmBuildConnectivityMatrix nowait w = Ok (Some matrix) w0 ->
  0 <= nAllNodes (Mtm (shm w)) < 64 ->
  returns (MtmRefreshClusterStatus nowait) w
    (fun b w' =>
       let m := Mtm (shm w) in
       let '(clique, clique_size) := MtmFindMaxClique matrix (nAllNodes m) in
       let grown :=
         Z.lor (disabledNodeMask m) (newly_disabled clique (nAllNodes m) (disabledNodeMask m)) in
       b = true
       /\ if nAllNodes m ÷ 2 + 1 <=? clique_size
          then disabledNodeMask (Mtm (shm w')) = grown
               \/ disabledNodeMask (Mtm (shm w')) = BIT_SET grown (MtmNodeId - 1)
          else disabledNodeMask (Mtm (shm w')) = disabledNodeMask m
               /\ status (Mtm (shm w')) = MTM_IN_MINORITY).
Proof.
  intros Hbuilt Hn.
  assert (Hshm : shm w0 = shm w).
  { pose proof (shm_is_MtmBuildConnectivityMatrix (shm w) nowait w eq_refl) as H.
    unfold returns in H. rewrite Hbuilt in H. exact H. }
  unfold MtmRefreshClusterStatus. apply returns_bind.
  unfold returns at 1. rewrite Hbuilt.
  apply returns_bind. unfold getMtm, returns at 1. rewrite Hshm.
  set (m := Mtm (shm w)) in *. cbv zeta.
  destruct (MtmFindMaxClique matrix (nAllNodes m)) as [clique clique_size].
  apply returns_bind.
  destruct (nAllNodes m ÷ 2 + 1 <=? clique_size).
  - (* have quorum *)
    apply returns_bind. unfold MtmLock, emit, modify, returns at 1.
    apply returns_bind. unfold getMtm, returns at 1. cbn [Mtm shm set_trace].
    rewrite Hshm. fold m. fold (newly_disabled clique (nAllNodes m) (disabledNodeMask m)).
    set (new := newly_disabled clique (nAllNodes m) (disabledNodeMask m)).
    set (grown := Z.lor (disabledNodeMask m) new).
    apply returns_bind.
    eapply returns_mono;
      [| apply MtmDisableNodes_mask; [lia | cbn; lia | apply land_wrap64_range]].
    intros ? w2 Hw2. cbv beta in Hw2 |- *.
    assert (Hgrown : disabled_is grown w2).
    { unfold disabled_is. rewrite Hw2. cbn [Mtm shm set_trace]. rewrite Hshm. fold m.
      rewrite Z.shiftl_0_r. reflexivity. }
    clear Hw2.
    apply returns_bind.
    eapply returns_mono;
      [| apply (keeps_when _ _ _ (disabled_is_MtmCheckQuorum grown)); exact Hgrown].
    intros ? w3 Hw3. cbv beta in Hw3 |- *.
    apply returns_bind. unfold getMtm, returns at 1.
    apply returns_bind.
    eapply returns_mono; [| apply (disabled_is_MtmAbortVoting grown); exact Hw3].
    intros ? w4 Hw4. cbv beta in Hw4 |- *.
    apply returns_bind. unfold MtmUnlock, emit, modify, returns at 1.
    apply returns_bind. unfold getMtm, returns at 1. cbn [Mtm shm set_trace].
    unfold disabled_is in Hw4.
    destruct (BIT_CHECK (disabledNodeMask (Mtm (shm w4))) (MtmNodeId - 1)).
    + destruct (bool_decide (status (Mtm (shm w4)) = MTM_ONLINE)).
      * unfold MtmSwitchClusterMode, modMtm, modify, returns. cbn.
        split; [reflexivity | left; exact Hw4].
      * unfold returns. cbn. split; [reflexivity | left; exact Hw4].
    + destruct (bool_decide (status (Mtm (shm w4)) = MTM_OFFLINE)).
      * eapply returns_mono; [| apply MtmStartRecovery_mask].
        intros ? w5 Hw5. cbv beta in Hw5 |- *. unfold returns. cbn.
        split; [reflexivity | right]. rewrite Hw5. cbn [Mtm shm set_trace].
        rewrite Hw4. reflexivity.
      * unfold returns. cbn. split; [reflexivity | left; exact Hw4].
  - unfold MtmSwitchClusterMode, modMtm, modify, returns. cbn. rewrite Hshm.
    repeat split.
Qed.

(** C3: when the connectivity matrix can be built, [MtmRefreshClusterStatus]
    adopts the maximum clique exactly when its size is at least
    [nAllNodes/2 + 1].  With a quorum every node outside the clique ends up
    in [disabledNodeMask], no bit that was set is cleared, and the only
    bits added are those of nodes outside the clique and, when the refresh
    starts the recovery of this node, its own.  Without a quorum the mask
    is left as it was and the node switches to [MTM_IN_MINORITY]. *)
Theorem MtmRefreshClusterStatus_clique
  (nowait : bool) (w : Backend) (matrix : list Z) (w0 : Backend) :
  let m := Mtm (shm w) in
  let n := nAllNodes m in
  let clique := fst (MtmFindMaxClique matrix n) in
  let clique_size := snd (MtmFindMaxClique matrix n) in
  MtmBuildConnectivityMatrix nowait w = Ok (Some matrix) w0 ->
  0 <= n < 64 ->
  0 < MtmNodeId <= 64 ->
  exists w',
    MtmRefreshClusterStatus nowait w = Ok true w'
    /\ (n ÷ 2 + 1 <= clique_size ->
        (forall c, 0 <= c < n -> Z.testbit clique c = false ->
                   Z.testbit (disabledNodeMask (Mtm (shm w'))) c = true)
        /\ (forall c, 0 <= c -> Z.testbit (disabledNodeMask m) c = true ->
                      Z.testbit (disabledNodeMask (Mtm (shm w'))) c = true)
        /\ (forall c, 0 <= c -> Z.testbit (disabledNodeMask (Mtm (shm w'))) c = true ->
                      Z.testbit (disabledNodeMask m) c = true
                      \/ (c < n /\ Z.testbit clique c = false)
                      \/ c = MtmNodeId - 1))
    /\ (clique_size < n ÷ 2 + 1 ->
        disabledNodeMask (Mtm (shm w')) = disabledNodeMask m
        /\ status (Mtm (shm w')) = MTM_IN_MINORITY).
Proof.
  intros m n clique clique_size Hbuilt Hn Hid.
  pose proof (MtmRefreshClusterStatus_run nowait w matrix w0 Hbuilt Hn) as Hrun.
  apply returns_ex in Hrun. destruct Hrun as (b & w' & Hrun & Hpost).
  cbv zeta in Hpost. fold m n in Hpost.
  unfold clique, clique_size.
  destruct (MtmFindMaxClique matrix n) as [cl size]. cbn [fst snd].
  destruct Hpost as [-> Hpost].
  exists w'. split; [exact Hrun |].
  destruct (Z.leb_spec (n ÷ 2 + 1) size) as [Hquorum | Hminor].
  - split; [intros _ | intros; lia].
    assert (Hbits : forall c, 0 <= c ->
      Z.testbit (disabledNodeMask (Mtm (shm w'))) c =
      Z.testbit (disabledNodeMask m) c || ((c <? n) && negb (Z.testbit cl c))
      \/ Z.testbit (disabledNodeMask (Mtm (shm w'))) c =
         Z.testbit (disabledNodeMask m) c || ((c <? n) && negb (Z.testbit cl c))
         || (c =? MtmNodeId - 1)).
    { intros c Hc.
      assert (Hgrown :
        Z.testbit (Z.lor (disabledNodeMask m) (newly_disabled cl n (disabledNodeMask m))) c =
        Z.testbit (disabledNodeMask m) c || ((c <? n) && negb (Z.testbit cl c))).
      { rewrite Z.lor_spec, testbit_newly_disabled by lia.
        destruct (Z.testbit (disabledNodeMask m) c), (c <? n), (Z.testbit cl c); reflexivity. }
      destruct Hpost as [-> | ->]; [left; exact Hgrown | right].
      rewrite testbit_BIT_SET by lia. rewrite Hgrown. reflexivity. }
    split; [| split].
    + intros c Hc Hout.
      assert (Hlt : (c <? n) = true) by (apply Z.ltb_lt; lia).
      destruct (Hbits c ltac:(lia)) as [-> | ->]; rewrite Hlt, Hout; cbn;
        rewrite ?orb_true_r; reflexivity.
    + intros c Hc Hold.
      destruct (Hbits c Hc) as [-> | ->]; rewrite Hold; reflexivity.
    + intros c Hc Hnew.
      destruct (Hbits c Hc) as [Heq | Heq]; rewrite Heq in Hnew;
        repeat (apply orb_true_iff in Hnew; destruct Hnew as [Hnew | Hnew]);
        try (left; exact Hnew);
        try (right; left; apply andb_true_iff in Hnew; destruct Hnew as [Hlt Hcl];
             apply Z.ltb_lt in Hlt; apply negb_true_iff in Hcl; split; assumption).
      right; right. apply Z.eqb_eq. exact Hnew.
  - split; [intros; lia | intros _; exact Hpost].
Qed.

(** ** Beginning a transaction *)

(** What [MtmAdjustOldestXid] leaves alone: the node status, the clock,
    the transaction descriptor, the host session and the trace. *)
Definition begin_frame (s : MtmNodeStatus) (c t : Z) (x : MtmCurrentTrans) (p : PgSession)
    (tr : list Event) (k : nat) (w : Backend) : Prop :=
  status (Mtm (shm w)) = s /\ csn (Mtm (shm w)) = c /\ timeShift (Mtm (shm w)) = t
  /\ MtmTx w = x /\ pg w = p /\ trace w = tr /\ clk w = k.

Ltac begin_leaf :=
  let w := fresh "w" in
  let H := fresh "H" in
  intros w H; unfold returns, begin_frame in H |- *; cbn;
  try (destruct (0 <=? _)); exact H.

Lemma begin_frame_MtmAdjustOldestXid_scan s c t x p tr k oldest xid l :
  forall prev, keeps (begin_frame s c t x p tr k) (MtmAdjustOldestXid_scan oldest xid prev l).
Proof.
  induction l as [| y l IH]; intros prev; cbn [MtmAdjustOldestXid_scan]; [apply keeps_ret |].
  apply keeps_bind; [membership_prims; begin_leaf | intros found].
  destruct found as [ts |]; [| apply keeps_ret].
  destruct (_ && _); [| apply keeps_ret].
  apply keeps_bind; [| intros ?; apply IH].
  destruct prev; [membership_prims; begin_leaf | apply keeps_ret].
Qed.

Lemma begin_frame_MtmAdjustOldestXid s c t x p tr k xid :
  keeps (begin_frame s c t x p tr k) (MtmAdjustOldestXid xid).
Proof.
  unfold MtmAdjustOldestXid.
  apply keeps_bind; [membership_prims; begin_leaf | intros found].
  apply keeps_bind; [membership_prims; begin_leaf | intros ?].
  apply keeps_bind.
  - destruct found as [ts |]; [| apply keeps_ret].
    apply keeps_bind; [membership_prims; begin_leaf | intros m]. cbv zeta.
    apply keeps_bind.
    { destruct (_ <? _); [membership_prims; begin_leaf | apply keeps_ret]. }
    intros ?. apply keeps_bind; [membership_prims; begin_leaf | intros m1].
    apply begin_frame_MtmAdjustOldestXid_scan.
  - intros scanned. apply keeps_bind; [membership_prims; begin_leaf | intros m].
    destruct (fst scanned).
    + apply keeps_bind; [membership_prims; begin_leaf | intros ?].
      destruct MtmUseDtm; [| apply keeps_ret].
      apply keeps_bind; [membership_prims; begin_leaf | intros ?; apply keeps_ret].
    + destruct (_ && _); apply keeps_ret.
Qed.

(** C9 (amended): a transaction that would be distributed and begins with
    an isolation level other than repeatable read is not rejected at
    BEGIN.  On an online node [MtmBeginTransaction] only reports
    "Isolation level %s is not supported by multimaster" at level [LOG] and
    begins the transaction as any other: it stays distributed, takes the
    CSN just assigned as its snapshot and is in progress. *)
Theorem MtmBeginTransaction_isolation_level (w : Backend) :
  x_snapshot (MtmTx w) = INVALID_CSN ->
  MtmIsUserTransaction (pg w) = true ->
  status (Mtm (shm w)) = MTM_ONLINE ->
  XactIsoLevel (pg w) <> XACT_REPEATABLE_READ ->
  exists w',
    MtmBeginTransaction w = Ok tt w'
    /\ trace w' =
       trace w ++ [EvLock LW_EXCLUSIVE;
                   EvElog LOG "Isolation level %s is not supported by multimaster"
                     [ArgStr (isoLevelStr (XactIsoLevel (pg w)))];
                   EvUnlock]
    /\ x_isDistributed (MtmTx w') = true
    /\ x_status (MtmTx w') = TRANSACTION_STATUS_IN_PROGRESS
    /\ x_snapshot (MtmTx w') = csn (Mtm (shm w')).
Proof.
  intros Hnew Huser Honline Hiso.
  apply (returns_unit _ _ (fun _ w' =>
    trace w' =
      trace w ++ [EvLock LW_EXCLUSIVE;
                  EvElog LOG "Isolation level %s is not supported by multimaster"
                    [ArgStr (isoLevelStr (XactIsoLevel (pg w)))];
                  EvUnlock]
    /\ x_isDistributed (MtmTx w') = true
    /\ x_status (MtmTx w') = TRANSACTION_STATUS_IN_PROGRESS
    /\ x_snapshot (MtmTx w') = csn (Mtm (shm w')))).
  unfold MtmBeginTransaction.
  apply returns_bind. unfold getTx, returns at 1. rewrite Hnew, Z.eqb_refl.
  apply returns_bind. unfold getMtm, returns at 1.
  apply returns_bind. unfold get, returns at 1. cbv zeta.
  apply returns_bind. unfold MtmLock, emit, modify, returns at 1.
  apply returns_bind. unfold getMtm, returns at 1. cbn [Mtm shm set_trace].
  apply returns_bind.
  set (w1 := set_trace (trace w ++ [EvLock LW_EXCLUSIVE]) w).
  assert (Hframe : begin_frame MTM_ONLINE (csn (Mtm (shm w))) (timeShift (Mtm (shm w)))
                     (MtmTx w) (pg w) (trace w ++ [EvLock LW_EXCLUSIVE]) (clk w) w1).
  { unfold begin_frame, w1. cbn. repeat split. exact Honline. }
  eapply returns_mono; [| eapply keeps_returns; [| exact Hframe]].
  2: { destruct (_ && _); [| apply keeps_ret].
       apply keeps_bind; [apply begin_frame_MtmAdjustOldestXid | intros ?; apply keeps_ret]. }
  intros ? w2 (Hst & Hcsn & Hts & Htx & Hpg & Htr & Hclk). cbv beta.
  rewrite Huser.
  unfold MtmUnlock, MtmAssignCSN, MtmGetCurrentTime, MtmGetSystemTime.
  unfold returns. open_backend w2. subst.
  rewrite bool_decide_eq_true_2 by reflexivity.
  rewrite bool_decide_eq_false_2 by exact Hiso.
  flat.
  match goal with
  | |- context [?a <=? ?b] => destruct (a <=? b)
  end; flat; repeat split; cbn; rewrite <- ?app_assoc; reflexivity.
Qed.

(** ** The vote of the coordinator *)

(** The deadline in the words of the specification:
    max(min-2pc-timeout, (csn0 - snapshot) * prepare-ratio / 100), the
    minimum given in milliseconds and the rest in microseconds. *)
Definition spec_prepare_timeout (ts : MtmTransState) : Z :=
  Z.max (Mtm2PCMinTimeout * 1000)
        ((ts_csn ts - ts_snapshot ts) * Mtm2PCPrepareRatio / 100).

(** The arithmetic of the timeout stays within 64 bits. *)
Definition timeout_in_range (ts : MtmTransState) : Prop :=
  uint64 (Mtm2PCMinTimeout * 1000)
  /\ uint64 (ts_csn ts - ts_snapshot ts)
  /\ uint64 ((ts_csn ts - ts_snapshot ts) * Mtm2PCPrepareRatio).

(** The coordinator still waits for the votes on [xid]: nothing else
    ends its loop. *)
Definition awaiting_votes (xid cfg : Z) (s : Shared) : Prop :=
  exists ts, MtmXid2State s !! xid = Some ts
             /\ ts_votingCompleted ts = false
             /\ ts_status ts <> TRANSACTION_STATUS_ABORTED
             /\ nConfigChanges (Mtm s) = cfg
             /\ status (Mtm s) = MTM_ONLINE.

(** The votes are incomplete at each of the next [k + 1] looks of a
    backend that is about to take its [t]-th reading of the clock and has
    been suspended [n] times; the first [k] readings are within the
    deadline, the last one is past it. *)
Fixpoint votes_awaited (k : nat) (xid cfg deadline : Z) (t n : nat) (s : Shared) : Prop :=
  awaiting_votes xid cfg s
  /\ match k with
     | O => deadline < wrap64 (gettimeofday t)
     | S k' => wrap64 (gettimeofday t) <= deadline
               /\ votes_awaited k' xid cfg deadline (S t) (S n) (concurrent n s)
     end.

Definition vote_wait_events : list Event :=
  [EvUnlock; EvWaitLatch MtmHeartbeatRecvTimeout; EvLock LW_SHARED].

Fixpoint vote_waits (k : nat) : list Event :=
  match k with
  | O => []
  | S k' => vote_wait_events ++ vote_waits k'
  end.

(** What the wait of the coordinator leaves of the backend. *)
Definition after_vote_waits (k : nat) (w w' : Backend) : Prop :=
  MtmTx w' = MtmTx w
  /\ shm w' = after_suspensions k (susp w) (shm w)
  /\ trace w' = trace w ++ vote_waits k.

Lemma transTimeout_eq ts : timeout_in_range ts -> transTimeout ts = spec_prepare_timeout ts.
Proof.
  intros (Hmin & Hlat & Hmul). unfold transTimeout, spec_prepare_timeout, MSEC_TO_USEC.
  rewrite (wrap64_small (Mtm2PCMinTimeout * 1000)) by exact Hmin.
  rewrite (wrap64_small (ts_csn ts - ts_snapshot ts)) by exact Hlat.
  rewrite wrap64_small by exact Hmul. reflexivity.
Qed.

Lemma votes_awaited_first k xid cfg deadline t n s :
  votes_awaited k xid cfg deadline t n s -> awaiting_votes xid cfg s.
Proof. destruct k; intros [H _]; exact H. Qed.

Lemma votes_awaited_last k xid cfg deadline :
  forall t n s,
    votes_awaited k xid cfg deadline t n s -> awaiting_votes xid cfg (after_suspensions k n s).
Proof.
  induction k as [| k IH]; intros t n s H.
  - destruct H as [H _]. exact H.
  - destruct H as (_ & _ & H). cbn [after_suspensions]. eapply IH. exact H.
Qed.

(** The loop waits [k] times and leaves at the reading past the deadline. *)
Lemma MtmPostPrepareTransaction_wait_expires k xid timeout cfg start :
  forall fuel w,
    votes_awaited k xid cfg (wrap64 (start + timeout)) (clk w) (susp w) (shm w) ->
    (k < fuel)%nat ->
    returns (MtmPostPrepareTransaction_wait fuel xid timeout cfg start) w
      (fun _ w' => after_vote_waits k w w').
Proof.
  induction k as [| k IH]; intros fuel w Hvotes Hfuel.
  - destruct fuel as [| fuel]; [lia |].
    destruct Hvotes as [(ts & Hts & Hvote & Hst & Hcfg & Honline) Hlate].
    cbn [MtmPostPrepareTransaction_wait].
    unfold returns, MtmGetSystemTime, hash_find, getMtm. munfold.
    rewrite Hts, Hvote, Hcfg, Z.eqb_refl. cbn.
    rewrite bool_decide_eq_true_2 by exact Honline.
    rewrite bool_decide_eq_false_2 by exact Hst. cbn.
    apply Z.leb_gt in Hlate. rewrite Hlate.
    unfold after_vote_waits. cbn. rewrite app_nil_r. repeat split.
  - destruct fuel as [| fuel]; [lia |].
    destruct Hvotes as [(ts & Hts & Hvote & Hst & Hcfg & Honline) [Hearly Hvotes]].
    cbn [MtmPostPrepareTransaction_wait].
    apply returns_bind. unfold hash_find, returns at 1. rewrite Hts.
    apply returns_bind. unfold getMtm, returns at 1.
    rewrite Hvote, Hcfg, Z.eqb_refl.
    rewrite bool_decide_eq_true_2 by exact Honline.
    rewrite bool_decide_eq_false_2 by exact Hst. cbn [negb andb].
    apply returns_bind. unfold MtmGetSystemTime, returns at 1.
    apply Z.leb_le in Hearly. rewrite Hearly.
    apply returns_bind. unfold MtmUnlock, emit, modify, returns at 1.
    apply returns_bind. unfold emit, modify, returns at 1.
    apply returns_bind. unfold suspend, modify, returns at 1.
    apply returns_bind. unfold MtmLock, emit, modify, returns at 1.
    eapply returns_mono; [| apply IH; [| lia]].
    + intros ? w' (Htx & Hshm & Htr). unfold after_vote_waits.
      rewrite Htx, Hshm, Htr. cbn. rewrite <- !app_assoc. repeat split.
    + cbn. exact Hvotes.
Qed.

(** The statuses a chain of subtransaction updates leaves at [xid]. *)
Lemma adjusted_status (c : Z) (st : XidStatus) (xid : Z) (subs : list Z) :
  forall tab : gmap Z MtmTransState,
    ts_status <$> tab !! xid = Some st ->
    ts_status <$>
      foldl (fun tab sub => alter (fun sts => set_ts_csn c (set_ts_status st sts)) sub tab)
            tab subs !! xid = Some st.
Proof.
  induction subs as [| sub subs IH]; intros tab Hst; [exact Hst |].
  cbn [foldl]. apply IH.
  destruct (decide (sub = xid)) as [-> | Hne].
  - rewrite lookup_alter_eq. destruct (tab !! xid); [reflexivity | discriminate].
  - rewrite lookup_alter_ne by exact Hne. exact Hst.
Qed.

(** [MtmAbortTransaction] on a state that is not aborted yet. *)
Lemma MtmAbortTransaction_aborts xid ts w :
  MtmXid2State (shm w) !! xid = Some ts ->
  ts_status ts <> TRANSACTION_STATUS_ABORTED ->
  returns (MtmAbortTransaction xid) w
    (fun _ w' =>
       ts_status <$> MtmXid2State (shm w') !! xid = Some TRANSACTION_STATUS_ABORTED
       /\ MtmTx w' = MtmTx w
       /\ trace w' = trace w
       /\ inject2PCError (Mtm (shm w')) = inject2PCError (Mtm (shm w))
       /\ nActiveTransactions (Mtm (shm w')) = nActiveTransactions (Mtm (shm w)) - 1).
Proof.
  intros Hts Hst. unfold MtmAbortTransaction.
  apply returns_bind. unfold hash_find, returns at 1. rewrite Hts.
  rewrite bool_decide_eq_false_2 by exact Hst. cbn [negb].
  apply returns_bind. unfold modXid2State, modify, returns at 1.
  apply returns_bind. unfold MtmAdjustSubtransactions.
  apply returns_bind. unfold hash_find, returns at 1.
  cbn [shm set_shm MtmXid2State set_MtmXid2State]. rewrite lookup_alter_eq, Hts. cbn [fmap option_fmap option_map].
  apply returns_bind. unfold getMtm, returns at 1.
  unfold modXid2State, modify, returns at 1. unfold modMtm, modify, returns.
  cbn. repeat split.
  apply adjusted_status. rewrite lookup_alter_eq, Hts. reflexivity.
Qed.

(** C5: the coordinator of a distributed transaction waits for the votes
    until the clock passes [start + max(min-2pc-timeout, (csn0 - snapshot)
    * prepare-ratio / 100)], the minimum timeout converted from
    milliseconds to microseconds; when the votes are still incomplete at
    the first reading of the clock past that deadline, after [k] waits
    within it, [MtmPostPrepareTransaction] returns with the transaction
    aborted, in the table of states and in the descriptor of the backend,
    and has reported the expiration of that timeout. *)
Theorem MtmPostPrepareTransaction_timeout (k fuel : nat) (w : Backend) (ts : MtmTransState) :
  let xid := x_xid (MtmTx w) in
  let deadline := wrap64 (gettimeofday (clk w)) + spec_prepare_timeout ts in
  x_isDistributed (MtmTx w) = true ->
  MtmXid2State (shm w) !! xid = Some ts ->
  MtmIsCoordinator ts = true ->
  timeout_in_range ts ->
  deadline <= UINT64_MAX ->
  votes_awaited k xid (nConfigChanges (Mtm (shm w))) deadline (S (clk w)) (susp w) (shm w) ->
  inject2PCError (Mtm (shm w)) <> 2 ->
  inject2PCError (Mtm (after_suspensions k (susp w) (shm w))) <> 3 ->
  (k < fuel)%nat ->
  exists w',
    MtmPostPrepareTransaction fuel w = Ok tt w'
    /\ ts_status <$> MtmXid2State (shm w') !! xid = Some TRANSACTION_STATUS_ABORTED
    /\ x_status (MtmTx w') = TRANSACTION_STATUS_ABORTED
    /\ exists prepare_time,
         trace w' =
         trace w ++ [EvLock LW_EXCLUSIVE] ++ vote_waits k
         ++ [EvElog WARNING
               "Transaction %d is aborted because of %d msec timeout expiration, prepare time %d msec"
               [ArgInt xid; ArgInt (int32 (spec_prepare_timeout ts)); ArgInt prepare_time];
             EvUnlock].
Proof.
  intros xid deadline Hdist Hts Hcoord Hrange Hdeadline Hvotes Hinj2 Hinj3 Hfuel.
  pose proof (votes_awaited_first _ _ _ _ _ _ _ Hvotes) as (ts0 & Hts0 & _ & _ & _ & Honline).
  pose proof (votes_awaited_last _ _ _ _ _ _ _ Hvotes) as (ts2 & Hts2 & Hvote2 & Hst2 & Hcfg2 & _).
  apply (returns_unit _ _ (fun _ w' =>
    ts_status <$> MtmXid2State (shm w') !! xid = Some TRANSACTION_STATUS_ABORTED
    /\ x_status (MtmTx w') = TRANSACTION_STATUS_ABORTED
    /\ exists prepare_time,
         trace w' =
         trace w ++ [EvLock LW_EXCLUSIVE] ++ vote_waits k
         ++ [EvElog WARNING
               "Transaction %d is aborted because of %d msec timeout expiration, prepare time %d msec"
               [ArgInt xid; ArgInt (int32 (spec_prepare_timeout ts)); ArgInt prepare_time];
             EvUnlock])).
  unfold MtmPostPrepareTransaction.
  apply returns_bind. unfold getTx, returns at 1. rewrite Hdist. cbn [negb].
  apply returns_bind. unfold getMtm, returns at 1.
  apply returns_bind. apply Z.eqb_neq in Hinj2. rewrite Hinj2. unfold mret, M_ret, returns at 1.
  apply returns_bind. unfold MtmLock, emit, modify, returns at 1.
  apply returns_bind. unfold hash_find, returns at 1. cbn [shm set_trace]. fold xid. rewrite Hts.
  apply returns_bind. unfold getMtm, returns at 1. cbn [shm set_trace].
  rewrite Hcoord. rewrite bool_decide_eq_false_2 by (rewrite Honline; discriminate).
  cbn [negb orb]. rewrite transTimeout_eq by exact Hrange.
  apply returns_bind.
  apply returns_bind. unfold MtmGetSystemTime, returns at 1. cbn [clk set_trace].
  apply returns_bind.
  eapply returns_mono;
    [| apply (MtmPostPrepareTransaction_wait_expires k); [| exact Hfuel]].
  2: { cbn. fold deadline. rewrite (wrap64_small deadline); [exact Hvotes |].
       unfold deadline.
       pose proof (wrap64_range (gettimeofday (clk w))).
       assert (0 <= spec_prepare_timeout ts)
         by (unfold spec_prepare_timeout; destruct Hrange as (? & _); unfold uint64 in *; lia).
       lia. }
  intros ? w2 (Htx & Hshm & Htr). cbn in Htx, Hshm, Htr.
  apply returns_bind. unfold hash_find, returns at 1. rewrite Hshm, Hts2.
  apply returns_bind. unfold getMtm, returns at 1. rewrite Hshm, Hcfg2, Z.eqb_refl, Hvote2.
  rewrite bool_decide_eq_false_2 by exact Hst2. cbn [negb andb orb].
  apply returns_bind. apply returns_bind.
  unfold elog, emit, modify, returns at 1.
  eapply returns_mono; [| apply (MtmAbortTransaction_aborts xid ts2); [| exact Hst2]].
  2: { cbn. rewrite Hshm. exact Hts2. }
  intros ? w3 (Hab & Htx3 & Htr3 & Hinj & _). cbn in Htx3, Htr3, Hinj.
  apply returns_bind. unfold hash_find, returns at 1.
  apply returns_bind. unfold modTx, modify, returns at 1.
  unfold MtmUnlock, emit, modify, returns at 1.
  apply returns_bind. unfold getMtm, returns at 1.
  apply returns_bind. unfold getTx, returns at 1.
  cbn [shm set_trace set_MtmTx].
  rewrite Hinj, Hshm. apply Z.eqb_neq in Hinj3. rewrite Hinj3.
  unfold mret, M_ret, returns. cbn.
  split; [exact Hab |]. split.
  { destruct (MtmXid2State (shm w3) !! xid) as [ts3 |]; [| discriminate].
    cbn in Hab |- *. congruence. }
  eexists. rewrite Htr3, Htr. rewrite <- !app_assoc. reflexivity.
Qed.
(** ** Transaction states and membership: further properties *)

(** X1: [MtmAbortTransaction] is idempotent.  A second call on the backend
    the first one leaves changes nothing, so the count of active
    transactions goes down exactly once, and only for a state that exists
    and was not aborted before. *)
Theorem MtmAbortTransaction_idempotent (xid : Z) (w : Backend) :
  exists w1,
    MtmAbortTransaction xid w = Ok tt w1
    /\ MtmAbortTransaction xid w1 = Ok tt w1
    /\ nActiveTransactions (Mtm (shm w1)) =
       nActiveTransactions (Mtm (shm w))
       - match MtmXid2State (shm w) !! xid with
         | Some ts => if bool_decide (ts_status ts = TRANSACTION_STATUS_ABORTED) then 0 else 1
         | None => 0
         end.
Proof.
  destruct (MtmXid2State (shm w) !! xid) as [ts |] eqn:Hts.
  - destruct (decide (ts_status ts = TRANSACTION_STATUS_ABORTED)) as [Hst | Hst].
    + exists w. rewrite bool_decide_eq_true_2 by exact Hst.
      assert (MtmAbortTransaction xid w = Ok tt w) as Hrun.
      { unfold MtmAbortTransaction, hash_find. munfold. rewrite Hts.
        rewrite bool_decide_eq_true_2 by exact Hst. reflexivity. }
      split; [exact Hrun |]. split; [exact Hrun | lia].
    + rewrite bool_decide_eq_false_2 by exact Hst.
      pose proof (MtmAbortTransaction_aborts xid ts w Hts Hst) as Hrun.
      apply returns_unit in Hrun. destruct Hrun as (w1 & Hrun & Hab & _ & _ & _ & Hn).
      exists w1. split; [exact Hrun |]. split; [| exact Hn].
      unfold MtmAbortTransaction, hash_find. munfold.
      destruct (MtmXid2State (shm w1) !! xid) as [ts1 |]; [| reflexivity].
      cbn in Hab. injection Hab as Hab.
      rewrite bool_decide_eq_true_2 by exact Hab. reflexivity.
  - exists w.
    assert (MtmAbortTransaction xid w = Ok tt w) as Hrun.
    { unfold MtmAbortTransaction, hash_find. munfold. rewrite Hts. reflexivity. }
    split; [exact Hrun |]. split; [exact Hrun | lia].
Qed.

(** X2: [MtmWakeUpBackend] sets the latch of the waiting backend at most
    once: the first call on a state whose voting is not completed sets it
    and completes the voting, and a call on the backend it leaves does
    nothing. *)
Theorem MtmWakeUpBackend_once (xid : Z) (w : Backend) :
  exists w1,
    MtmWakeUpBackend xid w = Ok tt w1
    /\ trace w1 =
       trace w ++ match MtmXid2State (shm w) !! xid with
                  | Some ts => if ts_votingCompleted ts then [] else [EvSetLatch (ts_procno ts)]
                  | None => []
                  end
    /\ MtmWakeUpBackend xid w1 = Ok tt w1.
Proof.
  unfold MtmWakeUpBackend, hash_find. munfold.
  destruct (MtmXid2State (shm w) !! xid) as [ts |] eqn:Hts.
  - destruct (ts_votingCompleted ts) eqn:Hvote; cbn.
    + exists w. rewrite app_nil_r, Hts, Hvote. repeat split.
    + eexists. split; [reflexivity |]. split; [reflexivity |].
      cbn. rewrite lookup_alter_eq, Hts. reflexivity.
  - exists w. rewrite app_nil_r, Hts. repeat split.
Qed.

Lemma BIT_CLEAR_BIT_SET mask b :
  uint64 mask -> 0 <= b < 64 -> Z.testbit mask b = false ->
  BIT_CLEAR (BIT_SET mask b) b = mask.
Proof.
  intros [Hlo Hhi] Hb Hclear. apply Z.bits_inj'. intros c Hc.
  destruct (Z.lt_ge_cases c 64) as [Hlt | Hge].
  - rewrite testbit_BIT_CLEAR, testbit_BIT_SET by lia.
    destruct (Z.eqb_spec c b) as [-> | Hne]; cbn.
    + rewrite Hclear. reflexivity.
    + rewrite orb_false_r, andb_true_r. reflexivity.
  - assert (Z.testbit mask c = false) as ->.
    { destruct (Z.eq_dec mask 0) as [-> | Hnz]; [apply Z.bits_0 |].
      apply Z.bits_above_log2; [lia |].
      apply Z.log2_lt_pow2; [lia |]. unfold UINT64_MAX in Hhi.
      assert (2 ^ 64 <= 2 ^ c) by (apply Z.pow_le_mono_r; lia). lia. }
    unfold BIT_CLEAR. rewrite Z.land_spec. unfold not64.
    rewrite Z.lxor_spec, UINT64_MAX_ones, Z.ones_spec_high by lia.
    rewrite bit64_small by exact Hb. rewrite Z.pow2_bits_false by lia.
    apply andb_false_r.
Qed.

(** X3: disabling a node and enabling it again is a round trip on the
    membership: for another node that was enabled, [MtmDisableNode] sets
    its bit and [MtmEnableNode] restores the mask of disabled nodes and
    the count of live nodes; what remains is that its last heartbeat is
    forgotten. *)
Theorem MtmDisableNode_MtmEnableNode (nodeId : Z) (w : Backend) :
  0 < nodeId <= 64 ->
  nodeId <> MtmNodeId ->
  uint64 (disabledNodeMask (Mtm (shm w))) ->
  BIT_CHECK (disabledNodeMask (Mtm (shm w))) (nodeId - 1) = false ->
  exists w1 w2,
    MtmDisableNode nodeId w = Ok tt w1
    /\ BIT_CHECK (disabledNodeMask (Mtm (shm w1))) (nodeId - 1) = true
    /\ nLiveNodes (Mtm (shm w1)) = nLiveNodes (Mtm (shm w)) - 1
    /\ MtmEnableNode nodeId w1 = Ok tt w2
    /\ disabledNodeMask (Mtm (shm w2)) = disabledNodeMask (Mtm (shm w))
    /\ nLiveNodes (Mtm (shm w2)) = nLiveNodes (Mtm (shm w))
    /\ lastHeartbeat (node (Mtm (shm w2)) (nodeId - 1)) = 0.
Proof.
  intros Hid Hother Hmask Henabled.
  rewrite BIT_CHECK_testbit in Henabled by lia.
  apply Z.eqb_neq in Hother.
  unfold MtmDisableNode, MtmEnableNode, MtmGetSystemTime, modNode, GetXLogInsertRecPtr.
  open_backend w. flat. rewrite Hother. flat.
  assert ((0 <=? nodeId - 1) = true) as Hnn by (apply Z.leb_le; lia).
  rewrite Hnn.
  eexists. eexists. split; [reflexivity |].
  flat. rewrite ?Hother, ?Hnn. flat.
  split; [rewrite BIT_CHECK_testbit, testbit_BIT_SET, Z.eqb_refl by lia; apply orb_true_r |].
  split; [reflexivity |]. split; [reflexivity |].
  split; [apply BIT_CLEAR_BIT_SET; [exact Hmask | lia | exact Henabled] |].
  split; [lia |].
  unfold node. flat. rewrite Hnn.
  rewrite !list_lookup_alter_eq.
  destruct (_ !! Z.to_nat (nodeId - 1)); reflexivity.
Qed.

(** X4: [MtmCheckQuorum] counts one more configuration change and makes
    the status agree with the quorum: a node that was online or in
    minority is online afterwards exactly when at least [nAllNodes/2 + 1]
    nodes are live; any other status is left alone. *)
Theorem MtmCheckQuorum_status (w : Backend) :
  exists w',
    MtmCheckQuorum w = Ok tt w'
    /\ nConfigChanges (Mtm (shm w')) = nConfigChanges (Mtm (shm w)) + 1
    /\ (status (Mtm (shm w)) = MTM_ONLINE \/ status (Mtm (shm w)) = MTM_IN_MINORITY ->
        status (Mtm (shm w')) =
        if nLiveNodes (Mtm (shm w)) <? nAllNodes (Mtm (shm w)) ÷ 2 + 1
        then MTM_IN_MINORITY else MTM_ONLINE)
    /\ (status (Mtm (shm w)) <> MTM_ONLINE -> status (Mtm (shm w)) <> MTM_IN_MINORITY ->
        status (Mtm (shm w')) = status (Mtm (shm w))).
Proof.
  unfold MtmCheckQuorum, MtmSwitchClusterMode. open_backend w. flat.
  match goal with
  | |- context [?a <? ?b] => destruct (a <? b)
  end;
    match goal with
    | |- context [bool_decide (?s = ?t)] => destruct s
    end; cbn; eexists; (split; [reflexivity |]); cbn;
    (split; [reflexivity |]); split; try reflexivity;
    try (intros [H | H]; (reflexivity || discriminate H));
    try (intros H1 H2; (reflexivity || congruence)).
Qed.

(** X5: [MtmIsRecoveredNode] answers whether the node is disabled, and a
    disabled node is served only by a recovery session.  For a disabled
    node outside a recovery session it raises "Node %d is marked as
    disabled but is not in recovery mode" and changes nothing else; for a
    disabled node in a recovery session it answers true and changes
    nothing; for an enabled node it answers false and the session is not a
    recovery session any more.  Shared memory is never written. *)
Theorem MtmIsRecoveredNode_session (nodeId : Z) (w : Backend) :
  let disabled := BIT_CHECK (disabledNodeMask (Mtm (shm w))) (nodeId - 1) in
  (disabled = true -> MtmIsRecoverySession w = false ->
   exists w',
     MtmIsRecoveredNode nodeId w =
     Raise "Node %d is marked as disabled but is not in recovery mode" [ArgInt nodeId] w'
     /\ MtmIsRecoverySession w' = false
     /\ shm w' = shm w
     /\ MtmTx w' = MtmTx w
     /\ trace w' =
        trace w ++ [EvElog ERROR "Node %d is marked as disabled but is not in recovery mode"
                      [ArgInt nodeId]])
  /\ (disabled = true -> MtmIsRecoverySession w = true ->
      MtmIsRecoveredNode nodeId w = Ok true w)
  /\ (disabled = false ->
      exists w',
        MtmIsRecoveredNode nodeId w = Ok false w'
        /\ MtmIsRecoverySession w' = false
        /\ shm w' = shm w
        /\ MtmTx w' = MtmTx w
        /\ trace w' = trace w).
Proof.
  intros disabled. unfold MtmIsRecoveredNode, elog_ERROR. munfold. fold disabled.
  split; [| split].
  - intros -> Hsession. rewrite Hsession. eexists. split; [reflexivity |]. cbn.
    repeat split. exact Hsession.
  - intros -> ->. reflexivity.
  - intros ->. eexists. split; [reflexivity |]. cbn. repeat split.
Qed.
(** ** Beginning a transaction: further properties *)

(** [c] leaves [w] through [elog(ERROR, ...)], with a report and a backend
    that satisfy [Q]. *)
Definition raises {A : Type} (c : M A) (w : Backend)
    (Q : string -> list ElogArg -> Backend -> Prop) : Prop :=
  match c w with
  | Raise fmt args w' => Q fmt args w'
  | _ => False
  end.

Lemma raises_ex {A : Type} (c : M A) w Q :
  raises c w Q -> exists fmt args w', c w = Raise fmt args w' /\ Q fmt args w'.
Proof.
  unfold raises. destruct (c w) as [| fmt args w' |]; [contradiction | eauto | contradiction].
Qed.

Lemma raises_bind {A B : Type} (c : M A) (k : A -> M B) w Q :
  returns c w (fun a w1 => raises (k a) w1 Q) -> raises (c ≫= k) w Q.
Proof.
  unfold returns, raises, mbind, M_bind. destruct (c w); [auto | contradiction | contradiction].
Qed.

(** The user's transaction would be rejected: the node is not online and
    the session is not the administrator's. *)
Definition rejected (w : Backend) : bool :=
  MtmIsUserTransaction (pg w)
  && negb (bool_decide (status (Mtm (shm w)) = MTM_ONLINE))
  && negb (String.eqb (application_name (pg w)) MULTIMASTER_ADMIN).

(** The garbage collection at the head of [MtmBeginTransaction]. *)
Lemma MtmBeginTransaction_collects (b : bool) (xmin : Z) (w : Backend) :
  returns (if b then MtmAdjustOldestXid xmin;; mret tt else mret tt) w
    (fun _ w' =>
       begin_frame (status (Mtm (shm w))) (csn (Mtm (shm w))) (timeShift (Mtm (shm w)))
         (MtmTx w) (pg w) (trace w) (clk w) w').
Proof.
  eapply keeps_returns.
  - destruct b; [| apply keeps_ret].
    apply keeps_bind; [apply begin_frame_MtmAdjustOldestXid | intros ?; apply keeps_ret].
  - unfold begin_frame. repeat split.
Qed.

(** X6: a user transaction that begins on a node that is not online, from
    a session other than the administrator's, is rejected with
    "Multimaster node is not online", after the lock taken for it has been
    released; it draws no CSN and is left without a snapshot. *)
Theorem MtmBeginTransaction_offline (w : Backend) :
  x_snapshot (MtmTx w) = INVALID_CSN ->
  MtmIsUserTransaction (pg w) = true ->
  status (Mtm (shm w)) <> MTM_ONLINE ->
  application_name (pg w) <> MULTIMASTER_ADMIN ->
  exists w',
    MtmBeginTransaction w =
    Raise "Multimaster node is not online: current status %s"
      [ArgStr (MtmNodeStatusMnem (status (Mtm (shm w))))] w'
    /\ trace w' =
       trace w ++ [EvLock LW_EXCLUSIVE; EvUnlock;
                   EvElog ERROR "Multimaster node is not online: current status %s"
                     [ArgStr (MtmNodeStatusMnem (status (Mtm (shm w))))]]
    /\ x_snapshot (MtmTx w') = INVALID_CSN
    /\ csn (Mtm (shm w')) = csn (Mtm (shm w)).
Proof.
  intros Hnew Huser Hoffline Hadmin.
  assert (raises MtmBeginTransaction w (fun fmt args w' =>
            fmt = "Multimaster node is not online: current status %s"
            /\ args = [ArgStr (MtmNodeStatusMnem (status (Mtm (shm w))))]
            /\ trace w' =
               trace w ++ [EvLock LW_EXCLUSIVE; EvUnlock;
                           EvElog ERROR "Multimaster node is not online: current status %s"
                             [ArgStr (MtmNodeStatusMnem (status (Mtm (shm w))))]]
            /\ x_snapshot (MtmTx w') = INVALID_CSN
            /\ csn (Mtm (shm w')) = csn (Mtm (shm w)))) as Hrun.
  { unfold MtmBeginTransaction.
    apply raises_bind. unfold getTx, returns at 1. rewrite Hnew, Z.eqb_refl.
    apply raises_bind. unfold getMtm, returns at 1.
    apply raises_bind. unfold get, returns at 1. cbv zeta.
    apply raises_bind. unfold MtmLock, emit, modify, returns at 1.
    apply raises_bind. unfold getMtm, returns at 1.
    apply raises_bind.
    eapply returns_mono; [| apply MtmBeginTransaction_collects].
    intros ? w2 (Hst & Hcsn & Hts & Htx & Hpg & Htr & Hclk). cbv beta.
    cbn in Hst, Hcsn, Hts, Htx, Hpg, Htr, Hclk.
    rewrite Huser. apply String.eqb_neq in Hadmin.
    unfold MtmUnlock, elog_ERROR, raises. open_backend w2. subst.
    rewrite bool_decide_eq_false_2 by exact Hoffline.
    flat. rewrite Hadmin. flat.
    repeat split; cbn; rewrite <- ?app_assoc; reflexivity. }
  apply raises_ex in Hrun.
  destruct Hrun as (fmt & args & w' & Hrun & -> & -> & Hrest).
  exists w'. split; [exact Hrun | exact Hrest].
Qed.

Lemma MtmBeginTransaction_again (w : Backend) :
  x_snapshot (MtmTx w) <> INVALID_CSN -> MtmBeginTransaction w = Ok tt w.
Proof.
  intros Hold. unfold MtmBeginTransaction, getTx. unfold mbind, M_bind at 1.
  apply Z.eqb_neq in Hold. rewrite Hold. reflexivity.
Qed.

(** X7: a transaction that is not rejected begins with a snapshot newer
    than every CSN the node has assigned so far, the last CSN of the node
    from then on; with that snapshot in place, beginning again changes
    nothing. *)
Theorem MtmBeginTransaction_fresh_snapshot (w : Backend) :
  x_snapshot (MtmTx w) = INVALID_CSN ->
  rejected w = false ->
  0 <= csn (Mtm (shm w)) < UINT64_MAX ->
  exists w',
    MtmBeginTransaction w = Ok tt w'
    /\ x_snapshot (MtmTx w') = csn (Mtm (shm w'))
    /\ csn (Mtm (shm w)) < csn (Mtm (shm w'))
    /\ (csn (Mtm (shm w')) <> INVALID_CSN -> MtmBeginTransaction w' = Ok tt w').
Proof.
  intros Hnew Haccepted Hcsn.
  apply (returns_unit _ _ (fun _ w' =>
    x_snapshot (MtmTx w') = csn (Mtm (shm w'))
    /\ csn (Mtm (shm w)) < csn (Mtm (shm w'))
    /\ (csn (Mtm (shm w')) <> INVALID_CSN -> MtmBeginTransaction w' = Ok tt w'))).
  unfold MtmBeginTransaction at 1.
  apply returns_bind. unfold getTx, returns at 1. rewrite Hnew, Z.eqb_refl.
  apply returns_bind. unfold getMtm, returns at 1.
  apply returns_bind. unfold get, returns at 1. cbv zeta.
  apply returns_bind. unfold MtmLock, emit, modify, returns at 1.
  apply returns_bind. unfold getMtm, returns at 1.
  apply returns_bind.
  eapply returns_mono; [| apply MtmBeginTransaction_collects].
  intros ? w2 (Hst & Hcsn2 & Hts & Htx & Hpg & Htr & Hclk). cbv beta.
  cbn in Hst, Hcsn2, Hts, Htx, Hpg, Htr, Hclk.
  unfold rejected in Haccepted.
  unfold MtmUnlock, MtmAssignCSN, MtmGetCurrentTime, MtmGetSystemTime, returns.
  open_backend w2. open_backend w. subst. flat.
  rewrite Haccepted.
  destruct (MtmIsUserTransaction _ && negb (bool_decide (XactIsoLevel _ = _))); flat;
    match goal with
    | |- context [?a <=? ?b] => destruct (Z.leb_spec a b)
    end; flat;
    (split; [reflexivity |]);
    (split; [rewrite ?wrap64_small by (unfold UINT64_MAX in *; lia); lia |]);
    intros Hne; apply MtmBeginTransaction_again; exact Hne.
Qed.
(** ** Waiting, locking and notifications: further properties *)

(** X8: the sleep between two looks at an in-doubt transaction doubles
    from [MIN_WAIT_TIMEOUT] and saturates at 64 ms: the doubling stops
    where the next value would pass [MAX_WAIT_TIMEOUT], which is therefore
    never reached. *)
Theorem next_delay_saturates (k : nat) :
  Nat.iter k next_delay MIN_WAIT_TIMEOUT = Z.min (1000 * 2 ^ Z.of_nat k) 64000
  /\ Nat.iter k next_delay MIN_WAIT_TIMEOUT < MAX_WAIT_TIMEOUT.
Proof.
  assert (forall j, Nat.iter (6 + j) next_delay MIN_WAIT_TIMEOUT = 64000) as Hsat.
  { induction j as [| j IH]; [reflexivity |].
    replace (6 + S j)%nat with (S (6 + j)) by lia.
    rewrite Nat.iter_succ, IH. reflexivity. }
  assert (Nat.iter k next_delay MIN_WAIT_TIMEOUT = Z.min (1000 * 2 ^ Z.of_nat k) 64000) as Heq.
  { destruct (le_lt_dec 6 k) as [Hbig | Hsmall].
    - assert (Nat.iter k next_delay MIN_WAIT_TIMEOUT = 64000) as ->
        by (replace k with (6 + (k - 6))%nat by lia; apply Hsat).
      assert (2 ^ 6 <= 2 ^ Z.of_nat k) by (apply Z.pow_le_mono_r; lia).
      change (2 ^ 6) with 64 in *. lia.
    - do 6 (destruct k as [| k]; [reflexivity |]). lia. }
  split; [exact Heq |]. rewrite Heq. unfold MAX_WAIT_TIMEOUT. lia.
Qed.

(** The backend a run ends in, when it ends. *)
Definition final {A : Type} (r : Res A) : option Backend :=
  match r with
  | Ok _ w => Some w
  | Raise _ _ w => Some w
  | OutOfFuel => None
  end.

(** The discipline of the state lock along a trace, from a state in which
    it is [held] or not: it is not taken twice, not released when it is
    not held, and a backend does not sleep while it holds it.  [Some h]
    when the trace keeps the discipline and leaves the lock held or not. *)
Fixpoint locks (held : bool) (tr : list Event) : option bool :=
  match tr with
  | [] => Some held
  | EvLock _ :: tr' => if held then None else locks true tr'
  | EvUnlock :: tr' => if held then locks false tr' else None
  | EvSleep _ :: tr' => if held then None else locks false tr'
  | EvWaitLatch _ :: tr' => if held then None else locks false tr'
  | _ :: tr' => locks held tr'
  end.

Lemma MtmXidInMVCCSnapshot_loop_locks xid snapshot loops :
  forall delay w,
    exists w' tr,
      final (MtmXidInMVCCSnapshot_loop loops delay xid snapshot w) = Some w'
      /\ trace w' = trace w ++ tr
      /\ locks true tr = Some false.
Proof.
  induction loops as [| loops IH]; intros delay w.
  - cbn [MtmXidInMVCCSnapshot_loop]. unfold MtmUnlock, elog_ERROR. munfold.
    eexists. eexists. split; [reflexivity |]. cbn. rewrite <- app_assoc.
    split; reflexivity.
  - cbn [MtmXidInMVCCSnapshot_loop]. unfold hash_find, getTx. unfold mbind, M_bind at 1.
    destruct (MtmXid2State (shm w) !! xid) as [ts |].
    + unfold mbind, M_bind at 1.
      destruct (x_snapshot (MtmTx w) <? ts_csn ts).
      { unfold MtmUnlock. munfold. eexists. eexists. split; [reflexivity |].
        split; reflexivity. }
      destruct (bool_decide (ts_status ts = TRANSACTION_STATUS_UNKNOWN)).
      * destruct (IH (next_delay delay) (waited delay w)) as (w' & tr & Hrun & Htr & Hlocks).
        exists w', ([EvUnlock; EvSleep delay; EvLock LW_SHARED] ++ tr).
        split; [| split].
        -- rewrite <- Hrun. f_equal.
           unfold MtmUnlock, MtmSleep, MtmLock, suspend. munfold.
           f_equal. unfold waited. backend_eq.
        -- rewrite Htr. unfold waited. cbn. rewrite <- app_assoc. reflexivity.
        -- exact Hlocks.
      * unfold MtmUnlock. munfold. eexists. eexists. split; [reflexivity |].
        split; reflexivity.
    + unfold MtmUnlock. munfold. eexists. eexists. split; [reflexivity |].
      split; reflexivity.
Qed.

(** X9: whatever the other processes do and however it ends, with an
    answer or with the error after 100 waits, a visibility check ends,
    and it keeps the discipline of the state lock: it never sleeps
    holding the lock and never ends holding it. *)
Theorem MtmXidInMVCCSnapshot_lock_discipline (xid : Z) (snapshot : Snapshot) (w : Backend) :
  exists w' tr,
    final (MtmXidInMVCCSnapshot xid snapshot w) = Some w'
    /\ trace w' = trace w ++ tr
    /\ locks false tr = Some false.
Proof.
  unfold MtmXidInMVCCSnapshot. destruct MtmUseDtm; cbn [negb].
  - unfold MtmLock, emit, modify. unfold mbind, M_bind at 1.
    destruct (MtmXidInMVCCSnapshot_loop_locks xid snapshot MAX_WAIT_LOOPS MIN_WAIT_TIMEOUT
                (set_trace (trace w ++ [EvLock LW_SHARED]) w))
      as (w' & tr & Hrun & Htr & Hlocks).
    exists w', (EvLock LW_SHARED :: tr). split; [exact Hrun |].
    split; [| exact Hlocks].
    rewrite Htr. cbn. rewrite <- app_assoc. reflexivity.
  - exists w, []. rewrite app_nil_r. repeat split.
Qed.

(** ** Membership: further properties *)

(** X12: when the configuration store has no answer for some node,
    [MtmRefreshClusterStatus] gives up with [false] and has changed
    nothing in shared memory. *)
Theorem MtmRefreshClusterStatus_no_answer (nowait : bool) (w w0 : Backend) :
  MtmBuildConnectivityMatrix nowait w = Ok None w0 ->
  MtmRefreshClusterStatus nowait w = Ok false w0 /\ shm w0 = shm w.
Proof.
  intros Hbuild. split.
  - unfold MtmRefreshClusterStatus. unfold mbind, M_bind at 1. rewrite Hbuild. reflexivity.
  - pose proof (shm_is_MtmBuildConnectivityMatrix (shm w) nowait w eq_refl) as Hkept.
    unfold returns in Hkept. rewrite Hbuild in Hkept. exact Hkept.
Qed.

Lemma BIT_CHECK_BIT_CLEAR mask b : 0 <= b < 64 -> BIT_CHECK (BIT_CLEAR mask b) b = false.
Proof.
  intros Hb. rewrite BIT_CHECK_testbit, testbit_BIT_CLEAR, Z.eqb_refl by lia.
  apply andb_false_r.
Qed.

(** X14: the status of a node does not blink.  A disconnection of a node
    reported right after the node was enabled, before [MtmNodeDisableDelay]
    has passed on the clock, is ignored: shared memory stays as
    [MtmEnableNode] left it and the node stays enabled. *)
Theorem MtmEnableNode_MtmOnNodeDisconnect (nodeId : Z) (w : Backend) :
  0 < nodeId <= 64 ->
  (Z.to_nat (nodeId - 1) < length (nodes (Mtm (shm w))))%nat ->
  wrap64 (gettimeofday (S (clk w)))
  < wrap64 (wrap64 (gettimeofday (clk w)) + MSEC_TO_USEC MtmNodeDisableDelay) ->
  exists w1 w2,
    MtmEnableNode nodeId w = Ok tt w1
    /\ MtmOnNodeDisconnect nodeId w1 = Ok tt w2
    /\ shm w2 = shm w1
    /\ trace w2 = trace w1
    /\ BIT_CHECK (disabledNodeMask (Mtm (shm w2))) (nodeId - 1) = false.
Proof.
  intros Hid Hnode Hsoon.
  apply lookup_lt_is_Some_2 in Hnode. destruct Hnode as [nd Hnd].
  apply Z.ltb_lt in Hsoon.
  unfold MtmEnableNode, MtmOnNodeDisconnect, MtmGetSystemTime, modNode, GetXLogInsertRecPtr.
  open_backend w. flat.
  assert ((0 <=? nodeId - 1) = true) as Hnn by (apply Z.leb_le; lia).
  rewrite Hnn.
  destruct (nodeId =? MtmNodeId); flat;
    (eexists; eexists; split; [reflexivity |]);
    flat; rewrite BIT_CHECK_BIT_CLEAR by lia; flat;
    unfold node; flat; rewrite Hnn;
    rewrite !list_lookup_alter_eq, Hnd; cbn;
    rewrite Hsoon;
    (split; [reflexivity |]); flat; repeat split;
    apply BIT_CHECK_BIT_CLEAR; lia.
Qed.
(** ** The connectivity matrix is symmetric *)

(** Bit [b] of row [a] of a matrix: node [a+1] reports node [b+1]
    disconnected. *)
Definition matrix_bit (matrix : list Z) (a b : nat) : bool :=
  Z.testbit (matrix_get matrix a) (Z.of_nat b).

(** [((x >> s) & 1) << d], one bit of [x] moved to position [d]. *)
Lemma testbit_moved x s d c :
  0 <= s -> 0 <= d < 64 -> 0 <= c < 64 ->
  Z.testbit (wrap64 (Z.shiftl (Z.land (Z.shiftr x s) 1) d)) c = (c =? d) && Z.testbit x s.
Proof.
  intros Hs Hd Hc. unfold wrap64. rewrite Z.mod_pow2_bits_low by lia.
  destruct (Z.eqb_spec c d) as [-> | Hne]; cbn [andb].
  - rewrite Z.shiftl_spec, Z.sub_diag, Z.land_spec, Z.shiftr_spec by lia.
    change (Z.testbit 1 0) with true. rewrite andb_true_r. reflexivity.
  - destruct (Z.lt_ge_cases c d) as [Hlt | Hge].
    + apply Z.shiftl_spec_low. exact Hlt.
    + rewrite Z.shiftl_spec, Z.land_spec by lia.
      change 1 with (2 ^ 0) at 1. rewrite Z.pow2_bits_false by lia.
      apply andb_false_r.
Qed.

Lemma length_symmetrize_pair i j matrix :
  length (symmetrize_pair i j matrix) = length matrix.
Proof. unfold symmetrize_pair. cbv zeta. rewrite !length_insert. reflexivity. Qed.

(** One step of the inner loop makes the bits [(i, j)] and [(j, i)] equal
    to their disjunction and touches no other bit. *)
Lemma symmetrize_pair_bit matrix i j a b :
  (j < i)%nat -> (i < length matrix)%nat -> (i < 64)%nat -> (b < 64)%nat ->
  matrix_bit (symmetrize_pair i j matrix) a b =
  if bool_decide (a = i /\ b = j) || bool_decide (a = j /\ b = i)
  then matrix_bit matrix i j || matrix_bit matrix j i
  else matrix_bit matrix a b.
Proof.
  intros Hji Hi Hi64 Hb.
  unfold symmetrize_pair, matrix_bit, matrix_get. cbv zeta.
  rewrite (list_lookup_insert_ne _ i j) by lia.
  rewrite (list_lookup_insert_eq _ i) by exact Hi.
  cbn [default from_option]; unfold id.
  destruct (decide (a = j)) as [-> | Haj].
  - rewrite list_lookup_insert_eq by (rewrite length_insert; lia).
    cbn [default from_option]; unfold id.
    rewrite Z.lor_spec, testbit_moved by lia.
    rewrite Z.lor_spec, testbit_moved by lia.
    rewrite Z.eqb_refl. cbn [andb].
    rewrite (bool_decide_eq_false_2 (j = i /\ b = j)) by lia. cbn [orb].
    destruct (decide (b = i)) as [-> | Hbi].
    + rewrite bool_decide_eq_true_2 by (split; reflexivity).
      rewrite Z.eqb_refl. cbn [andb].
      repeat match goal with
        | |- context [Z.testbit ?x ?y] => destruct (Z.testbit x y)
        end; reflexivity.
    + rewrite bool_decide_eq_false_2 by lia.
      assert ((Z.of_nat b =? Z.of_nat i) = false) as -> by (apply Z.eqb_neq; lia).
      cbn [andb]. apply orb_false_r.
  - rewrite list_lookup_insert_ne by lia.
    rewrite (bool_decide_eq_false_2 (a = j /\ b = i)) by lia. rewrite orb_false_r.
    destruct (decide (a = i)) as [-> | Hai].
    + rewrite list_lookup_insert_eq by exact Hi. cbn [default from_option]; unfold id.
      rewrite Z.lor_spec, testbit_moved by lia.
      destruct (decide (b = j)) as [-> | Hbj].
      * rewrite bool_decide_eq_true_2 by (split; reflexivity).
        rewrite Z.eqb_refl. reflexivity.
      * rewrite bool_decide_eq_false_2 by lia.
        assert ((Z.of_nat b =? Z.of_nat j) = false) as -> by (apply Z.eqb_neq; lia).
        cbn [andb]. apply orb_false_r.
    + rewrite list_lookup_insert_ne by lia.
      rewrite bool_decide_eq_false_2 by lia. reflexivity.
Qed.

(** The inner loop over [j < k], for [k <= i]. *)
Lemma symmetrize_pairs_bit matrix i k :
  (k <= i)%nat -> (i < length matrix)%nat -> (i < 64)%nat ->
  let matrix' := foldl (fun mx j => symmetrize_pair i j mx) matrix (seq 0 k) in
  length matrix' = length matrix
  /\ forall a b,
      (b < 64)%nat ->
      matrix_bit matrix' a b =
      if bool_decide (a = i /\ (b < k)%nat) || bool_decide ((a < k)%nat /\ b = i)
      then matrix_bit matrix a b || matrix_bit matrix b a
      else matrix_bit matrix a b.
Proof.
  intros Hk Hi Hi64. cbv zeta. induction k as [| k IH].
  - split; [reflexivity |]. intros a b Hb. cbn [seq foldl].
    rewrite !bool_decide_eq_false_2 by lia. reflexivity.
  - destruct IH as [Hlen IH]; [lia |].
    rewrite seq_S, foldl_snoc. cbn [Nat.add].
    split; [rewrite length_symmetrize_pair; exact Hlen |].
    intros a b Hb.
    rewrite symmetrize_pair_bit by (try rewrite Hlen; lia).
    rewrite !IH by lia.
    destruct (decide (a = i /\ b = k)) as [[-> ->] | Hn1].
    + rewrite (bool_decide_eq_true_2 (i = i /\ k = k)) by (split; reflexivity).
      rewrite (bool_decide_eq_true_2 (i = i /\ (k < S k)%nat)) by lia.
      rewrite !bool_decide_eq_false_2 by lia. reflexivity.
    + rewrite (bool_decide_eq_false_2 (a = i /\ b = k)) by exact Hn1.
      destruct (decide (a = k /\ b = i)) as [[-> ->] | Hn2].
      * rewrite (bool_decide_eq_true_2 (k = k /\ i = i)) by (split; reflexivity).
        rewrite (bool_decide_eq_true_2 ((k < S k)%nat /\ i = i)) by lia.
        rewrite !bool_decide_eq_false_2 by lia. rewrite orb_true_r. cbn [orb].
        apply orb_comm.
      * rewrite (bool_decide_eq_false_2 (a = k /\ b = i)) by exact Hn2. cbn [orb].
        destruct (decide (a = i /\ (b < k)%nat)) as [H1 | H1].
        -- rewrite !(bool_decide_eq_true_2 (a = i /\ _)) by lia. reflexivity.
        -- rewrite !(bool_decide_eq_false_2 (a = i /\ _)) by lia. cbn [orb].
           destruct (decide ((a < k)%nat /\ b = i)) as [H2 | H2].
           ++ rewrite !(bool_decide_eq_true_2 (_ /\ b = i)) by lia. reflexivity.
           ++ rewrite !(bool_decide_eq_false_2 (_ /\ b = i)) by lia. reflexivity.
Qed.

Lemma length_symmetrize_row i matrix : length (symmetrize_row i matrix) = length matrix.
Proof.
  unfold symmetrize_row. cbv zeta. rewrite length_insert.
  generalize (seq 0 i). intros js. revert matrix.
  induction js as [| j js IH]; intros matrix; [reflexivity |].
  cbn [foldl]. rewrite IH. apply length_symmetrize_pair.
Qed.

(** One round of the outer loop: row [i] and column [i] agree below [i],
    the diagonal bit is cleared, and no other bit changes. *)
Lemma symmetrize_row_bit matrix i a b :
  (i < length matrix)%nat -> (i < 64)%nat -> (b < 64)%nat ->
  matrix_bit (symmetrize_row i matrix) a b =
  if bool_decide (a = i /\ b = i) then false
  else if bool_decide (a = i /\ (b < i)%nat) || bool_decide ((a < i)%nat /\ b = i)
       then matrix_bit matrix a b || matrix_bit matrix b a
       else matrix_bit matrix a b.
Proof.
  intros Hi Hi64 Hb.
  destruct (symmetrize_pairs_bit matrix i i (le_n i) Hi Hi64) as [Hlen Hbits].
  unfold symmetrize_row. cbv zeta.
  set (matrix1 := foldl (fun mx j => symmetrize_pair i j mx) matrix (seq 0 i)) in *.
  destruct (decide (a = i)) as [-> | Hai].
  - unfold matrix_bit at 1. unfold matrix_get at 1.
    rewrite list_lookup_insert_eq by lia. cbn [default from_option]; unfold id.
    change (Z.land (matrix_get matrix1 i) (not64 (bit64 (Z.of_nat i))))
      with (BIT_CLEAR (matrix_get matrix1 i) (Z.of_nat i)).
    rewrite testbit_BIT_CLEAR by lia.
    fold (matrix_bit matrix1 i b). rewrite Hbits by exact Hb.
    destruct (decide (b = i)) as [-> | Hbi].
    + rewrite (bool_decide_eq_true_2 (i = i /\ i = i)) by (split; reflexivity).
      rewrite Z.eqb_refl. apply andb_false_r.
    + rewrite (bool_decide_eq_false_2 (i = i /\ b = i)) by lia.
      assert ((Z.of_nat b =? Z.of_nat i) = false) as -> by (apply Z.eqb_neq; lia).
      cbn [negb]. apply andb_true_r.
  - unfold matrix_bit at 1. unfold matrix_get at 1.
    rewrite list_lookup_insert_ne by lia.
    fold (matrix_get matrix1 a). fold (matrix_bit matrix1 a b).
    rewrite Hbits by exact Hb.
    rewrite (bool_decide_eq_false_2 (a = i /\ b = i)) by lia. reflexivity.
Qed.

Lemma symmetrize_rows_symmetric matrix n k :
  (k <= n)%nat -> (n <= length matrix)%nat -> (n <= 64)%nat ->
  let matrix' := foldl (fun mx i => symmetrize_row i mx) matrix (seq 0 k) in
  length matrix' = length matrix
  /\ forall a b,
      (a < k)%nat -> (b < k)%nat ->
      matrix_bit matrix' a b = matrix_bit matrix' b a /\ matrix_bit matrix' a a = false.
Proof.
  intros Hk Hn Hn64. cbv zeta. induction k as [| k IH].
  - split; [reflexivity |]. intros a b Ha. lia.
  - destruct IH as [Hlen IH]; [lia |].
    rewrite seq_S, foldl_snoc. cbn [Nat.add].
    set (matrix1 := foldl (fun mx i => symmetrize_row i mx) matrix (seq 0 k)) in *.
    split; [rewrite length_symmetrize_row; exact Hlen |].
    intros a b Ha Hb.
    rewrite !symmetrize_row_bit by (try rewrite Hlen; lia).
    destruct (decide (a = k)) as [-> | Hak]; destruct (decide (b = k)) as [-> | Hbk].
    + rewrite !(bool_decide_eq_true_2 (k = k /\ k = k)) by (split; reflexivity).
      split; reflexivity.
    + rewrite (bool_decide_eq_false_2 (k = k /\ b = k)) by lia.
      rewrite (bool_decide_eq_false_2 (b = k /\ k = k)) by lia.
      rewrite (bool_decide_eq_true_2 (k = k /\ k = k)) by (split; reflexivity).
      rewrite (bool_decide_eq_true_2 (k = k /\ (b < k)%nat)) by lia.
      rewrite (bool_decide_eq_true_2 ((b < k)%nat /\ k = k)) by lia.
      rewrite orb_true_r. cbn [orb]. split; [apply orb_comm | reflexivity].
    + rewrite (bool_decide_eq_false_2 (a = k /\ k = k)) by lia.
      rewrite (bool_decide_eq_false_2 (k = k /\ a = k)) by lia.
      rewrite (bool_decide_eq_false_2 (a = k /\ a = k)) by lia.
      rewrite (bool_decide_eq_true_2 (k = k /\ (a < k)%nat)) by lia.
      rewrite (bool_decide_eq_true_2 ((a < k)%nat /\ k = k)) by lia.
      rewrite (bool_decide_eq_false_2 (a = k /\ (a < k)%nat)) by lia.
      rewrite (bool_decide_eq_false_2 ((a < k)%nat /\ a = k)) by lia.
      rewrite orb_true_r. cbn [orb].
      split; [apply orb_comm | apply (IH a a); lia].
    + rewrite !(bool_decide_eq_false_2 (_ = k /\ _)) by lia.
      rewrite !(bool_decide_eq_false_2 (_ /\ _ = k)) by lia.
      cbn [orb]. split; [apply (IH a b); lia | apply (IH a a); lia].
Qed.

Lemma length_MtmBuildConnectivityMatrix_rows nowait count :
  forall i w rows w',
    MtmBuildConnectivityMatrix_rows count i nowait w = Ok (Some rows) w' ->
    length rows = count.
Proof.
  induction count as [| count IH]; intros i w rows w' Hrun.
  - cbn in Hrun. injection Hrun as <- _. reflexivity.
  - cbn [MtmBuildConnectivityMatrix_rows] in Hrun.
    unfold mbind, M_bind, getMtm, mret, M_ret in Hrun.
    destruct (negb (i + 1 =? MtmNodeId)).
    + destruct (RaftableGet (raft w) (i + 1) nowait) as [mask |]; [| discriminate Hrun].
      destruct (MtmBuildConnectivityMatrix_rows count (i + 1) nowait _)
        as [[rest |] w1 | |] eqn:Hrest; try discriminate Hrun.
      cbn in Hrun. injection Hrun as <- _. cbn. f_equal. eapply IH. exact Hrest.
    + destruct (MtmBuildConnectivityMatrix_rows count (i + 1) nowait _)
        as [[rest |] w1 | |] eqn:Hrest; try discriminate Hrun.
      cbn in Hrun. injection Hrun as <- _. cbn. f_equal. eapply IH. exact Hrest.
Qed.

(** X13: the matrix [MtmBuildConnectivityMatrix] hands to the clique
    search is symmetric and has an empty diagonal, whatever the nodes
    reported: node [a+1] counts as disconnected from node [b+1] exactly
    when node [b+1] counts as disconnected from node [a+1], and no node
    is disconnected from itself. *)
Theorem MtmBuildConnectivityMatrix_symmetric (nowait : bool) (w w' : Backend)
    (matrix : list Z) (a b : nat) :
  MtmBuildConnectivityMatrix nowait w = Ok (Some matrix) w' ->
  0 <= nAllNodes (Mtm (shm w)) <= 64 ->
  (a < Z.to_nat (nAllNodes (Mtm (shm w))))%nat ->
  (b < Z.to_nat (nAllNodes (Mtm (shm w))))%nat ->
  matrix_bit matrix a b = matrix_bit matrix b a /\ matrix_bit matrix a a = false.
Proof.
  intros Hrun Hn Ha Hb.
  unfold MtmBuildConnectivityMatrix in Hrun.
  unfold mbind, M_bind, getMtm, mret, M_ret in Hrun.
  destruct (MtmBuildConnectivityMatrix_rows _ 0 nowait w) as [[rows |] w1 | |] eqn:Hrows;
    try discriminate Hrun.
  cbn in Hrun. injection Hrun as <- _.
  apply length_MtmBuildConnectivityMatrix_rows in Hrows.
  apply (symmetrize_rows_symmetric rows (Z.to_nat (nAllNodes (Mtm (shm w))))
           (Z.to_nat (nAllNodes (Mtm (shm w))))); lia.
Qed.
(** ** Garbage collection of transaction states *)

(** The table [tab'] is [tab] without some states of transactions that
    precede [xid]. *)
Definition older_removed (xid : Z) (tab tab' : gmap Z MtmTransState) : Prop :=
  forall k,
    tab' !! k = tab !! k
    \/ (tab' !! k = None
        /\ exists ts, tab !! k = Some ts /\ TransactionIdPrecedes (ts_xid ts) xid = true).

Definition gc_frame (xid : Z) (tab : gmap Z MtmTransState) (ox : Z) (w : Backend) : Prop :=
  oldestXid (Mtm (shm w)) = ox /\ older_removed xid tab (MtmXid2State (shm w)).

(** The state the scan has reached last is one of [tab] that precedes
    [xid]. *)
Definition reached (xid : Z) (tab : gmap Z MtmTransState) (prev : option Z) : Prop :=
  forall p, prev = Some p ->
            exists ts, tab !! p = Some ts /\ TransactionIdPrecedes (ts_xid ts) xid = true.

Lemma MtmAdjustOldestXid_scan_removes oldest xid tab ox l :
  forall prev w,
    gc_frame xid tab ox w -> reached xid tab prev ->
    returns (MtmAdjustOldestXid_scan oldest xid prev l) w
      (fun r w' => gc_frame xid tab ox w' /\ reached xid tab (fst r)).
Proof.
  induction l as [| y l IH]; intros prev w Hframe Hprev; cbn [MtmAdjustOldestXid_scan].
  - unfold returns, mret, M_ret. split; assumption.
  - apply returns_bind. unfold hash_find, returns at 1.
    destruct (MtmXid2State (shm w) !! y) as [ts |] eqn:Hy;
      [| unfold returns, mret, M_ret; split; assumption].
    destruct (_ && _) eqn:Hcond; [| unfold returns, mret, M_ret; split; assumption].
    apply andb_true_iff in Hcond. destruct Hcond as [_ Hprecedes].
    assert (tab !! y = Some ts) as Hy0.
    { destruct Hframe as [_ Hrem]. destruct (Hrem y) as [Heq | [Hnone _]]; congruence. }
    apply returns_bind.
    destruct prev as [p |].
    + unfold modXid2State, modify, returns at 1.
      apply IH.
      * destruct Hframe as [Hox Hrem]. split; [exact Hox |]. cbn.
        intros k. destruct (decide (k = p)) as [-> | Hne].
        -- right. rewrite lookup_delete_eq. split; [reflexivity |]. apply Hprev. reflexivity.
        -- rewrite lookup_delete_ne by congruence. apply Hrem.
      * intros p' [= <-]. exists ts. split; assumption.
    + unfold mret, M_ret, returns at 1. apply IH; [exact Hframe |].
      intros p' [= <-]. exists ts. split; assumption.
Qed.

Lemma MtmAdjustOldestXid_removes xid w :
  returns (MtmAdjustOldestXid xid) w
    (fun r w' =>
       older_removed xid (MtmXid2State (shm w)) (MtmXid2State (shm w'))
       /\ (r = xid
           \/ (r = oldestXid (Mtm (shm w))
               /\ TransactionIdPrecedes (oldestXid (Mtm (shm w))) xid = true)
           \/ exists ts, MtmXid2State (shm w) !! r = Some ts
                         /\ TransactionIdPrecedes (ts_xid ts) xid = true)).
Proof.
  set (tab := MtmXid2State (shm w)). set (ox := oldestXid (Mtm (shm w))).
  assert (gc_frame xid tab ox w) as Hstart by (split; [reflexivity | intros k; left; reflexivity]).
  unfold MtmAdjustOldestXid.
  apply returns_bind. unfold hash_find, returns at 1.
  apply returns_bind. unfold modMtm, modify, returns at 1.
  apply returns_bind.
  eapply (returns_mono _ _ (fun r w' => gc_frame xid tab ox w' /\ reached xid tab (fst r))).
  - intros scanned w2 [[Hox Hrem] Hreached]. cbv beta.
    apply returns_bind. unfold getMtm, returns at 1.
    destruct (fst scanned) as [prev |].
    + destruct (Hreached prev eq_refl) as (ts & Hts & Hprecedes).
      apply returns_bind. unfold modMtm, modify, returns at 1.
      destruct MtmUseDtm.
      * apply returns_bind. unfold modMtm, modify, returns at 1.
        unfold mret, M_ret, returns. cbn. split; [exact Hrem |].
        right. right. exists ts. split; assumption.
      * unfold mret, M_ret, returns. cbn. split; [exact Hrem |]. left. reflexivity.
    + rewrite Hox. destruct (MtmUseDtm && _) eqn:Hcond; unfold mret, M_ret, returns.
      * apply andb_true_iff in Hcond. destruct Hcond as [_ Hcond].
        split; [exact Hrem |]. right. left. split; [reflexivity | exact Hcond].
      * split; [exact Hrem |]. left. reflexivity.
  - destruct (MtmXid2State (shm w) !! xid) as [ts |].
    + apply returns_bind. unfold getMtm, returns at 1. cbv zeta.
      apply returns_bind.
      eapply (returns_mono _ _ (fun _ w' => gc_frame xid tab ox w')).
      2: { destruct (_ <? _).
           - unfold modNode, modMtm, modify, returns. destruct (0 <=? _); exact Hstart.
           - exact Hstart. }
      intros ? w1 Hframe. cbv beta.
      apply returns_bind. unfold getMtm, returns at 1.
      apply MtmAdjustOldestXid_scan_removes; [exact Hframe |].
      intros p [=].
    + unfold mret, M_ret, returns. split; [exact Hstart |]. intros p [=].
Qed.

(** Every state is stored under its own XID. *)
Definition keyed_by_xid (tab : gmap Z MtmTransState) : Prop :=
  forall k ts, tab !! k = Some ts -> ts_xid ts = k.

(** X15: garbage collection is conservative.  [MtmAdjustOldestXid(xid)]
    always returns; it removes from the table only states of transactions
    that precede [xid] and leaves every other state as it is; and the
    oldest XID it answers is [xid] itself or one that precedes it, so the
    horizon it reports is never newer than the one it was given. *)
Theorem MtmAdjustOldestXid_conservative (xid : Z) (w : Backend) :
  keyed_by_xid (MtmXid2State (shm w)) ->
  exists r w',
    MtmAdjustOldestXid xid w = Ok r w'
    /\ (r = xid \/ TransactionIdPrecedes r xid = true)
    /\ forall k ts,
        MtmXid2State (shm w) !! k = Some ts ->
        MtmXid2State (shm w') !! k = Some ts
        \/ (MtmXid2State (shm w') !! k = None /\ TransactionIdPrecedes k xid = true).
Proof.
  intros Hkeys.
  pose proof (MtmAdjustOldestXid_removes xid w) as Hrun.
  apply returns_ex in Hrun. destruct Hrun as (r & w' & Hrun & Hrem & Hr).
  exists r, w'. split; [exact Hrun |]. split.
  - destruct Hr as [Hr | [[-> Hr] | (ts & Hts & Hr)]].
    + left. exact Hr.
    + right. exact Hr.
    + right. rewrite (Hkeys r ts Hts) in Hr. exact Hr.
  - intros k ts Hts. destruct (Hrem k) as [Hsame | (Hnone & ts' & Hts' & Hprecedes)].
    + left. congruence.
    + right. split; [exact Hnone |].
      rewrite (Hkeys k ts' Hts') in Hprecedes. exact Hprecedes.
Qed.
(** ** The output side: further properties *)





(** X25: the choice of the transfer format respects what the receiver
    allows and what is safe.  The answer is one of 'b', 's' and 't'; the
    internal format 'b' is chosen only when internal basetypes are
    allowed and send/recv 's' only when binary basetypes are allowed and
    the type has a receive function; and a type that is not built in and
    is composite or has an element type (an array) always goes as text,
    whatever is allowed. *)
Theorem decide_datum_transfer_respects (att : Form_pg_attribute) (typclass : Form_pg_type)
    (allow_internal allow_binary : bool) :
  let t := decide_datum_transfer att typclass allow_internal allow_binary in
  (t = "b"%char \/ t = "s"%char \/ t = "t"%char)
  /\ (t = "b"%char -> allow_internal = true)
  /\ (t = "s"%char -> allow_binary = true /\ typreceive typclass <> InvalidOid)
  /\ (FirstNormalObjectId <= atttypid att ->
      typtype typclass = "c"%char \/ typelem typclass <> InvalidOid ->
      t = "t"%char).
Proof.
  cbv zeta. unfold decide_datum_transfer.
  destruct allow_internal, allow_binary; cbn [andb];
    destruct (bool_decide (typtype typclass = "b"%char)) eqn:Hb; cbn [andb];
    destruct (Z.ltb_spec (atttypid att) FirstNormalObjectId) as [Hlt | Hge]; cbn [andb orb];
    destruct (Z.eqb_spec (typelem typclass) InvalidOid) as [Helem | Helem]; cbn [andb orb negb];
    destruct (Z.eqb_spec (typreceive typclass) InvalidOid) as [Hrecv | Hrecv]; cbn [andb negb];
    destruct (bool_decide (typtype typclass = "c"%char)) eqn:Hc; cbn [andb negb];
    repeat split; auto; try discriminate; try lia;
    try (intros _ [Hcomposite | Harray];
         [apply bool_decide_eq_false in Hc; contradiction | contradiction]);
    try (intros _ [Hcomposite | Harray];
         [rewrite Hcomposite in Hb; apply bool_decide_eq_true in Hb; discriminate
         | contradiction]).
Qed.

(** The attributes of [rel] that are not dropped, with their values. *)
Definition live_attrs (atts : list Form_pg_attribute) (values : list Datum)
  : list (Form_pg_attribute * Datum) :=
  filter (fun p => attisdropped (fst p) = false) (zip atts values).

Lemma bind_ext {A B : Type} (c : M A) (k1 k2 : A -> M B) w :
  (forall a w1, k1 a w1 = k2 a w1) -> (c ≫= k1) w = (c ≫= k2) w.
Proof. intros Hk. unfold mbind, M_bind. destruct (c w); [apply Hk | reflexivity | reflexivity]. Qed.

Lemma pglogical_write_attrs_live data atts :
  forall values w,
    pglogical_write_attrs data atts values w =
    pglogical_write_attrs data (fst <$> live_attrs atts values)
      (snd <$> live_attrs atts values) w.
Proof.
  induction atts as [| att atts IH]; intros values w; [reflexivity |].
  destruct values as [| v values]; [reflexivity |].
  unfold live_attrs. cbn [zip zip_with]. rewrite filter_cons. cbn [fst].
  destruct (decide (attisdropped att = false)) as [Hlive | Hdropped].
  - cbn [fmap list_fmap fst snd pglogical_write_attrs].
    apply bind_ext. intros _ w1. apply IH.
  - cbn [pglogical_write_attrs]. apply not_false_is_true in Hdropped. rewrite Hdropped.
    unfold mbind, M_bind at 1. cbn. apply IH.
Qed.

Lemma filter_live_idemp (atts : list Form_pg_attribute) :
  filter (fun att => attisdropped att = false) (filter (fun att => attisdropped att = false) atts)
  = filter (fun att => attisdropped att = false) atts.
Proof.
  induction atts as [| att atts IH]; [reflexivity |].
  rewrite filter_cons. destruct (decide (attisdropped att = false)) as [Hl | Hd].
  - rewrite filter_cons. destruct (decide (attisdropped att = false)); [| contradiction].
    rewrite IH. reflexivity.
  - exact IH.
Qed.

(** X26: dropped attributes are invisible on the wire.  The tuple record
    of a relation is the record of the relation with its dropped
    attributes, and their values, taken out: the same count of
    attributes is announced and the same bytes follow. *)
Theorem pglogical_write_tuple_skips_dropped (data : PGLogicalOutputData) (rel : Relation)
    (tuple : HeapTuple) (w : Backend) :
  length tuple = length (attrs rel) ->
  pglogical_write_tuple data rel tuple w =
  pglogical_write_tuple data
    {| relnamespace := relnamespace rel; namespace_name := namespace_name rel;
       relname := relname rel; attrs := fst <$> live_attrs (attrs rel) tuple |}
    (snd <$> live_attrs (attrs rel) tuple) w.
Proof.
  intros Hlen. unfold pglogical_write_tuple. cbn [attrs].
  assert (fst <$> live_attrs (attrs rel) tuple
          = filter (fun att => attisdropped att = false) (attrs rel)) as Hlive.
  { unfold live_attrs. revert tuple Hlen.
    induction (attrs rel) as [| att atts IH]; intros tuple Hlen; [reflexivity |].
    destruct tuple as [| v tuple]; [discriminate Hlen |].
    cbn [zip zip_with]. rewrite !filter_cons. cbn [fst].
    destruct (decide (attisdropped att = false)); cbn [fmap list_fmap fst];
      rewrite IH by (cbn in Hlen; lia); reflexivity. }
  assert (filter (fun att => attisdropped att = false) (fst <$> live_attrs (attrs rel) tuple)
          = filter (fun att => attisdropped att = false) (attrs rel)) as ->.
  { rewrite Hlive. apply filter_live_idemp. }
  apply bind_ext. intros _ w1. apply bind_ext. intros _ w2.
  apply pglogical_write_attrs_live.
Qed.
(** ** Global transaction statuses *)

(** The exchanges of the statuses [l] for [gid], one after the other,
    with the statuses they answer. *)
Fixpoint MtmExchangeGlobalTransactionStatus_all (gid : string) (l : list XidStatus)
  : M (list XidStatus) :=
  match l with
  | [] => mret []
  | s :: l' =>
      old ← MtmExchangeGlobalTransactionStatus gid s;
      olds ← MtmExchangeGlobalTransactionStatus_all gid l';
      mret (old :: olds)
  end.

(** X18: an aborted global transaction stays aborted.  Once the status
    recorded for a GID is aborted, no exchange replaces it: every
    exchange answers aborted and leaves aborted behind, whatever status
    it offers. *)
Theorem MtmExchangeGlobalTransactionStatus_aborted_sticks (gid : string) (l : list XidStatus)
    (w : Backend) :
  tm_status <$> MtmGid2State (shm w) !! gid = Some TRANSACTION_STATUS_ABORTED ->
  exists w',
    MtmExchangeGlobalTransactionStatus_all gid l w
    = Ok (replicate (length l) TRANSACTION_STATUS_ABORTED) w'
    /\ MtmGid2State (shm w') = MtmGid2State (shm w).
Proof.
  revert w. induction l as [| s l IH]; intros w Haborted.
  - exists w. split; reflexivity.
  - cbn [MtmExchangeGlobalTransactionStatus_all length replicate].
    destruct (MtmGid2State (shm w) !! gid) as [tm |] eqn:Htm; [| discriminate Haborted].
    cbn in Haborted. injection Haborted as Haborted.
    assert (MtmExchangeGlobalTransactionStatus gid s w
            = Ok TRANSACTION_STATUS_ABORTED
                (set_trace (trace w ++ [EvLock LW_EXCLUSIVE; EvUnlock]) w)) as Hone.
    { unfold MtmExchangeGlobalTransactionStatus, MtmLock, MtmUnlock. munfold.
      rewrite Htm. rewrite bool_decide_eq_true_2 by exact Haborted. cbn.
      rewrite Haborted. f_equal. backend_eq. }
    destruct (IH (set_trace (trace w ++ [EvLock LW_EXCLUSIVE; EvUnlock]) w))
      as (w' & Hrest & Htab).
    { cbn. rewrite Htm. cbn. rewrite Haborted. reflexivity. }
    exists w'. split; [| exact Htab].
    unfold mbind, M_bind at 1. rewrite Hone.
    unfold mbind, M_bind at 1. rewrite Hrest. reflexivity.
Qed.

(** ** The horizon of the garbage collector *)

(** X16: the horizon [MtmGetOldestXmin] answers is the host's or an
    older one, never a newer one; the call always returns, and with the
    lock released. *)
Theorem MtmGetOldestXmin_conservative (w : Backend) :
  keyed_by_xid (MtmXid2State (shm w)) ->
  exists r w',
    MtmGetOldestXmin w = Ok r w'
    /\ (r = PgGetOldestXmin (pg w) \/ TransactionIdPrecedes r (PgGetOldestXmin (pg w)) = true)
    /\ exists tr, trace w' = trace w ++ tr /\ locks false tr = Some false.
Proof.
  intros Hkeys. unfold MtmGetOldestXmin, get. unfold mbind, M_bind at 1.
  destruct (TransactionIdIsValid (PgGetOldestXmin (pg w))).
  - pose proof (MtmAdjustOldestXid_removes (PgGetOldestXmin (pg w))
                  (set_trace (trace w ++ [EvLock LW_EXCLUSIVE]) w)) as Hrun.
    pose proof (begin_frame_MtmAdjustOldestXid
                  (status (Mtm (shm w))) (csn (Mtm (shm w))) (timeShift (Mtm (shm w)))
                  (MtmTx w) (pg w) (trace w ++ [EvLock LW_EXCLUSIVE]) (clk w)
                  (PgGetOldestXmin (pg w))
                  (set_trace (trace w ++ [EvLock LW_EXCLUSIVE]) w)) as Hframe.
    pose proof (returns_and _ _ _ _ Hrun (Hframe ltac:(unfold begin_frame; repeat split)))
      as Hboth.
    apply returns_ex in Hboth.
    destruct Hboth as (r & w1 & Hadjust & (_ & Hr) & (_ & _ & _ & _ & _ & Htr & _)).
    cbn [shm set_trace] in Hr.
    exists r. eexists. split; [| split].
    + unfold MtmLock, MtmUnlock, emit, modify. unfold mbind, M_bind at 1.
      unfold mbind, M_bind at 1. rewrite Hadjust. unfold mbind, M_bind. reflexivity.
    + destruct Hr as [Hr | [[-> Hr] | (ts & Hts & Hr)]].
      * left. exact Hr.
      * right. exact Hr.
      * right. rewrite (Hkeys r ts Hts) in Hr. exact Hr.
    + exists [EvLock LW_EXCLUSIVE; EvUnlock]. cbn. rewrite Htr, <- app_assoc.
      split; reflexivity.
  - exists (PgGetOldestXmin (pg w)), w. split; [reflexivity |]. split; [left; reflexivity |].
    exists []. rewrite app_nil_r. split; reflexivity.
Qed.

(** ** Aborting a prepared transaction *)

(** What [MtmAbortTransaction] leaves alone. *)
Definition abort_frame (x : MtmCurrentTrans) (g : gmap string MtmTransMap) (s : MtmNodeStatus)
    (tr : list Event) (w : Backend) : Prop :=
  MtmTx w = x /\ MtmGid2State (shm w) = g /\ status (Mtm (shm w)) = s /\ trace w = tr.

Lemma abort_frame_MtmAbortTransaction x g s tr xid :
  keeps (abort_frame x g s tr) (MtmAbortTransaction xid).
Proof.
  unfold MtmAbortTransaction, MtmAdjustSubtransactions.
  keeps_steps; membership_prims; keeps_steps;
    intros w H; unfold returns, abort_frame in H |- *; cbn; exact H.
Qed.

(** X23: [MtmAbortPreparedTransaction] outside recovery aborts the state
    the GID stands for, forgets the GID and marks the transaction of the
    backend aborted; called again, it changes nothing. *)
Theorem MtmAbortPreparedTransaction_once (w : Backend) (tm : MtmTransMap) (xid : Z)
    (ts : MtmTransState) :
  status (Mtm (shm w)) <> MTM_RECOVERY ->
  x_status (MtmTx w) <> TRANSACTION_STATUS_ABORTED ->
  MtmGid2State (shm w) !! x_gid (MtmTx w) = Some tm ->
  tm_state tm = Some xid ->
  MtmXid2State (shm w) !! xid = Some ts ->
  exists w1,
    MtmAbortPreparedTransaction w = Ok tt w1
    /\ x_status (MtmTx w1) = TRANSACTION_STATUS_ABORTED
    /\ MtmGid2State (shm w1) !! x_gid (MtmTx w) = None
    /\ ts_status <$> MtmXid2State (shm w1) !! xid = Some TRANSACTION_STATUS_ABORTED
    /\ MtmAbortPreparedTransaction w1 = Ok tt w1.
Proof.
  intros Hstatus Hx Htm Hstate Hts.
  apply (returns_unit _ _ (fun _ w1 =>
    x_status (MtmTx w1) = TRANSACTION_STATUS_ABORTED
    /\ MtmGid2State (shm w1) !! x_gid (MtmTx w) = None
    /\ ts_status <$> MtmXid2State (shm w1) !! xid = Some TRANSACTION_STATUS_ABORTED
    /\ MtmAbortPreparedTransaction w1 = Ok tt w1)).
  unfold MtmAbortPreparedTransaction at 1.
  apply returns_bind. unfold getMtm, returns at 1.
  rewrite bool_decide_eq_false_2 by exact Hstatus.
  apply returns_bind. unfold getTx, returns at 1.
  rewrite bool_decide_eq_false_2 by exact Hx. cbn [negb].
  apply returns_bind. unfold MtmLock, emit, modify, returns at 1.
  apply returns_bind. unfold get, returns at 1. cbv zeta.
  apply returns_bind. unfold modGid2State, modify, returns at 1.
  cbn [shm set_trace]. rewrite Htm. cbn [mbind option_bind]. rewrite Hstate.
  apply returns_bind.
  remember (set_shm _ _) as w0 eqn:Hw0.
  assert (MtmXid2State (shm w0) !! xid = Some ts) as Hts0 by (subst w0; exact Hts).
  assert (MtmGid2State (shm w0) !! x_gid (MtmTx w) = None) as Hgone
      by (subst w0; cbn; apply lookup_delete_eq).
  clear Hw0.
  assert (returns (MtmAbortTransaction xid) w0 (fun _ w' =>
            ts_status <$> MtmXid2State (shm w') !! xid = Some TRANSACTION_STATUS_ABORTED))
    as Haborts.
  { destruct (decide (ts_status ts = TRANSACTION_STATUS_ABORTED)) as [Hab | Hab].
    - unfold returns, MtmAbortTransaction, hash_find, mbind, M_bind. rewrite Hts0.
      rewrite bool_decide_eq_true_2 by exact Hab. cbn [negb]. unfold mret, M_ret.
      rewrite Hts0. cbn. congruence.
    - eapply returns_mono; [| apply (MtmAbortTransaction_aborts xid ts w0 Hts0 Hab)].
      intros ? w' (Hres & _). exact Hres. }
  pose proof (abort_frame_MtmAbortTransaction (MtmTx w0) (MtmGid2State (shm w0))
                (status (Mtm (shm w0))) (trace w0) xid w0
                ltac:(unfold abort_frame; repeat split)) as Hframe.
  eapply returns_mono; [| exact (returns_and _ _ _ _ Haborts Hframe)].
  intros ? w2 (Hab & Hx2 & Hg2 & Hs2 & Htr2). cbv beta.
  apply returns_bind. unfold MtmUnlock, emit, modify, returns at 1.
  unfold modTx, modify, returns. cbn.
  split; [reflexivity |]. split; [rewrite Hg2; exact Hgone |].
  split; [exact Hab |].
  unfold MtmAbortPreparedTransaction, getMtm, getTx. munfold.
  destruct (bool_decide (status (Mtm (shm w2)) = MTM_RECOVERY)); reflexivity.
Qed.
(** ** The end of recovery *)

Lemma lookup_alter_upto {A : Type} (f : A -> A) (n : nat) (l : list A) (j : nat) :
  foldl (fun nds i => alter f i nds) l (seq 0 n) !! j =
  if decide (j < n)%nat then f <$> l !! j else l !! j.
Proof.
  induction n as [| n IH].
  - destruct (decide (j < 0)%nat); [lia | reflexivity].
  - rewrite seq_S, foldl_snoc. cbn [Nat.add].
    destruct (decide (j = n)) as [-> | Hne].
    + rewrite list_lookup_alter_eq, IH.
      destruct (decide (n < n)%nat); [lia |].
      destruct (decide (n < S n)%nat); [reflexivity | lia].
    + rewrite list_lookup_alter_ne by congruence. rewrite IH.
      destruct (decide (j < n)%nat), (decide (j < S n)%nat); try lia; reflexivity.
Qed.

(** A watchdog that sees no recorded heartbeat does nothing. *)
Lemma MtmWatchdog_loop_quiet now count :
  forall i alive w,
    (forall j, i <= j < i + Z.of_nat count -> lastHeartbeat (node (Mtm (shm w)) j) = 0) ->
    MtmWatchdog_loop count i now alive w = Ok alive w.
Proof.
  induction count as [| count IH]; intros i alive w Hzero; [reflexivity |].
  cbn [MtmWatchdog_loop]. unfold getMtm. unfold mbind, M_bind at 1. cbv zeta.
  rewrite (Hzero i) by lia. rewrite Z.eqb_refl. cbn [negb]. rewrite andb_false_r. cbn [andb].
  apply IH. intros j Hj. apply Hzero. lia.
Qed.

(** X20: when recovery completes the node is enabled again and
    connected, and every heartbeat is forgotten: the watchdog that runs
    next, at whatever time, finds all nodes alive and changes nothing. *)
Theorem MtmRecoveryCompleted_defuses (w : Backend) :
  0 < MtmNodeId <= 64 ->
  exists w1,
    MtmRecoveryCompleted w = Ok tt w1
    /\ status (Mtm (shm w1)) = MTM_CONNECTED
    /\ BIT_CHECK (disabledNodeMask (Mtm (shm w1))) (MtmNodeId - 1) = false
    /\ forall now, MtmWatchdog now w1 = Ok true w1.
Proof.
  intros Hid.
  unfold MtmRecoveryCompleted, MtmLock, MtmUnlock, MtmGetSystemTime, modNode,
    MtmSwitchClusterMode.
  open_backend w. flat.
  eexists. split; [reflexivity |]. flat.
  split; [reflexivity |]. split; [apply BIT_CHECK_BIT_CLEAR; lia |].
  intros now. unfold MtmWatchdog, getMtm. unfold mbind, M_bind at 1. flat.
  apply MtmWatchdog_loop_quiet. intros j Hj. flat.
  unfold node. flat.
  destruct (0 <=? j); [| reflexivity].
  rewrite lookup_alter_upto.
  destruct (decide _); [| lia].
  destruct (0 <=? MtmNodeId - 1).
  - flat. destruct (decide (Z.to_nat (MtmNodeId - 1) = Z.to_nat j)) as [<- | Hne].
    + rewrite list_lookup_alter_eq. destruct (_ !! _); reflexivity.
    + rewrite list_lookup_alter_ne by exact Hne. destruct (_ !! _); reflexivity.
  - destruct (_ !! _); reflexivity.
Qed.
(** ** The cluster lock *)

(** [w] with [walSenderLockerMask] replaced. *)
Definition with_walSenderLockerMask (x : Z) (w : Backend) : Backend :=
  set_shm (set_Mtm (set_walSenderLockerMask x (Mtm (shm w))) (shm w)) w.

Lemma land_1_testbit mask : negb (Z.land mask 1 =? 0) = Z.testbit mask 0.
Proof.
  change 1 with (Z.ones 1). rewrite Z.land_ones by lia. change (2 ^ 1) with 2.
  pose proof (Z.bit0_mod mask) as Hmod.
  destruct (Z.testbit mask 0); cbn in Hmod; rewrite <- Hmod; reflexivity.
Qed.

(** The scan over WAL-senders that all have sent the whole log releases
    the locks of all of them. *)
Lemma MtmCheckClusterLock_scan_releases pos fuel :
  forall j mask w,
    0 <= j -> j + Z.of_nat fuel <= 64 ->
    0 <= mask < 2 ^ Z.of_nat fuel ->
    (forall c, 0 <= c -> Z.testbit mask c = true -> sentPtr (shm w) (j + c) = pos) ->
    exists x,
      MtmCheckClusterLock_scan fuel j mask pos w = Ok 0 (with_walSenderLockerMask x w)
      /\ (forall c, 0 <= c < 64 ->
                     Z.testbit x c =
                     Z.testbit (walSenderLockerMask (Mtm (shm w))) c
                     && negb ((j <=? c) && Z.testbit mask (c - j)))
      /\ (forall c, 0 <= c -> Z.testbit x c = true ->
                     Z.testbit (walSenderLockerMask (Mtm (shm w))) c = true).
Proof.
  induction fuel as [| fuel IH]; intros j mask w Hj Hfuel Hmask Hsent.
  - assert (mask = 0) as -> by (cbn in Hmask; lia).
    exists (walSenderLockerMask (Mtm (shm w))). split.
    + cbn. f_equal. open_backend w. reflexivity.
    + split; [| intros c _ Hset; exact Hset].
      intros c Hc. rewrite Z.bits_0, andb_false_r. cbn. rewrite andb_true_r. reflexivity.
  - cbn [MtmCheckClusterLock_scan]. destruct (Z.eqb_spec mask 0) as [-> | Hne].
    { exists (walSenderLockerMask (Mtm (shm w))). split.
      - cbn. f_equal. open_backend w. reflexivity.
      - split; [| intros c _ Hset; exact Hset].
        intros c Hc. rewrite Z.bits_0, andb_false_r. cbn. rewrite andb_true_r. reflexivity. }
    assert (Hshift : 0 <= Z.shiftr mask 1 < 2 ^ Z.of_nat fuel).
    { rewrite Z.shiftr_div_pow2 by lia. change (2 ^ 1) with 2.
      rewrite Nat2Z.inj_succ, Z.pow_succ_r in Hmask by lia.
      split; [apply Z.div_pos; lia | apply Z.div_lt_upper_bound; lia]. }
    rewrite land_1_testbit. destruct (Z.testbit mask 0) eqn:Hbit0.
    + unfold get. unfold mbind, M_bind at 1.
      assert (sentPtr (shm w) j = pos) as Hpos.
      { replace j with (j + 0) by lia. apply Hsent; [lia | exact Hbit0]. }
      rewrite Hpos, Z.eqb_refl. cbn [negb].
      unfold modMtm, modify. unfold mbind, M_bind at 1.
      destruct (IH (j + 1) (Z.shiftr mask 1)
                  (with_walSenderLockerMask (BIT_CLEAR (walSenderLockerMask (Mtm (shm w))) j) w))
        as (x & Hrun & Hbits & Hsub); [lia | lia | exact Hshift | |].
      { intros c Hc Hset. rewrite Z.shiftr_spec in Hset by lia.
        replace (j + 1 + c) with (j + (c + 1)) by lia.
        unfold with_walSenderLockerMask. cbn. apply Hsent; [lia | exact Hset]. }
      assert (forall c, 0 <= c -> Z.testbit x c = true ->
                        Z.testbit (walSenderLockerMask (Mtm (shm w))) c = true) as Hsub'.
      { intros c Hc Hset. apply Hsub in Hset; [| exact Hc].
        unfold with_walSenderLockerMask in Hset. cbn in Hset.
        unfold BIT_CLEAR in Hset. rewrite Z.land_spec in Hset.
        apply andb_true_iff in Hset. destruct Hset as [Hset _]. exact Hset. }
      exists x. split; [| split; [| exact Hsub']].
      * unfold with_walSenderLockerMask in Hrun |- *. cbn in Hrun. rewrite Hrun. reflexivity.
      * intros c Hc. rewrite Hbits by exact Hc.
        unfold with_walSenderLockerMask. cbn.
        rewrite testbit_BIT_CLEAR by lia.
        destruct (Z.leb_spec (j + 1) c) as [Hle | Hgt]; cbn [andb negb].
        -- rewrite Z.shiftr_spec by lia. replace (c - (j + 1) + 1) with (c - j) by lia.
           assert ((j <=? c) = true) as -> by (apply Z.leb_le; lia).
           assert ((c =? j) = false) as -> by (apply Z.eqb_neq; lia).
           cbn [andb negb]. rewrite andb_true_r. reflexivity.
        -- rewrite andb_true_r. destruct (Z.eqb_spec c j) as [-> | Hcj].
           ++ rewrite Z.sub_diag, Hbit0, Z.leb_refl. reflexivity.
           ++ destruct (Z.leb_spec j c) as [Hle | Hlt]; [lia |]. reflexivity.
    + destruct (IH (j + 1) (Z.shiftr mask 1) w) as (x & Hrun & Hbits & Hsub);
        [lia | lia | exact Hshift | |].
      { intros c Hc Hset. rewrite Z.shiftr_spec in Hset by lia.
        replace (j + 1 + c) with (j + (c + 1)) by lia. apply Hsent; [lia | exact Hset]. }
      exists x. split; [exact Hrun |]. split; [| exact Hsub].
      intros c Hc. rewrite Hbits by exact Hc.
      destruct (Z.leb_spec (j + 1) c) as [Hle | Hgt]; cbn [andb negb].
      * rewrite Z.shiftr_spec by lia. replace (c - (j + 1) + 1) with (c - j) by lia.
        assert ((j <=? c) = true) as -> by (apply Z.leb_le; lia). reflexivity.
      * destruct (Z.eqb_spec c j) as [-> | Hcj].
        -- rewrite Z.sub_diag, Hbit0, Z.leb_refl. reflexivity.
        -- destruct (Z.leb_spec j c) as [Hle | Hlt]; [lia |]. reflexivity.
Qed.

Lemma uint64_high_bits x c : uint64 x -> 64 <= c -> Z.testbit x c = false.
Proof.
  intros [Hlo Hhi] Hc. destruct (Z.eq_dec x 0) as [-> | Hnz]; [apply Z.bits_0 |].
  apply Z.bits_above_log2; [lia |].
  apply Z.log2_lt_pow2; [lia |]. unfold UINT64_MAX in Hhi.
  assert (2 ^ 64 <= 2 ^ c) by (apply Z.pow_le_mono_r; lia). lia.
Qed.

(** X21: the cluster lock is released when the recovering nodes have
    caught up.  With no transaction active and every WAL-sender that
    holds the lock at the end of the log, [MtmCheckClusterLock] returns
    without sleeping: no WAL-sender and no node holds the lock any more,
    the nodes that held it are enabled and counted as live, and the
    quorum has been checked. *)
Theorem MtmCheckClusterLock_releases (fuel : nat) (w : Backend) :
  let m := Mtm (shm w) in
  uint64 (walSenderLockerMask m) ->
  walSenderLockerMask m <> 0 ->
  nActiveTransactions m = 0 ->
  (forall i, 0 <= i -> Z.testbit (walSenderLockerMask m) i = true ->
             sentPtr (shm w) i = XLogInsertRecPtr (shm w)) ->
  exists w',
    MtmCheckClusterLock (S fuel) w = Ok tt w'
    /\ walSenderLockerMask (Mtm (shm w')) = 0
    /\ nodeLockerMask (Mtm (shm w')) = 0
    /\ nLockers (Mtm (shm w')) = 0
    /\ disabledNodeMask (Mtm (shm w')) = Z.land (disabledNodeMask m) (not64 (nodeLockerMask m))
    /\ nLiveNodes (Mtm (shm w')) = nLiveNodes m + nLockers m
    /\ nConfigChanges (Mtm (shm w')) = nConfigChanges m + 1
    /\ susp w' = susp w.
Proof.
  intros m Hrange Hlocked Hidle Hsent. subst m.
  destruct (MtmCheckClusterLock_scan_releases (XLogInsertRecPtr (shm w)) 64 0
              (walSenderLockerMask (Mtm (shm w))) w) as (x & Hscan & Hbits & Hsub).
  { lia. }
  { lia. }
  { destruct Hrange as [Hlo Hhi]. unfold UINT64_MAX in Hhi.
    change (Z.of_nat 64) with 64. lia. }
  { intros c Hc Hset. apply Hsent; [lia | exact Hset]. }
  assert (x = 0) as ->.
  { apply Z.bits_inj'. intros c Hc. rewrite Z.bits_0.
    destruct (Z.lt_ge_cases c 64) as [Hlt | Hge].
    - rewrite Hbits by lia. rewrite Z.sub_0_r.
      assert ((0 <=? c) = true) as -> by (apply Z.leb_le; lia).
      destruct (Z.testbit _ c); reflexivity.
    - destruct (Z.testbit x c) eqn:Hset; [| reflexivity].
      apply Hsub in Hset; [| exact Hc].
      rewrite uint64_high_bits in Hset by assumption. discriminate Hset. }
  unfold MtmCheckClusterLock. cbn [MtmCheckClusterLock_loop].
  unfold getMtm. unfold mbind, M_bind at 1.
  apply Z.eqb_neq in Hlocked. rewrite Hlocked. cbn [negb].
  rewrite Hidle. cbn [Z.eqb].
  unfold GetXLogInsertRecPtr. unfold mbind, M_bind at 1. unfold mbind, M_bind at 1.
  rewrite Hscan. cbn [Z.eqb negb].
  unfold with_walSenderLockerMask, MtmCheckQuorum, MtmSwitchClusterMode.
  open_backend w. flat.
  destruct (_ <? _); destruct (bool_decide _);
    cbn; eexists; (split; [reflexivity |]); cbn; repeat split.
Qed.
(** ** Joining a replicated transaction *)

(** What [MtmSyncClock] leaves alone. *)
Lemma MtmSyncClock_frame fuel global_csn :
  forall w r w',
    MtmSyncClock fuel global_csn w = Ok r w' ->
    MtmTx w' = MtmTx w
    /\ status (Mtm (shm w')) = status (Mtm (shm w))
    /\ MtmXid2State (shm w') = MtmXid2State (shm w)
    /\ trace w' = trace w.
Proof.
  induction fuel as [| fuel IH]; intros w r w' Hrun; [discriminate |].
  cbn [MtmSyncClock] in Hrun. unfold mbind, M_bind at 1 in Hrun.
  rewrite MtmAssignCSN_eq in Hrun. cbv beta iota zeta in Hrun.
  match type of Hrun with context [assigned ?c0 w] => set (c := c0) in * end.
  destruct (c <? global_csn).
  - munfold_in Hrun. apply IH in Hrun. cbn in Hrun. exact Hrun.
  - unfold mret, M_ret in Hrun. injection Hrun as _ <-. cbn. repeat split.
Qed.

(** X24: a transaction joined from another node runs under the snapshot
    of its coordinator and is not replicated onward.  On an online node
    [MtmJoinTransaction] with a valid snapshot and a normal global XID
    returns; the clock of the node has caught up with the snapshot, so
    every CSN assigned later is newer; the transaction is marked
    replicated and distributed; and the state created for it is local,
    so the snapshot under which the output side would replicate it is
    the invalid one. *)
Theorem MtmJoinTransaction_joins (fuel : nat) (xid : Z) (gtid : GlobalTransactionId)
    (globalSnapshot : Z) (w : Backend) :
  globalSnapshot <> INVALID_CSN ->
  TransactionIdIsValid (gtid_xid gtid) = true ->
  status (Mtm (shm w)) = MTM_ONLINE ->
  0 <= csn (Mtm (shm w)) < UINT64_MAX ->
  globalSnapshot <= UINT64_MAX ->
  (Z.to_nat (globalSnapshot - csn (Mtm (shm w))) < fuel)%nat ->
  exists w',
    MtmJoinTransaction fuel xid gtid globalSnapshot w = Ok tt w'
    /\ x_snapshot (MtmTx w') = globalSnapshot
    /\ globalSnapshot <= csn (Mtm (shm w'))
    /\ csn (Mtm (shm w)) < csn (Mtm (shm w'))
    /\ x_isReplicated (MtmTx w') = true
    /\ x_isDistributed (MtmTx w') = true
    /\ (exists ts,
          MtmXid2State (shm w') !! xid = Some ts
          /\ ts_snapshot ts = globalSnapshot
          /\ ts_gtid ts = gtid
          /\ ts_status ts = TRANSACTION_STATUS_IN_PROGRESS)
    /\ replicated_snapshot (shm w') xid = INVALID_CSN.
Proof.
  intros Hvalid Hxid Honline Hcsn Hglobal Hfuel.
  apply (returns_unit _ _ (fun _ w' =>
    x_snapshot (MtmTx w') = globalSnapshot
    /\ globalSnapshot <= csn (Mtm (shm w'))
    /\ csn (Mtm (shm w)) < csn (Mtm (shm w'))
    /\ x_isReplicated (MtmTx w') = true
    /\ x_isDistributed (MtmTx w') = true
    /\ (exists ts,
          MtmXid2State (shm w') !! xid = Some ts
          /\ ts_snapshot ts = globalSnapshot
          /\ ts_gtid ts = gtid
          /\ ts_status ts = TRANSACTION_STATUS_IN_PROGRESS)
    /\ replicated_snapshot (shm w') xid = INVALID_CSN)).
  unfold MtmJoinTransaction.
  do 5 (apply returns_bind; unfold modTx, modify, returns at 1).
  set (x1 := set_x_containsDML true
               (set_x_isDistributed true
                  (set_x_isReplicated true (set_x_xid xid (set_x_gtid gtid (MtmTx w)))))).
  match goal with
  | |- returns ?c _ ?Q => change (returns c (set_MtmTx x1 w) Q)
  end.
  apply Z.eqb_neq in Hvalid. rewrite Hvalid, Hxid. cbn [negb].
  apply returns_bind. apply returns_bind. unfold MtmLock, emit, modify, returns at 1.
  apply returns_bind.
  destruct (MtmSyncClock_run fuel globalSnapshot
              (set_trace (trace (set_MtmTx x1 w) ++ [EvLock LW_EXCLUSIVE]) (set_MtmTx x1 w)))
    as (r & w2 & Hsync & Hlt & _); [exact Hcsn | exact Hglobal | exact Hfuel |].
  destruct (MtmSyncClock_post _ _ _ _ _ Hsync) as [Hge Hrec].
  destruct (MtmSyncClock_frame _ _ _ _ _ Hsync) as (Hx2 & Hst2 & Htab2 & _).
  cbn in Hlt, Hx2, Hst2, Htab2.
  unfold returns at 1. rewrite Hsync.
  unfold MtmCreateTransState, MtmUnlock, returns.
  open_backend w2. open_backend w. subst. flat.
  repeat (rewrite bool_decide_eq_false_2 by discriminate; flat).
  unfold x1.
  cbn [x_gtid x_xid x_snapshot x_isReplicated x_isDistributed set_x_snapshot
       set_x_containsDML set_x_isDistributed set_x_isReplicated set_x_xid set_x_gtid].
  rewrite Hxid. flat.
  split; [reflexivity |]. split; [exact Hge |]. split; [exact Hlt |].
  split; [reflexivity |]. split; [reflexivity |].
  split.
  - eexists. split; [apply lookup_insert_eq |].
    destruct (_ !! xid); repeat split.
  - unfold replicated_snapshot. flat.
    rewrite bool_decide_eq_true_2 by reflexivity. rewrite lookup_insert_eq.
    destruct (_ !! xid); reflexivity.
Qed.
(** ** The vote: the other ways out of [MtmPostPrepareTransaction] *)

(** The votes are incomplete and the clock is within the deadline at each
    of the next [k] looks. *)
Fixpoint votes_pending (k : nat) (xid cfg deadline : Z) (t n : nat) (s : Shared) : Prop :=
  match k with
  | O => True
  | S k' => awaiting_votes xid cfg s
            /\ wrap64 (gettimeofday t) <= deadline
            /\ votes_pending k' xid cfg deadline (S t) (S n) (concurrent n s)
  end.

(** The loop waits [k] times and goes on from the backend the waits
    leave. *)
Lemma MtmPostPrepareTransaction_wait_pending xid timeout cfg start (Q : unit -> Backend -> Prop) k :
  forall fuel w,
    votes_pending k xid cfg (wrap64 (start + timeout)) (clk w) (susp w) (shm w) ->
    (forall w', after_vote_waits k w w' ->
                returns (MtmPostPrepareTransaction_wait fuel xid timeout cfg start) w' Q) ->
    returns (MtmPostPrepareTransaction_wait (k + fuel) xid timeout cfg start) w Q.
Proof.
  induction k as [| k IH]; intros fuel w Hvotes Hrest.
  - apply Hrest. unfold after_vote_waits. cbn. rewrite app_nil_r. repeat split.
  - destruct Hvotes as ((ts & Hts & Hvote & Hst & Hcfg & Honline) & Hearly & Hvotes).
    change (S k + fuel)%nat with (S (k + fuel)).
    cbn [MtmPostPrepareTransaction_wait].
    apply returns_bind. unfold hash_find, returns at 1. rewrite Hts.
    apply returns_bind. unfold getMtm, returns at 1.
    rewrite Hvote, Hcfg, Z.eqb_refl.
    rewrite bool_decide_eq_true_2 by exact Honline.
    rewrite bool_decide_eq_false_2 by exact Hst. cbn [negb andb].
    apply returns_bind. unfold MtmGetSystemTime, returns at 1.
    apply Z.leb_le in Hearly. rewrite Hearly.
    apply returns_bind. unfold MtmUnlock, emit, modify, returns at 1.
    apply returns_bind. unfold emit, modify, returns at 1.
    apply returns_bind. unfold suspend, modify, returns at 1.
    apply returns_bind. unfold MtmLock, emit, modify, returns at 1.
    apply IH; [cbn; exact Hvotes |].
    intros w' (Htx & Hshm & Htr). apply Hrest. unfold after_vote_waits.
    rewrite Htx, Hshm, Htr. cbn. rewrite <- !app_assoc. repeat split.
Qed.

(** X22: when the votes are complete in time the coordinator does not
    abort.  If, after [k] waits within the deadline, the voting on the
    transaction is found completed and the configuration of the cluster
    is the one the wait started with, [MtmPostPrepareTransaction]
    returns with the status the voters left as the status of the
    transaction of the backend, without a warning and without a change of
    its own to shared memory. *)
Theorem MtmPostPrepareTransaction_voted (k fuel : nat) (w : Backend) (ts ts' : MtmTransState) :
  let xid := x_xid (MtmTx w) in
  let deadline := wrap64 (gettimeofday (clk w)) + spec_prepare_timeout ts in
  let voted := after_suspensions k (susp w) (shm w) in
  x_isDistributed (MtmTx w) = true ->
  MtmXid2State (shm w) !! xid = Some ts ->
  MtmIsCoordinator ts = true ->
  status (Mtm (shm w)) <> MTM_RECOVERY ->
  timeout_in_range ts ->
  deadline <= UINT64_MAX ->
  votes_pending k xid (nConfigChanges (Mtm (shm w))) deadline (S (clk w)) (susp w) (shm w) ->
  MtmXid2State voted !! xid = Some ts' ->
  ts_votingCompleted ts' = true ->
  nConfigChanges (Mtm voted) = nConfigChanges (Mtm (shm w)) ->
  inject2PCError (Mtm (shm w)) <> 2 ->
  inject2PCError (Mtm voted) <> 3 ->
  (k < fuel)%nat ->
  exists w',
    MtmPostPrepareTransaction fuel w = Ok tt w'
    /\ x_status (MtmTx w') = ts_status ts'
    /\ shm w' = voted
    /\ trace w' = trace w ++ [EvLock LW_EXCLUSIVE] ++ vote_waits k ++ [EvUnlock].
Proof.
  intros xid deadline voted Hdist Hts Hcoord Hstatus Hrange Hdeadline Hvotes Hts' Hdone Hcfg
    Hinj2 Hinj3 Hfuel.
  apply (returns_unit _ _ (fun _ w' =>
    x_status (MtmTx w') = ts_status ts'
    /\ shm w' = voted
    /\ trace w' = trace w ++ [EvLock LW_EXCLUSIVE] ++ vote_waits k ++ [EvUnlock])).
  unfold MtmPostPrepareTransaction.
  apply returns_bind. unfold getTx, returns at 1. rewrite Hdist. cbn [negb].
  apply returns_bind. unfold getMtm, returns at 1.
  apply returns_bind. apply Z.eqb_neq in Hinj2. rewrite Hinj2. unfold mret, M_ret, returns at 1.
  apply returns_bind. unfold MtmLock, emit, modify, returns at 1.
  apply returns_bind. unfold hash_find, returns at 1. cbn [shm set_trace]. fold xid. rewrite Hts.
  apply returns_bind. unfold getMtm, returns at 1. cbn [shm set_trace].
  rewrite Hcoord. rewrite bool_decide_eq_false_2 by exact Hstatus.
  cbn [negb orb]. rewrite transTimeout_eq by exact Hrange.
  apply returns_bind.
  apply returns_bind. unfold MtmGetSystemTime, returns at 1. cbn [clk set_trace].
  apply returns_bind.
  replace fuel with (k + S (fuel - S k))%nat by lia.
  apply MtmPostPrepareTransaction_wait_pending.
  { cbn. fold deadline. rewrite (wrap64_small deadline); [exact Hvotes |].
    unfold deadline.
    pose proof (wrap64_range (gettimeofday (clk w))).
    assert (0 <= spec_prepare_timeout ts)
      by (unfold spec_prepare_timeout; destruct Hrange as (? & _); unfold uint64 in *; lia).
    lia. }
  intros w2 (Htx & Hshm & Htr). cbn in Htx, Hshm, Htr. fold voted in Hshm.
  cbn [MtmPostPrepareTransaction_wait].
  apply returns_bind. unfold hash_find, returns at 1. rewrite Hshm, Hts'.
  apply returns_bind. unfold getMtm, returns at 1. rewrite Hdone. cbn [negb andb].
  unfold mret, M_ret, returns at 1.
  apply returns_bind. unfold hash_find, returns at 1. rewrite Hshm, Hts'.
  apply returns_bind. unfold getMtm, returns at 1. rewrite Hshm, Hdone, Hcfg, Z.eqb_refl.
  cbn [negb andb orb]. rewrite andb_false_r.
  apply returns_bind. unfold mret, M_ret, returns at 1.
  apply returns_bind. unfold hash_find, returns at 1. rewrite Hshm, Hts'.
  apply returns_bind. unfold modTx, modify, returns at 1.
  unfold MtmUnlock, emit, modify, returns at 1.
  apply returns_bind. unfold getMtm, returns at 1.
  apply returns_bind. unfold getTx, returns at 1.
  cbn [shm set_trace set_MtmTx]. rewrite Hshm.
  apply Z.eqb_neq in Hinj3. rewrite Hinj3.
  unfold mret, M_ret, returns. cbn.
  split; [reflexivity |]. split; [exact Hshm |].
  rewrite Htr, <- !app_assoc. reflexivity.
Qed.

(** X27: a change of the configuration of the cluster during the vote
    aborts the transaction, whatever the votes.  If, after [k] waits
    within the deadline, the number of configuration changes differs from
    the one the wait started with and the transaction is not aborted yet,
    [MtmPostPrepareTransaction] returns with the transaction aborted, in
    the table of states and in the descriptor of the backend, and the
    warning names the configuration, not the timeout; this holds also when
    the voting is found completed. *)
Theorem MtmPostPrepareTransaction_reconfigured (k fuel : nat) (w : Backend)
    (ts ts' : MtmTransState) :
  let xid := x_xid (MtmTx w) in
  let deadline := wrap64 (gettimeofday (clk w)) + spec_prepare_timeout ts in
  let voted := after_suspensions k (susp w) (shm w) in
  x_isDistributed (MtmTx w) = true ->
  MtmXid2State (shm w) !! xid = Some ts ->
  MtmIsCoordinator ts = true ->
  status (Mtm (shm w)) <> MTM_RECOVERY ->
  timeout_in_range ts ->
  deadline <= UINT64_MAX ->
  votes_pending k xid (nConfigChanges (Mtm (shm w))) deadline (S (clk w)) (susp w) (shm w) ->
  MtmXid2State voted !! xid = Some ts' ->
  ts_status ts' <> TRANSACTION_STATUS_ABORTED ->
  nConfigChanges (Mtm voted) <> nConfigChanges (Mtm (shm w)) ->
  inject2PCError (Mtm (shm w)) <> 2 ->
  inject2PCError (Mtm voted) <> 3 ->
  (k < fuel)%nat ->
  exists w',
    MtmPostPrepareTransaction fuel w = Ok tt w'
    /\ ts_status <$> MtmXid2State (shm w') !! xid = Some TRANSACTION_STATUS_ABORTED
    /\ x_status (MtmTx w') = TRANSACTION_STATUS_ABORTED
    /\ trace w' =
       trace w ++ [EvLock LW_EXCLUSIVE] ++ vote_waits k
       ++ [EvElog WARNING
             "Transaction %d is aborted because cluster configuration is changed during commit"
             [ArgInt xid];
           EvUnlock].
Proof.
  intros xid deadline voted Hdist Hts Hcoord Hstatus Hrange Hdeadline Hvotes Hts' Hst Hcfg
    Hinj2 Hinj3 Hfuel.
  apply (returns_unit _ _ (fun _ w' =>
    ts_status <$> MtmXid2State (shm w') !! xid = Some TRANSACTION_STATUS_ABORTED
    /\ x_status (MtmTx w') = TRANSACTION_STATUS_ABORTED
    /\ trace w' =
       trace w ++ [EvLock LW_EXCLUSIVE] ++ vote_waits k
       ++ [EvElog WARNING
             "Transaction %d is aborted because cluster configuration is changed during commit"
             [ArgInt xid];
           EvUnlock])).
  assert (Hneq : (nConfigChanges (Mtm (shm w)) =? nConfigChanges (Mtm voted)) = false)
    by (apply Z.eqb_neq; congruence).
  unfold MtmPostPrepareTransaction.
  apply returns_bind. unfold getTx, returns at 1. rewrite Hdist. cbn [negb].
  apply returns_bind. unfold getMtm, returns at 1.
  apply returns_bind. apply Z.eqb_neq in Hinj2. rewrite Hinj2. unfold mret, M_ret, returns at 1.
  apply returns_bind. unfold MtmLock, emit, modify, returns at 1.
  apply returns_bind. unfold hash_find, returns at 1. cbn [shm set_trace]. fold xid. rewrite Hts.
  apply returns_bind. unfold getMtm, returns at 1. cbn [shm set_trace].
  rewrite Hcoord. rewrite bool_decide_eq_false_2 by exact Hstatus.
  cbn [negb orb]. rewrite transTimeout_eq by exact Hrange.
  apply returns_bind.
  apply returns_bind. unfold MtmGetSystemTime, returns at 1. cbn [clk set_trace].
  apply returns_bind.
  replace fuel with (k + S (fuel - S k))%nat by lia.
  apply MtmPostPrepareTransaction_wait_pending.
  { cbn. fold deadline. rewrite (wrap64_small deadline); [exact Hvotes |].
    unfold deadline.
    pose proof (wrap64_range (gettimeofday (clk w))).
    assert (0 <= spec_prepare_timeout ts)
      by (unfold spec_prepare_timeout; destruct Hrange as (? & _); unfold uint64 in *; lia).
    lia. }
  intros w2 (Htx & Hshm & Htr). cbn in Htx, Hshm, Htr. fold voted in Hshm.
  cbn [MtmPostPrepareTransaction_wait].
  apply returns_bind. unfold hash_find, returns at 1. rewrite Hshm, Hts'.
  apply returns_bind. unfold getMtm, returns at 1. rewrite Hshm, Hneq.
  rewrite andb_false_r. cbn [andb].
  unfold mret, M_ret, returns at 1.
  apply returns_bind. unfold hash_find, returns at 1. rewrite Hshm, Hts'.
  apply returns_bind. unfold getMtm, returns at 1. rewrite Hshm, Hneq.
  rewrite bool_decide_eq_false_2 by exact Hst. cbn [negb andb orb].
  rewrite orb_true_r.
  apply returns_bind. apply returns_bind.
  unfold elog, emit, modify, returns at 1.
  eapply returns_mono; [| apply (MtmAbortTransaction_aborts xid ts'); [| exact Hst]].
  2: { cbn. rewrite Hshm. exact Hts'. }
  intros ? w3 (Hab & Htx3 & Htr3 & Hinj & _). cbn in Htx3, Htr3, Hinj.
  apply returns_bind. unfold hash_find, returns at 1.
  apply returns_bind. unfold modTx, modify, returns at 1.
  unfold MtmUnlock, emit, modify, returns at 1.
  apply returns_bind. unfold getMtm, returns at 1.
  apply returns_bind. unfold getTx, returns at 1.
  cbn [shm set_trace set_MtmTx].
  rewrite Hinj, Hshm. apply Z.eqb_neq in Hinj3. rewrite Hinj3.
  unfold mret, M_ret, returns. cbn.
  split; [exact Hab |]. split.
  { destruct (MtmXid2State (shm w3) !! xid) as [ts3 |]; [| discriminate].
    cbn in Hab |- *. congruence. }
  rewrite Htr3, Htr. rewrite <- !app_assoc. reflexivity.
Qed.

(** X10: a participant votes and lets go.  On a node that is not in
    recovery, for a distributed transaction this node does not coordinate,
    [MtmPostPrepareTransaction] returns without waiting, whatever the
    fuel: the global identifier maps to the state of the transaction, the
    voting on it is completed, the state heads the list of voting
    transactions with the message [MSG_READY], its status is unknown when
    the DTM is not in use, and the descriptor of the backend is reset, so
    that the next transaction takes a snapshot of its own. *)
Theorem MtmPostPrepareTransaction_participant (fuel : nat) (w : Backend) (ts : MtmTransState) :
  let xid := x_xid (MtmTx w) in
  x_isDistributed (MtmTx w) = true ->
  MtmXid2State (shm w) !! xid = Some ts ->
  MtmIsCoordinator ts = false ->
  status (Mtm (shm w)) <> MTM_RECOVERY ->
  inject2PCError (Mtm (shm w)) <> 2 ->
  inject2PCError (Mtm (shm w)) <> 3 ->
  exists w' ts',
    MtmPostPrepareTransaction fuel w = Ok tt w'
    /\ tm_state <$> MtmGid2State (shm w') !! x_gid (MtmTx w) = Some (Some xid)
    /\ MtmXid2State (shm w') !! xid = Some ts'
    /\ ts_votingCompleted ts' = true
    /\ ts_cmd ts' = MSG_READY
    /\ (MtmUseDtm = false -> ts_status ts' = TRANSACTION_STATUS_UNKNOWN)
    /\ votingTransactions (Mtm (shm w')) = xid :: votingTransactions (Mtm (shm w))
    /\ x_snapshot (MtmTx w') = INVALID_CSN
    /\ x_isDistributed (MtmTx w') = false.
Proof.
  intros xid Hdist Hts Hcoord Hstatus Hinj2 Hinj3.
  apply Z.eqb_neq in Hinj2. apply Z.eqb_neq in Hinj3.
  destruct (returns_unit (MtmPostPrepareTransaction fuel) w (fun _ w' =>
    exists ts',
      tm_state <$> MtmGid2State (shm w') !! x_gid (MtmTx w) = Some (Some xid)
      /\ MtmXid2State (shm w') !! xid = Some ts'
      /\ ts_votingCompleted ts' = true
      /\ ts_cmd ts' = MSG_READY
      /\ (MtmUseDtm = false -> ts_status ts' = TRANSACTION_STATUS_UNKNOWN)
      /\ votingTransactions (Mtm (shm w')) = xid :: votingTransactions (Mtm (shm w))
      /\ x_snapshot (MtmTx w') = INVALID_CSN
      /\ x_isDistributed (MtmTx w') = false)) as (w' & Hrun & ts' & Hpost);
    [| exists w', ts'; split; [exact Hrun | exact Hpost]].
  unfold MtmPostPrepareTransaction.
  apply returns_bind. unfold getTx, returns at 1. rewrite Hdist. cbn [negb].
  apply returns_bind. unfold getMtm, returns at 1.
  apply returns_bind. rewrite Hinj2. unfold mret, M_ret, returns at 1.
  apply returns_bind. unfold MtmLock, emit, modify, returns at 1.
  apply returns_bind. unfold hash_find, returns at 1. cbn [shm set_trace]. fold xid. rewrite Hts.
  apply returns_bind. unfold getMtm, returns at 1. cbn [shm set_trace].
  rewrite Hcoord. rewrite bool_decide_eq_false_2 by exact Hstatus.
  cbn [negb orb].
  unfold MtmSendNotificationMessage, MtmResetTransaction, MtmUnlock, returns. munfold.
  destruct (bool_decide (MtmGid2State (shm w) !! x_gid (MtmTx w) = None));
    destruct (votingTransactions (Mtm (shm w))) as [| v vs] eqn:Hlist;
    destruct MtmUseDtm; cbn; rewrite ?Hlist; cbn; rewrite ?Hinj3; cbn.
  all: eexists; rewrite lookup_insert_eq, !lookup_alter_eq, Hts.
  all: split; [reflexivity |]; split; [reflexivity |]; cbn.
  all: repeat split; intros; discriminate || reflexivity.
Qed.

(** ** An error in a query: the abort of the reader *)













End Multimaster.

(** * Sequences across nodes *)

(** X19: outside Volkswagen mode the sequences of two different nodes
    never yield the same value.  With the start and the step that
    [MtmInitializeSequence] gives them, the [k1]-th value of a sequence
    of node [id1] and the [k2]-th value of a sequence of node [id2]
    differ, for node identifiers within [1 .. MtmMaxNodes]. *)
Theorem MtmInitializeSequence_disjoint (MtmMaxNodes id1 id2 k1 k2 : Z) :
  0 < id1 <= MtmMaxNodes ->
  0 < id2 <= MtmMaxNodes ->
  id1 <> id2 ->
  0 <= k1 -> 0 <= k2 ->
  fst (MtmInitializeSequence id1 false MtmMaxNodes)
  + k1 * snd (MtmInitializeSequence id1 false MtmMaxNodes)
  <> fst (MtmInitializeSequence id2 false MtmMaxNodes)
     + k2 * snd (MtmInitializeSequence id2 false MtmMaxNodes).
Proof.
  intros Hid1 Hid2 Hne Hk1 Hk2. unfold MtmInitializeSequence. cbn [fst snd].
  intros Heq.
  assert (id1 - id2 = (k2 - k1) * MtmMaxNodes) as Hdiff by lia.
  assert (k2 - k1 = 0 \/ k2 - k1 <= -1 \/ 1 <= k2 - k1) as [Hz | [Hneg | Hpos]] by lia.
  - rewrite Hz in Hdiff. lia.
  - assert ((k2 - k1) * MtmMaxNodes <= -1 * MtmMaxNodes) by (apply Z.mul_le_mono_nonneg_r; lia).
    lia.
  - assert (1 * MtmMaxNodes <= (k2 - k1) * MtmMaxNodes) by (apply Z.mul_le_mono_nonneg_r; lia).
    lia.
Qed.

(** * The statements on the example states *)

Lemma MtmXidInMVCCSnapshot_found_witness :
  exists w',
    MtmXidInMVCCSnapshot true ex_commits unit (fun _ _ => false) 7 tt
      (ex_backend ex_Mtm TRANSACTION_STATUS_UNKNOWN 6000) = Ok false w'.
Proof.
  refine (proj2 (MtmXidInMVCCSnapshot_found true ex_commits unit (fun _ _ => false) 7 tt
                   (ex_backend ex_Mtm TRANSACTION_STATUS_UNKNOWN 6000) 1
                   (ex_ts TRANSACTION_STATUS_COMMITTED) _ _ _ _) _).
  - reflexivity.
  - unfold MAX_WAIT_LOOPS. lia.
  - split; [| exact I].
    exists (ex_ts TRANSACTION_STATUS_UNKNOWN). split; [reflexivity |].
    split; [simpl; lia | reflexivity].
  - vm_compute. reflexivity.
  - split; [reflexivity | simpl; lia].
Defined.

Lemma MtmAssignCSN_strictly_increasing_witness :
  (exists w',
      MtmAssignCSN ex_frozen (ex_backend ex_Mtm TRANSACTION_STATUS_UNKNOWN 6000) = Ok 101 w'
      /\ csn (Mtm (shm w')) = 101)
  /\ exists cs w',
      MtmAssignCSN_times ex_frozen 3 (ex_backend ex_Mtm TRANSACTION_STATUS_UNKNOWN 6000)
      = Ok cs w'
      /\ Sorted.StronglySorted Z.lt (100 :: cs).
Proof.
  pose proof (MtmAssignCSN_strictly_increasing ex_frozen
                (ex_backend ex_Mtm TRANSACTION_STATUS_UNKNOWN 6000)
                ltac:(unfold UINT64_MAX; simpl; lia)) as [(w' & Hrun & Hcsn & _) Hseq].
  split.
  - exists w'. split; [exact Hrun | exact Hcsn].
  - destruct (Hseq 3%nat) as (cs & w3 & Hrun3 & _ & Hsorted).
    exists cs, w3. split; [exact Hrun3 |]. apply Hsorted.
    vm_compute in Hrun3. injection Hrun3 as <- _.
    repeat constructor.
Defined.

Lemma MtmRefreshClusterStatus_clique_witness :
  exists w',
    MtmRefreshClusterStatus 1 ex_frozen ex_RaftableGet ex_MtmFindMaxClique false
      (ex_backend ex_Mtm TRANSACTION_STATUS_UNKNOWN 6000) = Ok true w'
    /\ Z.testbit (disabledNodeMask (Mtm (shm w'))) 2 = true.
Proof.
  edestruct (MtmRefreshClusterStatus_clique 1 ex_frozen ex_RaftableGet ex_MtmFindMaxClique
               false (ex_backend ex_Mtm TRANSACTION_STATUS_UNKNOWN 6000))
    as (w' & Hrun & Hquorum & _).
  - vm_compute. reflexivity.
  - simpl. lia.
  - lia.
  - exists w'. split; [exact Hrun |].
    destruct Hquorum as (Houtside & _); [vm_compute; discriminate |].
    apply Houtside; [simpl; lia | reflexivity].
Defined.

Lemma MtmRecoveryCaughtUp_enables_witness :
  exists w',
    MtmRecoveryCaughtUp 1 10 ex_frozen 2 500
      (set_MtmIsRecoverySession true
         (ex_backend (set_nActiveTransactions 0 (set_disabledNodeMask 2 ex_Mtm))
            TRANSACTION_STATUS_COMMITTED 6000)) = Ok true w'
    /\ BIT_CHECK (disabledNodeMask (Mtm (shm w'))) 1 = false.
Proof.
  destruct (MtmRecoveryCaughtUp_enables 1 10 ex_frozen 2 500
              (set_MtmIsRecoverySession true
                 (ex_backend (set_nActiveTransactions 0 (set_disabledNodeMask 2 ex_Mtm))
                    TRANSACTION_STATUS_COMMITTED 6000)))
    as (w' & Hrun & _ & Hup & _).
  - lia.
  - simpl. lia.
  - reflexivity.
  - reflexivity.
  - exists w'. split; [exact Hrun |]. apply Hup. reflexivity.
Defined.

Lemma MtmPostPrepareTransaction_timeout_witness :
  exists w',
    MtmPostPrepareTransaction 1 true 100 200 2 UINT64_MAX ex_clock ex_idle 2
      (ex_backend ex_Mtm TRANSACTION_STATUS_IN_PROGRESS 1000) = Ok tt w'
    /\ x_status (MtmTx w') = TRANSACTION_STATUS_ABORTED.
Proof.
  destruct (MtmPostPrepareTransaction_timeout 1 true 100 200 2 UINT64_MAX ex_clock ex_idle
              1 2 (ex_backend ex_Mtm TRANSACTION_STATUS_IN_PROGRESS 1000)
              (ex_ts TRANSACTION_STATUS_IN_PROGRESS))
    as (w' & Hrun & _ & Haborted & _).
  - reflexivity.
  - reflexivity.
  - reflexivity.
  - unfold timeout_in_range, uint64, UINT64_MAX. simpl. lia.
  - unfold UINT64_MAX. vm_compute. discriminate.
  - assert (awaiting_votes 7 0 (ex_shm ex_Mtm TRANSACTION_STATUS_IN_PROGRESS)) as Hwait.
    { exists (ex_ts TRANSACTION_STATUS_IN_PROGRESS).
      split; [reflexivity |]. split; [reflexivity |]. split; [discriminate |].
      split; reflexivity. }
    split; [exact Hwait |]. split; [vm_compute; discriminate |].
    split; [exact Hwait | vm_compute; reflexivity].
  - simpl. lia.
  - simpl. lia.
  - lia.
  - exists w'. split; [exact Hrun | exact Haborted].
Defined.



Lemma pglogical_write_begin_filters_witness :
  exists w1,
    pglogical_write_begin 1 2 UINT64_MAX
      {| allow_internal_basetypes := false; allow_binary_basetypes := false |}
      {| txn_xid := 8 |} (ex_backend ex_Mtm TRANSACTION_STATUS_COMMITTED 6000) = Ok tt w1
    /\ MtmIsFilteredTxn w1 = true.
Proof.
  destruct (proj1 (pglogical_write_begin_filters 1 2 UINT64_MAX
                     {| allow_internal_basetypes := false; allow_binary_basetypes := false |}
                     {| txn_xid := 8 |} (ex_backend ex_Mtm TRANSACTION_STATUS_COMMITTED 6000)))
    as (w1 & Hrun & Hfiltered & _).
  - split; reflexivity.
  - exists w1. split; [exact Hrun | exact Hfiltered].
Defined.

Lemma MtmSyncClock_ratchet_witness :
  exists r1 w1,
    MtmSyncClock ex_frozen 101 200 (ex_backend ex_Mtm TRANSACTION_STATUS_UNKNOWN 6000)
    = Ok r1 w1
    /\ 200 <= r1
    /\ csn (Mtm (shm w1)) = r1.
Proof.
  destruct (MtmSyncClock_ratchet ex_frozen (ex_backend ex_Mtm TRANSACTION_STATUS_UNKNOWN 6000)
              200 150 101 1)
    as (r1 & w1 & Hrun & Hreached & Hcsn & _).
  - unfold UINT64_MAX. simpl. lia.
  - unfold UINT64_MAX. lia.
  - lia.
  - simpl. lia.
  - lia.
  - exists r1, w1. split; [exact Hrun |]. split; [exact Hreached | exact Hcsn].
Defined.

(** C8 as stated fails: every [MtmSyncClock] draws a fresh CSN, so a
    second [sync(200)], or a [sync(150)], after [sync(200)] moves the last
    CSN from 200 to 201. *)
Lemma MtmSyncClock_not_idempotent :
  exists w1 w2 w2',
    MtmSyncClock ex_frozen 3 200 (ex_backend ex_Mtm TRANSACTION_STATUS_UNKNOWN 6000)
    = Ok 200 w1
    /\ csn (Mtm (shm w1)) = 200
    /\ MtmSyncClock ex_frozen 3 200 w1 = Ok 201 w2
    /\ csn (Mtm (shm w2)) = 201
    /\ MtmSyncClock ex_frozen 3 150 w1 = Ok 201 w2'
    /\ csn (Mtm (shm w2')) = 201.
Proof.
  eexists. eexists. eexists.
  split; [vm_compute; reflexivity |].
  split; [reflexivity |].
  split; [vm_compute; reflexivity |].
  split; [reflexivity |].
  split; [vm_compute; reflexivity | reflexivity].
Qed.

Lemma MtmBeginTransaction_isolation_level_witness :
  exists w',
    MtmBeginTransaction 1 true 10 1000 UINT64_MAX ex_frozen "mtm_admin"
      (ex_backend ex_Mtm TRANSACTION_STATUS_UNKNOWN UINT64_MAX) = Ok tt w'
    /\ x_isDistributed (MtmTx w') = true
    /\ x_status (MtmTx w') = TRANSACTION_STATUS_IN_PROGRESS.
Proof.
  destruct (MtmBeginTransaction_isolation_level 1 true 10 1000 UINT64_MAX ex_frozen "mtm_admin"
              (ex_backend ex_Mtm TRANSACTION_STATUS_UNKNOWN UINT64_MAX))
    as (w' & Hrun & _ & Hdist & Hstatus & _).
  - reflexivity.
  - reflexivity.
  - reflexivity.
  - discriminate.
  - exists w'. split; [exact Hrun |]. split; [exact Hdist | exact Hstatus].
Defined.

(** C9 as stated fails: a client session of an online node that begins a
    transaction at read committed is not rejected; the call returns, with
    the level reported at [LOG] and the transaction distributed. *)
Lemma MtmBeginTransaction_read_committed_accepted :
  exists w',
    MtmIsUserTransaction ex_pg = true
    /\ XactIsoLevel ex_pg = XACT_READ_COMMITTED
    /\ MtmBeginTransaction 1 true 10 1000 UINT64_MAX ex_frozen "mtm_admin"
         (ex_backend ex_Mtm TRANSACTION_STATUS_UNKNOWN UINT64_MAX) = Ok tt w'
    /\ x_isDistributed (MtmTx w') = true
    /\ trace w' =
       [EvLock LW_EXCLUSIVE;
        EvElog LOG "Isolation level %s is not supported by multimaster"
          [ArgStr "read committed"];
        EvUnlock].
Proof.
  eexists. split; [reflexivity |]. split; [reflexivity |].
  split; [vm_compute; reflexivity |]. split; reflexivity.
Qed.

Lemma MtmWatchdog_defused_witness :
  exists allAlive w',
    MtmWatchdog 1 false 1000 10000 2000 ex_frozen ex_idle ex_RaftableGet ex_RaftableSet
      ex_MtmFindMaxClique 1000000000
      (ex_backend (set_nodes [ex_node; ex_node; set_lastHeartbeat 1 ex_node] ex_Mtm)
         TRANSACTION_STATUS_UNKNOWN 6000) = Ok allAlive w'
    /\ timeouts_of 2 w' = [].
Proof.
  destruct (MtmWatchdog_defused 1 false 1000 10000 2000 ex_frozen ex_idle ex_RaftableGet
              ex_RaftableSet ex_MtmFindMaxClique 2 1000000000
              (ex_backend (set_nodes [ex_node; ex_node; set_lastHeartbeat 1 ex_node] ex_Mtm)
                 TRANSACTION_STATUS_UNKNOWN 6000))
    as ((allAlive & w' & Hrun & Hnone & _) & _).
  - intros k s Hzero. exact Hzero.
  - reflexivity.
  - exists allAlive, w'. split; [exact Hrun | exact Hnone].
Defined.

(** * The further properties on the example states *)

Lemma MtmDisableNode_MtmEnableNode_witness :
  exists w1 w2,
    MtmDisableNode 1 ex_frozen 2 (ex_backend ex_Mtm TRANSACTION_STATUS_UNKNOWN 6000) = Ok tt w1
    /\ MtmEnableNode 1 ex_frozen 2 w1 = Ok tt w2
    /\ disabledNodeMask (Mtm (shm w2)) = 0
    /\ nLiveNodes (Mtm (shm w2)) = 3.
Proof.
  destruct (MtmDisableNode_MtmEnableNode 1 ex_frozen 2
              (ex_backend ex_Mtm TRANSACTION_STATUS_UNKNOWN 6000))
    as (w1 & w2 & Hoff & _ & _ & Hon & Hmask & Hlive & _).
  - lia.
  - lia.
  - unfold uint64, UINT64_MAX. simpl. lia.
  - reflexivity.
  - exists w1, w2. split; [exact Hoff |]. split; [exact Hon |].
    split; [exact Hmask | exact Hlive].
Defined.

Lemma MtmIsRecoveredNode_session_witness :
  exists w',
    MtmIsRecoveredNode 2
      (ex_backend (set_disabledNodeMask 2 ex_Mtm) TRANSACTION_STATUS_UNKNOWN 6000)
    = Raise "Node %d is marked as disabled but is not in recovery mode" [ArgInt 2] w'
    /\ shm w' = ex_shm (set_disabledNodeMask 2 ex_Mtm) TRANSACTION_STATUS_UNKNOWN.
Proof.
  destruct (proj1 (MtmIsRecoveredNode_session 2
                     (ex_backend (set_disabledNodeMask 2 ex_Mtm) TRANSACTION_STATUS_UNKNOWN
                        6000)))
    as (w' & Hrun & _ & Hshm & _).
  - reflexivity.
  - reflexivity.
  - exists w'. split; [exact Hrun | exact Hshm].
Defined.

Lemma MtmBeginTransaction_offline_witness :
  exists w',
    MtmBeginTransaction 1 true 10 1000 UINT64_MAX ex_frozen "mtm_admin"
      (ex_backend (set_status MTM_RECOVERY ex_Mtm) TRANSACTION_STATUS_UNKNOWN UINT64_MAX)
    = Raise "Multimaster node is not online: current status %s" [ArgStr "Recovery"] w'
    /\ x_snapshot (MtmTx w') = UINT64_MAX.
Proof.
  destruct (MtmBeginTransaction_offline 1 true 10 1000 UINT64_MAX ex_frozen "mtm_admin"
              (ex_backend (set_status MTM_RECOVERY ex_Mtm) TRANSACTION_STATUS_UNKNOWN
                 UINT64_MAX))
    as (w' & Hrun & _ & Hsnapshot & _).
  - reflexivity.
  - reflexivity.
  - discriminate.
  - discriminate.
  - exists w'. split; [exact Hrun | exact Hsnapshot].
Defined.

Lemma MtmBeginTransaction_fresh_snapshot_witness :
  exists w',
    MtmBeginTransaction 1 true 10 1000 UINT64_MAX ex_frozen "mtm_admin"
      (ex_backend ex_Mtm TRANSACTION_STATUS_UNKNOWN UINT64_MAX) = Ok tt w'
    /\ x_snapshot (MtmTx w') = csn (Mtm (shm w'))
    /\ 100 < csn (Mtm (shm w')).
Proof.
  destruct (MtmBeginTransaction_fresh_snapshot 1 true 10 1000 UINT64_MAX ex_frozen "mtm_admin"
              (ex_backend ex_Mtm TRANSACTION_STATUS_UNKNOWN UINT64_MAX))
    as (w' & Hrun & Hsnapshot & Hfresh & _).
  - reflexivity.
  - reflexivity.
  - unfold UINT64_MAX. simpl. lia.
  - exists w'. split; [exact Hrun |]. split; [exact Hsnapshot | exact Hfresh].
Defined.

Lemma MtmRefreshClusterStatus_no_answer_witness :
  exists w0,
    MtmRefreshClusterStatus 1 ex_frozen ex_RaftableGet_none ex_MtmFindMaxClique false
      (ex_backend ex_Mtm TRANSACTION_STATUS_UNKNOWN 6000) = Ok false w0
    /\ shm w0 = ex_shm ex_Mtm TRANSACTION_STATUS_UNKNOWN.
Proof.
  destruct (MtmBuildConnectivityMatrix 1 ex_RaftableGet_none false
              (ex_backend ex_Mtm TRANSACTION_STATUS_UNKNOWN 6000))
    as [[matrix |] w0 | |] eqn:Hbuild; try (vm_compute in Hbuild; discriminate Hbuild).
  exists w0.
  exact (MtmRefreshClusterStatus_no_answer 1 ex_frozen ex_RaftableGet_none ex_MtmFindMaxClique
           false (ex_backend ex_Mtm TRANSACTION_STATUS_UNKNOWN 6000) w0 Hbuild).
Defined.

Lemma MtmBuildConnectivityMatrix_symmetric_witness :
  exists matrix w',
    MtmBuildConnectivityMatrix 1 ex_RaftableGet false
      (ex_backend ex_Mtm TRANSACTION_STATUS_UNKNOWN 6000) = Ok (Some matrix) w'
    /\ matrix_bit matrix 1 2 = matrix_bit matrix 2 1.
Proof.
  destruct (MtmBuildConnectivityMatrix 1 ex_RaftableGet false
              (ex_backend ex_Mtm TRANSACTION_STATUS_UNKNOWN 6000))
    as [[matrix |] w' | |] eqn:Hbuild; try (vm_compute in Hbuild; discriminate Hbuild).
  exists matrix, w'. split; [reflexivity |].
  apply (MtmBuildConnectivityMatrix_symmetric 1 ex_RaftableGet false
           (ex_backend ex_Mtm TRANSACTION_STATUS_UNKNOWN 6000) w' matrix 1 2 Hbuild).
  - simpl. lia.
  - simpl. lia.
  - simpl. lia.
Defined.

Lemma MtmEnableNode_MtmOnNodeDisconnect_witness :
  exists w1 w2,
    MtmEnableNode 1 ex_clock 2 (ex_backend ex_Mtm TRANSACTION_STATUS_UNKNOWN 6000) = Ok tt w1
    /\ MtmOnNodeDisconnect 1 false 1000 10 ex_clock ex_idle ex_RaftableGet ex_RaftableSet
         ex_MtmFindMaxClique 2 w1 = Ok tt w2
    /\ shm w2 = shm w1.
Proof.
  destruct (MtmEnableNode_MtmOnNodeDisconnect 1 false 1000 10 ex_clock ex_idle ex_RaftableGet
              ex_RaftableSet ex_MtmFindMaxClique 2
              (ex_backend ex_Mtm TRANSACTION_STATUS_UNKNOWN 6000))
    as (w1 & w2 & Hon & Hignored & Hshm & _).
  - lia.
  - simpl. lia.
  - vm_compute. reflexivity.
  - exists w1, w2. split; [exact Hon |]. split; [exact Hignored | exact Hshm].
Defined.

Lemma ex_keyed_by_xid (m : MtmState) (st : XidStatus) :
  keyed_by_xid (MtmXid2State (ex_shm m st)).
Proof.
  intros k ts Hts. cbn in Hts. apply lookup_singleton_Some in Hts.
  destruct Hts as [<- <-]. reflexivity.
Defined.

Lemma MtmAdjustOldestXid_conservative_witness :
  exists r w',
    MtmAdjustOldestXid 1 true 10 7 (ex_backend ex_Mtm TRANSACTION_STATUS_COMMITTED 6000)
    = Ok r w'
    /\ (r = 7 \/ TransactionIdPrecedes r 7 = true)
    /\ MtmXid2State (shm w') !! 7 = Some (ex_ts TRANSACTION_STATUS_COMMITTED).
Proof.
  destruct (MtmAdjustOldestXid_conservative 1 true 10 7
              (ex_backend ex_Mtm TRANSACTION_STATUS_COMMITTED 6000)
              (ex_keyed_by_xid ex_Mtm TRANSACTION_STATUS_COMMITTED))
    as (r & w' & Hrun & Hr & Hkept).
  exists r, w'. split; [exact Hrun |]. split; [exact Hr |].
  destruct (Hkept 7 (ex_ts TRANSACTION_STATUS_COMMITTED) eq_refl) as [Hsame | [_ Hprecedes]].
  - exact Hsame.
  - vm_compute in Hprecedes. discriminate Hprecedes.
Defined.

Lemma MtmGetOldestXmin_conservative_witness :
  exists r w',
    MtmGetOldestXmin 1 true 10 (ex_backend ex_Mtm TRANSACTION_STATUS_COMMITTED 6000) = Ok r w'
    /\ (r = 3 \/ TransactionIdPrecedes r 3 = true).
Proof.
  destruct (MtmGetOldestXmin_conservative 1 true 10
              (ex_backend ex_Mtm TRANSACTION_STATUS_COMMITTED 6000)
              (ex_keyed_by_xid ex_Mtm TRANSACTION_STATUS_COMMITTED))
    as (r & w' & Hrun & Hr & _).
  exists r, w'. split; [exact Hrun | exact Hr].
Defined.


Lemma MtmExchangeGlobalTransactionStatus_aborted_sticks_witness :
  exists w',
    MtmExchangeGlobalTransactionStatus_all "MTM-1-7"
      [TRANSACTION_STATUS_COMMITTED; TRANSACTION_STATUS_UNKNOWN]
      (set_shm (ex_shm_gid ex_Mtm TRANSACTION_STATUS_ABORTED)
         (ex_backend ex_Mtm TRANSACTION_STATUS_UNKNOWN 6000))
    = Ok [TRANSACTION_STATUS_ABORTED; TRANSACTION_STATUS_ABORTED] w'.
Proof.
  destruct (MtmExchangeGlobalTransactionStatus_aborted_sticks "MTM-1-7"
              [TRANSACTION_STATUS_COMMITTED; TRANSACTION_STATUS_UNKNOWN]
              (set_shm (ex_shm_gid ex_Mtm TRANSACTION_STATUS_ABORTED)
                 (ex_backend ex_Mtm TRANSACTION_STATUS_UNKNOWN 6000)))
    as (w' & Hrun & _).
  - reflexivity.
  - exists w'. exact Hrun.
Defined.

Lemma MtmInitializeSequence_disjoint_witness :
  (fst (MtmInitializeSequence 1 false 3) + 5 * snd (MtmInitializeSequence 1 false 3)
   =? fst (MtmInitializeSequence 2 false 3) + 4 * snd (MtmInitializeSequence 2 false 3))
  = false.
Proof.
  apply Z.eqb_neq. apply (MtmInitializeSequence_disjoint 3 1 2 5 4); lia.
Defined.

Lemma MtmRecoveryCompleted_defuses_witness :
  exists w1,
    MtmRecoveryCompleted 1 ex_frozen
      (ex_backend (set_status MTM_RECOVERY (set_disabledNodeMask 1 ex_Mtm))
         TRANSACTION_STATUS_UNKNOWN 6000) = Ok tt w1
    /\ status (Mtm (shm w1)) = MTM_CONNECTED
    /\ MtmWatchdog 1 false 1000 10000 2000 ex_frozen ex_idle ex_RaftableGet ex_RaftableSet
         ex_MtmFindMaxClique 1000000000 w1 = Ok true w1.
Proof.
  destruct (MtmRecoveryCompleted_defuses 1 false 1000 10000 2000 ex_frozen ex_idle
              ex_RaftableGet ex_RaftableSet ex_MtmFindMaxClique
              (ex_backend (set_status MTM_RECOVERY (set_disabledNodeMask 1 ex_Mtm))
                 TRANSACTION_STATUS_UNKNOWN 6000))
    as (w1 & Hrun & Hstatus & _ & Hquiet).
  - lia.
  - exists w1. split; [exact Hrun |]. split; [exact Hstatus | apply Hquiet].
Defined.

Lemma MtmCheckClusterLock_releases_witness :
  exists w',
    MtmCheckClusterLock ex_idle 1 (ex_backend ex_Mtm_locked TRANSACTION_STATUS_UNKNOWN 6000)
    = Ok tt w'
    /\ walSenderLockerMask (Mtm (shm w')) = 0
    /\ disabledNodeMask (Mtm (shm w')) = 0
    /\ nLiveNodes (Mtm (shm w')) = 4.
Proof.
  destruct (MtmCheckClusterLock_releases ex_idle 0
              (ex_backend ex_Mtm_locked TRANSACTION_STATUS_UNKNOWN 6000))
    as (w' & Hrun & Hsenders & _ & _ & Hmask & Hlive & _).
  - unfold uint64, UINT64_MAX. simpl. lia.
  - simpl. lia.
  - reflexivity.
  - intros i Hi Hset. simpl in Hset.
    destruct (Z.eq_dec i 0) as [-> | Hne]; [reflexivity |].
    change 1 with (2 ^ 0) in Hset. rewrite Z.pow2_bits_false in Hset by lia.
    discriminate Hset.
  - exists w'. split; [exact Hrun |]. split; [exact Hsenders |].
    split; [exact Hmask | exact Hlive].
Defined.

Lemma MtmAbortPreparedTransaction_once_witness :
  exists w1,
    MtmAbortPreparedTransaction
      (set_shm (ex_shm_gid ex_Mtm TRANSACTION_STATUS_UNKNOWN)
         (ex_backend ex_Mtm TRANSACTION_STATUS_UNKNOWN 6000)) = Ok tt w1
    /\ x_status (MtmTx w1) = TRANSACTION_STATUS_ABORTED
    /\ MtmAbortPreparedTransaction w1 = Ok tt w1.
Proof.
  destruct (MtmAbortPreparedTransaction_once
              (set_shm (ex_shm_gid ex_Mtm TRANSACTION_STATUS_UNKNOWN)
                 (ex_backend ex_Mtm TRANSACTION_STATUS_UNKNOWN 6000))
              {| tm_status := TRANSACTION_STATUS_UNKNOWN; tm_state := Some 7 |} 7
              (ex_ts TRANSACTION_STATUS_UNKNOWN))
    as (w1 & Hrun & Hstatus & _ & _ & Hagain).
  - discriminate.
  - discriminate.
  - reflexivity.
  - reflexivity.
  - reflexivity.
  - exists w1. split; [exact Hrun |]. split; [exact Hstatus | exact Hagain].
Defined.

Lemma MtmJoinTransaction_joins_witness :
  exists w',
    MtmJoinTransaction 1 UINT64_MAX ex_frozen (ex_ts TRANSACTION_STATUS_UNKNOWN) 101 11
      {| gtid_node := 2; gtid_xid := 9 |} 200
      (ex_backend ex_Mtm TRANSACTION_STATUS_UNKNOWN UINT64_MAX) = Ok tt w'
    /\ x_snapshot (MtmTx w') = 200
    /\ 200 <= csn (Mtm (shm w'))
    /\ replicated_snapshot UINT64_MAX (shm w') 11 = UINT64_MAX.
Proof.
  destruct (MtmJoinTransaction_joins 1 UINT64_MAX ex_frozen (ex_ts TRANSACTION_STATUS_UNKNOWN)
              101 11 {| gtid_node := 2; gtid_xid := 9 |} 200
              (ex_backend ex_Mtm TRANSACTION_STATUS_UNKNOWN UINT64_MAX))
    as (w' & Hrun & Hsnapshot & Hclock & _ & _ & _ & _ & Hlocal).
  - unfold UINT64_MAX. lia.
  - reflexivity.
  - reflexivity.
  - unfold UINT64_MAX. simpl. lia.
  - unfold UINT64_MAX. lia.
  - simpl. lia.
  - exists w'. split; [exact Hrun |]. split; [exact Hsnapshot |].
    split; [exact Hclock | exact Hlocal].
Defined.

Lemma pglogical_write_tuple_skips_dropped_witness :
  pglogical_write_tuple
    {| allow_internal_basetypes := false; allow_binary_basetypes := false |}
    ex_rel [ex_datum; ex_datum] (ex_backend ex_Mtm TRANSACTION_STATUS_UNKNOWN 6000)
  = pglogical_write_tuple
      {| allow_internal_basetypes := false; allow_binary_basetypes := false |}
      {| relnamespace := 2200; namespace_name := Some "public"; relname := "t";
         attrs := [ex_att false] |}
      [ex_datum] (ex_backend ex_Mtm TRANSACTION_STATUS_UNKNOWN 6000).
Proof.
  exact (pglogical_write_tuple_skips_dropped
           {| allow_internal_basetypes := false; allow_binary_basetypes := false |}
           ex_rel [ex_datum; ex_datum] (ex_backend ex_Mtm TRANSACTION_STATUS_UNKNOWN 6000)
           eq_refl).
Defined.

Lemma MtmPostPrepareTransaction_voted_witness :
  exists w',
    MtmPostPrepareTransaction 1 true 100 200 2 UINT64_MAX ex_clock ex_votes 2
      (ex_backend ex_Mtm TRANSACTION_STATUS_IN_PROGRESS 1000) = Ok tt w'
    /\ x_status (MtmTx w') = TRANSACTION_STATUS_IN_PROGRESS.
Proof.
  destruct (MtmPostPrepareTransaction_voted 1 true 100 200 2 UINT64_MAX ex_clock ex_votes
              1 2 (ex_backend ex_Mtm TRANSACTION_STATUS_IN_PROGRESS 1000)
              (ex_ts TRANSACTION_STATUS_IN_PROGRESS)
              (set_ts_votingCompleted true (ex_ts TRANSACTION_STATUS_IN_PROGRESS)))
    as (w' & Hrun & Hstatus & _).
  - reflexivity.
  - reflexivity.
  - reflexivity.
  - simpl. discriminate.
  - unfold timeout_in_range, uint64, UINT64_MAX. simpl. lia.
  - unfold UINT64_MAX. vm_compute. discriminate.
  - split; [| split; [vm_compute; discriminate | exact I]].
    exists (ex_ts TRANSACTION_STATUS_IN_PROGRESS).
    split; [reflexivity |]. split; [reflexivity |]. split; [discriminate |].
    split; reflexivity.
  - vm_compute. reflexivity.
  - reflexivity.
  - reflexivity.
  - simpl. lia.
  - simpl. lia.
  - lia.
  - exists w'. split; [exact Hrun | exact Hstatus].
Defined.

Lemma MtmPostPrepareTransaction_reconfigured_witness :
  exists w',
    MtmPostPrepareTransaction 1 true 100 200 2 UINT64_MAX ex_clock ex_reconfigures 2
      (ex_backend ex_Mtm TRANSACTION_STATUS_IN_PROGRESS 1000) = Ok tt w'
    /\ x_status (MtmTx w') = TRANSACTION_STATUS_ABORTED.
Proof.
  destruct (MtmPostPrepareTransaction_reconfigured 1 true 100 200 2 UINT64_MAX ex_clock
              ex_reconfigures
              1 2 (ex_backend ex_Mtm TRANSACTION_STATUS_IN_PROGRESS 1000)
              (ex_ts TRANSACTION_STATUS_IN_PROGRESS)
              (set_ts_votingCompleted true (ex_ts TRANSACTION_STATUS_IN_PROGRESS)))
    as (w' & Hrun & _ & Haborted & _).
  - reflexivity.
  - reflexivity.
  - reflexivity.
  - simpl. discriminate.
  - unfold timeout_in_range, uint64, UINT64_MAX. simpl. lia.
  - unfold UINT64_MAX. vm_compute. discriminate.
  - split; [| split; [vm_compute; discriminate | exact I]].
    exists (ex_ts TRANSACTION_STATUS_IN_PROGRESS).
    split; [reflexivity |]. split; [reflexivity |]. split; [discriminate |].
    split; reflexivity.
  - vm_compute. reflexivity.
  - simpl. discriminate.
  - simpl. lia.
  - simpl. lia.
  - simpl. lia.
  - lia.
  - exists w'. split; [exact Hrun | exact Haborted].
Defined.

Lemma MtmPostPrepareTransaction_participant_witness :
  exists w',
    MtmPostPrepareTransaction 2 false 100 200 2 UINT64_MAX ex_clock ex_idle 0
      (ex_backend ex_Mtm TRANSACTION_STATUS_IN_PROGRESS 1000) = Ok tt w'
    /\ ts_status <$> MtmXid2State (shm w') !! 7 = Some TRANSACTION_STATUS_UNKNOWN
    /\ votingTransactions (Mtm (shm w')) = [7]
    /\ x_snapshot (MtmTx w') = UINT64_MAX.
Proof.
  destruct (MtmPostPrepareTransaction_participant 2 false 100 200 2 UINT64_MAX ex_clock ex_idle
              0 (ex_backend ex_Mtm TRANSACTION_STATUS_IN_PROGRESS 1000)
              (ex_ts TRANSACTION_STATUS_IN_PROGRESS))
    as (w' & ts' & Hrun & _ & Hts' & _ & _ & Hunknown & Hlist & Hsnapshot & _).
  - reflexivity.
  - reflexivity.
  - reflexivity.
  - simpl. discriminate.
  - simpl. lia.
  - simpl. lia.
  - exists w'. split; [exact Hrun |]. split.
    + simpl in Hts'. rewrite Hts'. simpl. rewrite (Hunknown eq_refl). reflexivity.
    + split; [exact Hlist | exact Hsnapshot].
Defined.
